(** * RozetkaPay client: a shallow embedding of the Go sources

    The development follows the repository file by file: the
    configuration ([config.go]), the error type, the schemas and the
    transport ([client.go]).  The Go standard-library functions the sources
    call ([fmt.Errorf], [base64.StdEncoding.EncodeToString],
    [json.Marshal], [json.Unmarshal], [time.Time]'s JSON methods) are
    modelled first, each in a module named after its package.

    Go strings and byte slices are sequences of bytes: they are [string]s
    here, one [ascii] per byte. *)

From Stdlib Require Import ZArith NArith Ascii String List Bool Lia.
From stdpp Require Import base option gmap strings list.

Local Open Scope string_scope.
Local Open Scope Z_scope.

(* stdpp freezes string append under [simpl]; the byte-level functions below
   are stated with literals in front of variables, so it is unfrozen. *)
Global Arguments String.append !_ _ / : simpl nomatch.

#[local] Set Warnings "-register-all".

(** ** Bytes *)

Module Bytes.

(** The numeric value of a byte. *)
Definition val (b : ascii) : Z := Z.of_N (N_of_ascii b).

Definition of_val (z : Z) : ascii := ascii_of_N (Z.to_N z).

Definition in_range (lo hi : Z) (b : ascii) : bool :=
  (lo <=? val b) && (val b <=? hi).

Definition is_digit (b : ascii) : bool := in_range 48 57 b.

Definition digit_val (b : ascii) : Z := val b - 48.

Definition is_hex (b : ascii) : bool :=
  in_range 48 57 b || in_range 97 102 b || in_range 65 70 b.

Definition hex_val (b : ascii) : Z :=
  if in_range 48 57 b then val b - 48
  else if in_range 97 102 b then val b - 97 + 10
  else val b - 65 + 10.

(** [hex[x]] of the Go sources: the lower-case hexadecimal digit. *)
Definition hex_digit (x : Z) : ascii :=
  if x <? 10 then of_val (48 + x) else of_val (97 + x - 10).

(** The double quote, and texts written with an apostrophe wherever the
    text meant has a double quote. *)
Definition dquote : ascii := of_val 34.

Fixpoint q (s : string) : string :=
  match s with
  | "" => ""
  | String b r => String (if Ascii.eqb b "'" then dquote else b) (q r)
  end.

Definition is_upper (b : ascii) : bool := in_range 65 90 b.
Definition is_lower (b : ascii) : bool := in_range 97 122 b.
Definition is_alpha (b : ascii) : bool := is_upper b || is_lower b.

Definition to_upper (b : ascii) : ascii :=
  if is_lower b then of_val (val b - 32) else b.

Fixpoint take (n : nat) (s : string) : string :=
  match n, s with
  | S k, String b r => String b (take k r)
  | _, _ => ""
  end.

Fixpoint drop (n : nat) (s : string) : string :=
  match n, s with
  | S k, String _ r => drop k r
  | _, _ => s
  end.

Fixpoint all (p : ascii -> bool) (s : string) : bool :=
  match s with
  | "" => true
  | String b r => p b && all p r
  end.

Fixpoint contains (c : ascii) (s : string) : bool :=
  match s with
  | "" => false
  | String b r => Ascii.eqb b c || contains c r
  end.

End Bytes.

(** ** Package [unicode/utf8] *)

Module utf8.
Import Bytes.

(** A continuation byte, [0x80..0xBF]. *)
Definition cont (b : ascii) : bool := in_range 128 191 b.

(** The accepted range of the second byte after the leading byte [x]
    ([first] and [acceptRanges] of the Go package). *)
Definition second_ok (x : Z) (b : ascii) : bool :=
  if x =? 224 then in_range 160 191 b
  else if x =? 237 then in_range 128 159 b
  else if x =? 240 then in_range 144 191 b
  else if x =? 244 then in_range 128 143 b
  else cont b.

(** [size s]: the width in bytes of the well-formed encoding at the head
    of [s], or [0] when [s] is empty or starts with an ill-formed
    sequence (for which [DecodeRune] answers [(RuneError, 1)]). *)
Definition size (s : string) : nat :=
  match s with
  | "" => 0%nat
  | String b0 r0 =>
    let x := val b0 in
    if x <? 128 then 1%nat
    else if x <? 194 then 0%nat
    else if x <? 224 then
      match r0 with
      | String b1 _ => if cont b1 then 2%nat else 0%nat
      | _ => 0%nat
      end
    else if x <? 240 then
      match r0 with
      | String b1 (String b2 _) =>
        if second_ok x b1 && cont b2 then 3%nat else 0%nat
      | _ => 0%nat
      end
    else if x <? 245 then
      match r0 with
      | String b1 (String b2 (String b3 _)) =>
        if second_ok x b1 && cont b2 && cont b3 then 4%nat else 0%nat
      | _ => 0%nat
      end
    else 0%nat
  end.

(** The encoding of U+FFFD, [RuneError]. *)
Definition replacement : string :=
  String (of_val 239) (String (of_val 191) (String (of_val 189) "")).

(** [EncodeRune]: surrogates and values above U+10FFFF are written as
    U+FFFD. *)
Definition EncodeRune (r : Z) : string :=
  if r <? 0 then replacement
  else if r <? 128 then String (of_val r) ""
  else if r <? 2048 then
    String (of_val (192 + r / 64)) (String (of_val (128 + r mod 64)) "")
  else if (55296 <=? r) && (r <=? 57343) then replacement
  else if r <? 65536 then
    String (of_val (224 + r / 4096))
      (String (of_val (128 + (r / 64) mod 64))
         (String (of_val (128 + r mod 64)) ""))
  else if r <? 1114112 then
    String (of_val (240 + r / 262144))
      (String (of_val (128 + (r / 4096) mod 64))
         (String (of_val (128 + (r / 64) mod 64))
            (String (of_val (128 + r mod 64)) "")))
  else replacement.

(** [ValidString], with the index of the source kept as the number of
    bytes of the current encoding still to be passed over. *)
Fixpoint valid_from (skip : nat) (s : string) : bool :=
  match s with
  | "" => true
  | String _ r =>
    match skip with
    | S k => valid_from k r
    | O =>
      match size s with
      | O => false
      | S n => valid_from n r
      end
    end
  end.

Definition ValidString (s : string) : bool := valid_from 0 s.

End utf8.

(** ** Go errors

    An [error] value is an interface holding a pointer; two errors made by
    separate calls of [errors.New] are different values even when their
    texts agree.  [errorString] therefore records where the value was
    allocated: in a package-level variable, or by the call that returns
    it. *)

Inductive errptr : Type :=
| PkgVar (name : string)
| Alloc (by_ : string).

Inductive error : Type :=
| errorString (p : errptr) (s : string)
| SyntaxError (msg : string)
| UnmarshalTypeError (value : string) (type_ : string)
| InvalidUnmarshalError (type_ : string)
| MarshalerError (type_ : string) (msg : string)
| TimeParseError (msg : string)
| TransportError (msg : string).

(** The [Error()] method. *)
Definition Error (e : error) : string :=
  match e with
  | errorString _ s => s
  | SyntaxError msg => msg
  | UnmarshalTypeError v t =>
    "json: cannot unmarshal " +:+ v +:+ " into Go value of type " +:+ t
  | InvalidUnmarshalError t => "json: Unmarshal(" +:+ t +:+ ")"
  | MarshalerError t msg =>
    "json: error calling MarshalJSON for type " +:+ t +:+ ": " +:+ msg
  | TimeParseError msg => msg
  | TransportError msg => msg
  end.

Module errors.
Definition New (site : string) (text : string) : error :=
  errorString (Alloc site) text.
End errors.

(** ** Package [fmt]: [Errorf] called with a format and no operands

    [doPrintf] copies the format up to each [%], then reads flags, an
    optional argument index, width, precision, again an index, and the verb.
    With no operand to print, a verb other than [%] is reported as missing
    (or as a bad index when an index was written), a [*] width or precision
    as bad, and a format that ends inside a directive as lacking a verb. *)

Module fmt.
Import Bytes.

Definition percentBangString := "%!".
Definition missingString := "(MISSING)".
Definition badIndexString := "(BADINDEX)".
Definition noVerbString := "%!(NOVERB)".
Definition badWidthString := "%!(BADWIDTH)".
Definition badPrecString := "%!(BADPREC)".

Definition tooLarge (x : Z) : bool := (1000000 <? x) || (x <? -1000000).

(** [parsenum]: the digits at the head of [s]; the answer is the number,
    whether a digit was read, and what is left.  A number that grows too
    large gives up and moves to the end of the region. *)
Fixpoint parsenum (num : Z) (isnum : bool) (s : string)
  : Z * bool * string :=
  match s with
  | String b r =>
    if is_digit b then
      if tooLarge num then (0, false, "")
      else parsenum (num * 10 + digit_val b) true r
    else (num, isnum, s)
  | "" => (num, isnum, "")
  end.

Fixpoint index_of (c : ascii) (s : string) : option nat :=
  match s with
  | "" => None
  | String b r =>
    if Ascii.eqb b c then Some O else S <$> index_of c r
  end.

(** [parseArgNumber format]: [format] starts with the bracket; the answer
    is the width of what is to be passed over and whether a number was
    found between brackets. *)
Definition parseArgNumber (format : string) : nat * bool :=
  if (String.length format <? 3)%nat then (1%nat, false)
  else
    match index_of "]" (drop 1 format) with
    | None => (1%nat, false)
    | Some k =>
      let '(_, ok, rest) := parsenum 0 false (take k (drop 1 format)) in
      (S (S k), ok && (String.length rest =? 0)%nat)
    end.

(** [argNumber] with [numArgs = 0]: no index is in range, so a bracket
    always clears [goodArgNum].  The answer is the rest of the format,
    [found], and whether a bracket was seen. *)
Definition argNumber (s : string) : string * bool * bool :=
  match s with
  | String "[" _ =>
    let '(wid, ok) := parseArgNumber s in (drop wid s, ok, true)
  | _ => (s, false, false)
  end.

Fixpoint skip_flags (s : string) : string :=
  match s with
  | String b r =>
    if contains b "#0+- " then skip_flags r else s
  | "" => ""
  end.

(** The verb is a rune: what [writeRune] appends for it, and its width in
    the format. *)
Definition verb_rune (s : string) : string * nat :=
  match utf8.size s with
  | O => (utf8.replacement, 1%nat)
  | n => (take n s, n)
  end.

(** The width, after the flags and a first index. *)
Definition width (s : string) (afterIndex good : bool)
  : string * string * bool * bool :=
  match s with
  | String "*" r => (badWidthString, r, false, good)
  | _ =>
    let '(_, present, r) := parsenum 0 false s in
    ("", r, afterIndex, good && negb (afterIndex && present))
  end.

(** The precision. *)
Definition precision (s : string) (afterIndex good : bool)
  : string * string * bool * bool :=
  match s with
  | String "." r =>
    let good1 := good && negb afterIndex in
    let '(r1, afterIndex1, bad) := argNumber r in
    let good2 := good1 && negb bad in
    match r1 with
    | String "*" r2 => (badPrecString, r2, false, good2)
    | _ =>
      let '(_, _, r2) := parsenum 0 false r1 in
      ("", r2, afterIndex1, good2)
    end
  | _ => ("", s, afterIndex, good)
  end.

(** One directive; [r] is the format after the [%].  The answer is the
    text written and the rest of the format. *)
Definition directive (r : string) : string * string :=
  let '(r2, afterIndex, bad) := argNumber (skip_flags r) in
  let '(out_w, r3, afterIndex3, good3) := width r2 afterIndex (negb bad) in
  let '(out_p, r4, afterIndex4, good4) := precision r3 afterIndex3 good3 in
  let '(r5, good5) :=
    if afterIndex4 then (r4, good4)
    else let '(x, _, bad) := argNumber r4 in (x, good4 && negb bad) in
  match r5 with
  | "" => (out_w +:+ out_p +:+ noVerbString, "")
  | String b _ =>
    let '(verb, n) := verb_rune r5 in
    let out :=
      if Ascii.eqb b "%" then "%"
      else if negb good5 then percentBangString +:+ verb +:+ badIndexString
      else percentBangString +:+ verb +:+ missingString in
    (out_w +:+ out_p +:+ out, drop n r5)
  end.

(** [doPrintf format []]; [skip] is the number of bytes of the directive
    being read that are still ahead of the index. *)
Fixpoint doPrintf_from (skip : nat) (format : string) : string :=
  match format with
  | "" => ""
  | String b r =>
    match skip with
    | S k => doPrintf_from k r
    | O =>
      if Ascii.eqb b "%" then
        let '(out, rest) := directive r in
        out +:+ doPrintf_from (String.length r - String.length rest) r
      else String b (doPrintf_from 0 r)
    end
  end.

Definition Sprintf0 (format : string) : string := doPrintf_from 0 format.

(** [fmt.Errorf(format)]: no operand, hence no wrapped error; the result
    is a fresh [errorString] holding the formatted text. *)
Definition Errorf (format : string) : error :=
  errors.New "fmt.Errorf" (Sprintf0 format).

End fmt.

(** ** Package [encoding/base64]: [StdEncoding.EncodeToString] *)

Module base64.
Import Bytes.

Definition encodeStd : string :=
  "ABCDEFGHIJKLMNOPQRSTUVWXYZabcdefghijklmnopqrstuvwxyz0123456789+/".

Definition StdPadding : ascii := "=".

(** [enc.encode[i]] *)
Definition encode (i : Z) : ascii :=
  match String.get (Z.to_nat i) encodeStd with
  | Some ch => ch
  | None => StdPadding
  end.

(** [Encode]: three source bytes give four characters; a last block of
    one or two bytes is padded. *)
Fixpoint EncodeToString (src : string) : string :=
  match src with
  | "" => ""
  | String s0 "" =>
    let v := Z.shiftl (val s0) 16 in
    String (encode (Z.land (Z.shiftr v 18) 63))
      (String (encode (Z.land (Z.shiftr v 12) 63))
         (String StdPadding (String StdPadding "")))
  | String s0 (String s1 "") =>
    let v := Z.lor (Z.shiftl (val s0) 16) (Z.shiftl (val s1) 8) in
    String (encode (Z.land (Z.shiftr v 18) 63))
      (String (encode (Z.land (Z.shiftr v 12) 63))
         (String (encode (Z.land (Z.shiftr v 6) 63))
            (String StdPadding "")))
  | String s0 (String s1 (String s2 r)) =>
    let v := Z.lor (Z.lor (Z.shiftl (val s0) 16) (Z.shiftl (val s1) 8))
                   (val s2) in
    String (encode (Z.land (Z.shiftr v 18) 63))
      (String (encode (Z.land (Z.shiftr v 12) 63))
         (String (encode (Z.land (Z.shiftr v 6) 63))
            (String (encode (Z.land v 63)) (EncodeToString r))))
  end.

End base64.

(** ** [config.go] *)

Definition API_URL : string := "https://api.rozetkapay.com/api/".
Definition DevLogin : string := "a6a29002-dc68-4918-bc5d-51a6094b14a8".
Definition DevPassword : string := "XChz3J8qrr".

Record Config : Type := mkConfig {
  API : string;
  BasicAuth : string;
  ResultURL : string;
  CallbackURL : string;
  Debug : bool
}.

(** Fields a composite literal leaves out hold their zero value. *)
Definition NewConfig (login password : string) : Config :=
  {| BasicAuth := base64.EncodeToString (login +:+ ":" +:+ password);
     API := API_URL;
     ResultURL := "";
     CallbackURL := "";
     Debug := false |}.

Definition NewDevelopmentConfig : Config :=
  {| BasicAuth := base64.EncodeToString (DevLogin +:+ ":" +:+ DevPassword);
     API := API_URL;
     ResultURL := "";
     CallbackURL := "";
     Debug := true |}.

(** The setters write one field of the configuration they are called on and
    return it. *)
Definition SetCallbackURL (c : Config) (callbackURL : string) : Config :=
  {| API := API c; BasicAuth := BasicAuth c; ResultURL := ResultURL c;
     CallbackURL := callbackURL; Debug := Debug c |}.

Definition SetResultURL (c : Config) (resultURL : string) : Config :=
  {| API := API c; BasicAuth := BasicAuth c; ResultURL := resultURL;
     CallbackURL := CallbackURL c; Debug := Debug c |}.

Definition SetDebugMode (c : Config) (debug : bool) : Config :=
  {| API := API c; BasicAuth := BasicAuth c; ResultURL := ResultURL c;
     CallbackURL := CallbackURL c; Debug := debug |}.

(** ** Package [time]: the JSON methods of [time.Time]

    A [Time] is kept as what [Date], [Clock], [Nanosecond] and [Zone]
    report of it: its civil reading in its own zone, and the offset of that
    zone in seconds east of UTC.  This is all that the RFC 3339 text
    written by [MarshalJSON] is computed from.  [UnmarshalJSON] is the fast
    path of the package ([parseRFC3339]); the few other spellings that the
    layout-driven [Parse] behind it lets through are rejected here. *)

Module time.
Import Bytes.

Record Time : Type := mkTime {
  year : Z; month : Z; day : Z;
  hour : Z; minute : Z; second : Z;
  nsec : Z;
  offset : Z
}.

(** [Time{}]: January 1, year 1, 00:00:00 UTC. *)
Definition zero : Time := mkTime 1 1 1 0 0 0 0 0.

Definition digit (x : Z) : ascii := of_val (48 + x).

(** The decimal digits of [u >= 0], most significant first. *)
Fixpoint digits (fuel : nat) (u : Z) (acc : string) : string :=
  match fuel with
  | O => acc
  | S f =>
    if u <? 10 then String (digit u) acc
    else digits f (u / 10) (String (digit (u mod 10)) acc)
  end.

Fixpoint zeros (n : nat) : string :=
  match n with
  | O => ""
  | S k => String "0" (zeros k)
  end.

(** [appendInt]: a minus sign if negative, zeros up to [width], the
    digits. *)
Definition appendInt (x : Z) (width : nat) : string :=
  let u := Z.abs x in
  let ds := digits (S (Z.to_nat (Z.log2 u))) u "" in
  (if x <? 0 then "-" else "")
    +:+ zeros (width - String.length ds) +:+ ds.

Fixpoint trim_zeros_rev (s : list ascii) : list ascii :=
  match s with
  | ("0"%char :: r)%list => trim_zeros_rev r
  | _ => s
  end.

(** Dropping the zeros at the end of a string. *)
Definition trim_zeros (s : string) : string :=
  string_of_list_ascii
    (rev (trim_zeros_rev (rev (list_ascii_of_string s)))).

(** [appendNano] for the layout [.999999999]. *)
Definition appendNano (nanosec : Z) : string :=
  if nanosec =? 0 then ""
  else "." +:+ trim_zeros (appendInt nanosec 9).

Definition appendFormatRFC3339 (t : Time) : string :=
  appendInt (year t) 4 +:+ "-" +:+ appendInt (month t) 2 +:+ "-"
    +:+ appendInt (day t) 2 +:+ "T"
    +:+ appendInt (hour t) 2 +:+ ":" +:+ appendInt (minute t) 2 +:+ ":"
    +:+ appendInt (second t) 2
    +:+ appendNano (nsec t)
    +:+ (if offset t =? 0 then "Z"
         else
           let zone := Z.quot (offset t) 60 in
           (if zone <? 0 then "-" else "+")
             +:+ appendInt (Z.abs zone / 60) 2 +:+ ":"
             +:+ appendInt (Z.abs zone mod 60) 2).

Definition byte_at (n : nat) (s : string) : ascii :=
  match String.get n s with
  | Some b => b
  | None => of_val 0
  end.

Definition num2 (s : string) : Z :=
  10 * (val (byte_at 0 s) - 48) + (val (byte_at 1 s) - 48).

(** [appendStrictRFC3339]: the year must take four digits and the zone
    hour stay below 24. *)
Definition appendStrictRFC3339 (t : Time) : string + string :=
  let b := appendFormatRFC3339 t in
  let n := String.length b in
  if negb (Ascii.eqb (byte_at 4 b) "-") then
    inr "year outside of range [0,9999]"
  else if negb (Ascii.eqb (byte_at (n - 1) b) "Z")
       && (is_digit (byte_at (n - 6) b) || (24 <=? num2 (drop (n - 5) b)))
  then inr "timezone hour outside of range [0,23]"
  else inl b.

(** [MarshalJSON]: the text between double quotes. *)
Definition MarshalJSON (t : Time) : string + error :=
  match appendStrictRFC3339 t with
  | inl b => inl (String dquote b +:+ String dquote "")
  | inr msg => inr (TimeParseError ("Time.MarshalJSON: " +:+ msg))
  end.

(** [parseUint] of [parseRFC3339]: digits only, and within range. *)
Fixpoint atoi (acc : Z) (s : string) : option Z :=
  match s with
  | "" => Some acc
  | String b r =>
    if is_digit b then atoi (acc * 10 + digit_val b) r else None
  end.

Definition parseUint (s : string) (min max : Z) : option Z :=
  match atoi 0 s with
  | Some x => if (x <? min) || (max <? x) then None else Some x
  | None => None
  end.

Definition isLeap (y : Z) : bool :=
  (y mod 4 =? 0) && (negb (y mod 100 =? 0) || (y mod 400 =? 0)).

Definition daysIn (m y : Z) : Z :=
  if m =? 2 then (if isLeap y then 29 else 28)
  else if (m =? 4) || (m =? 6) || (m =? 9) || (m =? 11) then 30
  else 31.

Definition slice (lo hi : nat) (s : string) : string :=
  take (hi - lo) (drop lo s).

Fixpoint span_digits (s : string) : string * string :=
  match s with
  | String b r =>
    if is_digit b then
      let '(d, rest) := span_digits r in (String b d, rest)
    else ("", s)
  | "" => ("", "")
  end.

(** [parseNanoseconds]: at most nine digits count, scaled to
    nanoseconds. *)
Definition parseNanoseconds (ds : string) : Z :=
  let d9 := take 9 ds in
  match atoi 0 d9 with
  | Some x => x * 10 ^ Z.of_nat (9 - String.length d9)
  | None => 0
  end.

Definition parseZone (s : string) : option Z :=
  if String.eqb s "Z" then Some 0
  else if negb (String.length s =? 6)%nat then None
  else
    match parseUint (slice 1 3 s) 0 23, parseUint (slice 4 6 s) 0 59 with
    | Some hr, Some mm =>
      let sign := byte_at 0 s in
      if (Ascii.eqb sign "-" || Ascii.eqb sign "+")
         && Ascii.eqb (byte_at 3 s) ":"
      then
        let zoneOffset := (hr * 60 + mm) * 60 in
        Some (if Ascii.eqb sign "-" then - zoneOffset else zoneOffset)
      else None
    | _, _ => None
    end.

Definition parseRFC3339 (s : string) : option Time :=
  if (String.length s <? 19)%nat then None
  else
    match parseUint (slice 0 4 s) 0 9999,
          parseUint (slice 5 7 s) 1 12 with
    | Some y, Some mo =>
      match parseUint (slice 8 10 s) 1 (daysIn mo y),
            parseUint (slice 11 13 s) 0 23,
            parseUint (slice 14 16 s) 0 59,
            parseUint (slice 17 19 s) 0 59 with
      | Some d, Some h, Some mi, Some sec =>
        if Ascii.eqb (byte_at 4 s) "-" && Ascii.eqb (byte_at 7 s) "-"
           && Ascii.eqb (byte_at 10 s) "T" && Ascii.eqb (byte_at 13 s) ":"
           && Ascii.eqb (byte_at 16 s) ":"
        then
          let s1 := drop 19 s in
          let '(ns, s2) :=
            match s1 with
            | String "." (String b r) =>
              if is_digit b then
                let '(ds, rest) := span_digits (String b r) in
                (parseNanoseconds ds, rest)
              else (0, s1)
            | _ => (0, s1)
            end in
          match parseZone s2 with
          | Some off => Some (mkTime y mo d h mi sec ns off)
          | None => None
          end
        else None
      | _, _, _, _ => None
      end
    | _, _ => None
    end.

(** [UnmarshalJSON data]: [data] is the text of the JSON value as it
    stands in the input; [null] leaves the receiver as it is. *)
Definition UnmarshalJSON (data : string) (t : Time) : Time + error :=
  if String.eqb data "null" then inl t
  else
    let n := String.length data in
    if (n <? 2)%nat || negb (Ascii.eqb (byte_at 0 data) dquote)
       || negb (Ascii.eqb (byte_at (n - 1) data) dquote)
    then inr (TimeParseError "Time.UnmarshalJSON: input is not a JSON string")
    else
      match parseRFC3339 (slice 1 (n - 1) data) with
      | Some t' => inl t'
      | None => inr (TimeParseError "parsing time: cannot parse")
      end.

End time.

(** ** Package [encoding/json]

    The package works in two passes, and so does the model: the scanner
    checks that the input is one JSON text ([checkValid]) and the decoder
    then walks it, guided by the Go type of the destination; the encoder
    walks a Go value guided by its type and writes the text.

    A JSON text is kept as the tree the scanner sees.  String and number
    leaves hold their literal as written in the text: a string is unquoted
    only when it is stored into a Go string or compared with a field
    name. *)

Module json.
Import Bytes.

(** *** String literals *)

(** [htmlSafeSet]: the ASCII bytes the encoder copies as they are. *)
Definition htmlSafe (b : ascii) : bool :=
  in_range 32 127 b
  && negb (Ascii.eqb b dquote) && negb (Ascii.eqb b "&")
  && negb (Ascii.eqb b "<") && negb (Ascii.eqb b ">")
  && negb (Ascii.eqb b "\").

(** What [appendString] writes for one ASCII byte. *)
Definition escape_ascii (b : ascii) : string :=
  if htmlSafe b then String b ""
  else if Ascii.eqb b "\" || Ascii.eqb b dquote then String "\" (String b "")
  else if val b =? 8 then "\b"
  else if val b =? 12 then "\f"
  else if val b =? 10 then "\n"
  else if val b =? 13 then "\r"
  else if val b =? 9 then "\t"
  else
    "\u00" +:+ String (hex_digit (Z.shiftr (val b) 4))
                (String (hex_digit (Z.land (val b) 15)) "").

(** U+2028 and U+2029 are always written as escapes; the answer is the
    last hexadecimal digit. *)
Definition line_separator (s : string) : option ascii :=
  match s with
  | String b0 (String b1 (String b2 _)) =>
    if (val b0 =? 226) && (val b1 =? 128) then
      if val b2 =? 168 then Some "8"%char
      else if val b2 =? 169 then Some "9"%char
      else None
    else None
  | _ => None
  end.

(** [appendString] with [escapeHTML] set, without the enclosing quotes;
    [skip] counts the bytes of the current rune still ahead of the
    index. *)
Fixpoint appendString_from (skip : nat) (s : string) : string :=
  match s with
  | "" => ""
  | String b r =>
    match skip with
    | S k => appendString_from k r
    | O =>
      if val b <? 128 then escape_ascii b +:+ appendString_from 0 r
      else
        match utf8.size s with
        | O => "\ufffd" +:+ appendString_from 0 r
        | S n =>
          match line_separator s with
          | Some d => "\u202" +:+ String d (appendString_from n r)
          | None => take (S n) s +:+ appendString_from n r
          end
        end
    end
  end.

Definition appendString (s : string) : string := appendString_from 0 s.

(** The scanner inside a string literal. *)
Inductive sstate : Type :=
| InString
| InStringEsc
| InStringEscU (more : nat).

Definition push (b : ascii) (o : option (string * string))
  : option (string * string) :=
  match o with
  | Some (lit, rest) => Some (String b lit, rest)
  | None => None
  end.

(** [scan_string st s]: [s] follows the opening quote; the answer is the
    literal up to the closing quote and the text after it. *)
Fixpoint scan_string (st : sstate) (s : string) : option (string * string) :=
  match s with
  | "" => None
  | String b r =>
    match st with
    | InString =>
      if Ascii.eqb b dquote then Some ("", r)
      else if Ascii.eqb b "\" then push b (scan_string InStringEsc r)
      else if val b <? 32 then None
      else push b (scan_string InString r)
    | InStringEsc =>
      if contains b "bfnrt\/" || Ascii.eqb b dquote
      then push b (scan_string InString r)
      else if Ascii.eqb b "u" then push b (scan_string (InStringEscU 3) r)
      else None
    | InStringEscU n =>
      if is_hex b then
        push b (scan_string
                  (match n with O => InString | S k => InStringEscU k end) r)
      else None
    end
  end.

(** [getu4]: the number written by a [\uXXXX] at the head of [s]. *)
Definition getu4 (s : string) : option Z :=
  match s with
  | String "\" (String "u" (String a (String b (String c (String d _))))) =>
    if is_hex a && is_hex b && is_hex c && is_hex d then
      Some (hex_val a * 4096 + hex_val b * 256 + hex_val c * 16 + hex_val d)
    else None
  | _ => None
  end.

(** A [\u] escape at the head of [s], with the surrogate pairs of
    [utf16.DecodeRune]: the bytes written and the width read. *)
Definition unescape_u (s : string) : option (string * nat) :=
  match getu4 s with
  | None => None
  | Some rr =>
    if (55296 <=? rr) && (rr <? 57344) then
      match getu4 (drop 6 s) with
      | Some rr1 =>
        if (rr <? 56320) && (56320 <=? rr1) && (rr1 <? 57344) then
          Some (utf8.EncodeRune
                  (Z.lor (Z.shiftl (rr - 55296) 10) (rr1 - 56320) + 65536),
                12%nat)
        else Some (utf8.replacement, 6%nat)
      | None => Some (utf8.replacement, 6%nat)
      end
    else Some (utf8.EncodeRune rr, 6%nat)
  end.

Definition simple_escape (e : ascii) : option ascii :=
  if Ascii.eqb e dquote || contains e "\/'" then Some e
  else if Ascii.eqb e "b" then Some (of_val 8)
  else if Ascii.eqb e "f" then Some (of_val 12)
  else if Ascii.eqb e "n" then Some (of_val 10)
  else if Ascii.eqb e "r" then Some (of_val 13)
  else if Ascii.eqb e "t" then Some (of_val 9)
  else None.

Definition prepend (p : string) (o : option string) : option string :=
  match o with
  | Some s => Some (p +:+ s)
  | None => None
  end.

(** [unquoteBytes] on the inside of a literal: escapes are replaced and
    ill-formed UTF-8 is coerced to U+FFFD. *)
Fixpoint unquote_from (skip : nat) (s : string) : option string :=
  match s with
  | "" => Some ""
  | String b r =>
    match skip with
    | S k => unquote_from k r
    | O =>
      if Ascii.eqb b "\" then
        match r with
        | "" => None
        | String e _ =>
          if Ascii.eqb e "u" then
            match unescape_u s with
            | Some (out, n) => prepend out (unquote_from (n - 1) r)
            | None => None
            end
          else
            match simple_escape e with
            | Some ch => prepend (String ch "") (unquote_from 1 r)
            | None => None
            end
        end
      else if Ascii.eqb b dquote || (val b <? 32) then None
      else if val b <? 128 then prepend (String b "") (unquote_from 0 r)
      else
        match utf8.size s with
        | O => prepend utf8.replacement (unquote_from 0 r)
        | S n => prepend (take (S n) s) (unquote_from n r)
        end
    end
  end.

Definition unquote (lit : string) : option string := unquote_from 0 lit.

(** *** JSON texts *)

Inductive value : Type :=
| Null
| Bool (b : bool)
| Number (lit : string)
| Str (lit : string)
| Array (elems : list value)
| Object (members : list (string * value)).

Definition quoted (lit : string) : string :=
  String dquote lit +:+ String dquote "".

(** The compact text of a tree, as the encoder writes it. *)
Fixpoint render (v : value) : string :=
  match v with
  | Null => "null"
  | Bool true => "true"
  | Bool false => "false"
  | Number lit => lit
  | Str lit => quoted lit
  | Array l =>
    "[" +:+
    (fix elems (l : list value) : string :=
       match l with
       | [] => "]"
       | x :: r =>
         render x +:+ match r with [] => "]" | _ => "," +:+ elems r end
       end) l
  | Object m =>
    "{" +:+
    (fix members (m : list (string * value)) : string :=
       match m with
       | [] => "}"
       | (k, x) :: r =>
         quoted k +:+ ":" +:+ render x
           +:+ match r with [] => "}" | _ => "," +:+ members r end
       end) m
  end.

Definition is_space (b : ascii) : bool :=
  (val b =? 32) || (val b =? 9) || (val b =? 13) || (val b =? 10).

Fixpoint skip_ws (s : string) : string :=
  match s with
  | String b r => if is_space b then skip_ws r else s
  | "" => ""
  end.

Fixpoint span (p : ascii -> bool) (s : string) : string * string :=
  match s with
  | String b r =>
    if p b then let '(d, rest) := span p r in (String b d, rest)
    else ("", s)
  | "" => ("", "")
  end.

(** The number grammar of the scanner: an optional minus, [0] or a
    digit sequence not starting with [0], an optional fraction, an
    optional exponent. *)
Definition scan_int (s : string) : option (string * string) :=
  match s with
  | String b r =>
    if Ascii.eqb b "0" then Some ("0", r)
    else if is_digit b then
      let '(d, rest) := span is_digit r in Some (String b d, rest)
    else None
  | "" => None
  end.

Definition scan_digits1 (s : string) : option (string * string) :=
  match span is_digit s with
  | ("", _) => None
  | (d, rest) => Some (d, rest)
  end.

Definition scan_frac (s : string) : option (string * string) :=
  match s with
  | String "." r =>
    match scan_digits1 r with
    | Some (d, rest) => Some (String "." d, rest)
    | None => None
    end
  | _ => Some ("", s)
  end.

Definition scan_exp (s : string) : option (string * string) :=
  match s with
  | String e r =>
    if Ascii.eqb e "e" || Ascii.eqb e "E" then
      let '(sign, r1) :=
        match r with
        | String sg r' =>
          if Ascii.eqb sg "+" || Ascii.eqb sg "-"
          then (String sg "", r') else ("", r)
        | "" => ("", r)
        end in
      match scan_digits1 r1 with
      | Some (d, rest) => Some (String e sign +:+ d, rest)
      | None => None
      end
    else Some ("", s)
  | "" => Some ("", s)
  end.

Definition scan_number (s : string) : option (string * string) :=
  let '(sign, s0) :=
    match s with
    | String "-" r => ("-", r)
    | _ => ("", s)
    end in
  match scan_int s0 with
  | None => None
  | Some (i, s1) =>
    match scan_frac s1 with
    | None => None
    | Some (f, s2) =>
      match scan_exp s2 with
      | None => None
      | Some (e, s3) => Some (sign +:+ i +:+ f +:+ e, s3)
      end
    end
  end.

(** [expect w s]: [s] without the word [w] at its head. *)
Fixpoint expect (w s : string) : option string :=
  match w, s with
  | "", _ => Some s
  | String a w', String b s' => if Ascii.eqb a b then expect w' s' else None
  | _, "" => None
  end.

Definition maxNestingDepth : Z := 10000.

(** One value at the head of [s] (after blanks) and the text after it.
    [depth] is the number of arrays and objects that are open; [fuel]
    bounds the recursion, every call of which reads at least one byte. *)
Fixpoint parse_value (fuel : nat) (depth : Z) (s : string)
  : option (value * string) :=
  match fuel with
  | O => None
  | S f =>
    match skip_ws s with
    | "" => None
    | String b r =>
      if Ascii.eqb b "{" then
        if maxNestingDepth <? depth + 1 then None
        else
          match skip_ws r with
          | String "}" r' => Some (Object [], r')
          | _ =>
            match parse_members f (depth + 1) r with
            | Some (m, r') => Some (Object m, r')
            | None => None
            end
          end
      else if Ascii.eqb b "[" then
        if maxNestingDepth <? depth + 1 then None
        else
          match skip_ws r with
          | String "]" r' => Some (Array [], r')
          | _ =>
            match parse_elements f (depth + 1) r with
            | Some (l, r') => Some (Array l, r')
            | None => None
            end
          end
      else if Ascii.eqb b dquote then
        match scan_string InString r with
        | Some (lit, r') => Some (Str lit, r')
        | None => None
        end
      else if Ascii.eqb b "t" then
        match expect "rue" r with
        | Some r' => Some (Bool true, r') | None => None
        end
      else if Ascii.eqb b "f" then
        match expect "alse" r with
        | Some r' => Some (Bool false, r') | None => None
        end
      else if Ascii.eqb b "n" then
        match expect "ull" r with
        | Some r' => Some (Null, r') | None => None
        end
      else
        match scan_number (String b r) with
        | Some (lit, r') => Some (Number lit, r')
        | None => None
        end
    end
  end
with parse_members (fuel : nat) (depth : Z) (s : string)
  : option (list (string * value) * string) :=
  match fuel with
  | O => None
  | S f =>
    match skip_ws s with
    | String b r =>
      if Ascii.eqb b dquote then
        match scan_string InString r with
        | Some (k, r1) =>
          match skip_ws r1 with
          | String ":" r2 =>
            match parse_value f depth r2 with
            | Some (x, r3) =>
              match skip_ws r3 with
              | String "," r4 =>
                match parse_members f depth r4 with
                | Some (m, r5) => Some ((k, x) :: m, r5)
                | None => None
                end
              | String "}" r4 => Some ([(k, x)], r4)
              | _ => None
              end
            | None => None
            end
          | _ => None
          end
        | None => None
        end
      else None
    | "" => None
    end
  end
with parse_elements (fuel : nat) (depth : Z) (s : string)
  : option (list value * string) :=
  match fuel with
  | O => None
  | S f =>
    match parse_value f depth s with
    | Some (x, r1) =>
      match skip_ws r1 with
      | String "," r2 =>
        match parse_elements f depth r2 with
        | Some (l, r3) => Some (x :: l, r3)
        | None => None
        end
      | String "]" r2 => Some ([x], r2)
      | _ => None
      end
    | None => None
    end
  end.

(** [checkValid]: one value, then blanks only. *)
Definition parse (data : string) : option value :=
  match parse_value (S (String.length data)) 0 data with
  | Some (v, rest) =>
    match skip_ws rest with
    | "" => Some v
    | _ => None
    end
  | None => None
  end.

(** *** Go types and values, as [reflect] shows them to the package

    The schemas of the repository are built from strings and named string
    types, booleans, [time.Time], structs and pointers; these are the
    kinds described.  (Members of kind [float64], slice and map occur in
    some schemas: those schemas are not described.) *)

Record field_ (T : Type) : Type := mkField {
  fname : string;      (* the Go name of the field *)
  ftype : T;
  fkey : string;       (* the name in the json tag *)
  fomit : bool         (* the omitempty option of the tag *)
}.
Arguments mkField {T}.
Arguments fname {T}.
Arguments ftype {T}.
Arguments fkey {T}.
Arguments fomit {T}.

Inductive gotype : Type :=
| TString (name : string)
| TBool
| TTime
| TStruct (name : string) (fs : list (field_ gotype))
| TPtr (t : gotype).

Definition field := field_ gotype.

Inductive goval : Type :=
| VString (s : string)
| VBool (b : bool)
| VTime (t : time.Time)
| VStruct (vs : list goval)
| VNil
| VPtr (v : goval).

(** The zero value of a type. *)
Fixpoint zero (t : gotype) : goval :=
  match t with
  | TString _ => VString ""
  | TBool => VBool false
  | TTime => VTime time.zero
  | TStruct _ fs => VStruct (map (fun f => zero (ftype f)) fs)
  | TPtr _ => VNil
  end.

(** A value of a type. *)
Fixpoint has_type (t : gotype) (v : goval) : bool :=
  match t, v with
  | TString _, VString _ => true
  | TBool, VBool _ => true
  | TTime, VTime _ => true
  | TStruct _ fs, VStruct vs =>
    (fix all2 (fs : list field) (vs : list goval) : bool :=
       match fs, vs with
       | [], [] => true
       | f :: fs', x :: vs' => has_type (ftype f) x && all2 fs' vs'
       | _, _ => false
       end) fs vs
  | TPtr _, VNil => true
  | TPtr t', VPtr x => has_type t' x
  | _, _ => false
  end.

Fixpoint type_string (t : gotype) : string :=
  match t with
  | TString name => name
  | TBool => "bool"
  | TTime => "time.Time"
  | TStruct name _ => "main." +:+ name
  | TPtr t' => "*" +:+ type_string t'
  end.

(** [isEmptyValue]: false, a nil pointer, or a string of length zero.  A
    struct is never empty. *)
Definition isEmptyValue (v : goval) : bool :=
  match v with
  | VString s => (String.length s =? 0)%nat
  | VBool b => negb b
  | VNil => true
  | _ => false
  end.

(** *** The encoder *)

Definition UnsupportedValue : error :=
  errorString (Alloc "json") "json: unsupported value".

(** [compact]: the text a [Marshaler] returns must be one JSON value; it
    is written without blanks. *)
Definition compact (text : string) : value + error :=
  match parse text with
  | Some j => inl j
  | None => inr (SyntaxError "json: error calling MarshalJSON")
  end.

Fixpoint encode (t : gotype) (v : goval) : value + error :=
  match t, v with
  | TString _, VString s => inl (Str (appendString s))
  | TBool, VBool b => inl (Bool b)
  | TTime, VTime tm =>
    match time.MarshalJSON tm with
    | inl text => compact text
    | inr e => inr (MarshalerError "time.Time" (Error e))
    end
  | TStruct _ fs, VStruct vs =>
    match
    (fix members (fs : list field) (vs : list goval)
       : list (string * value) + error :=
       match fs, vs with
       | [], [] => inl []
       | f :: fs', x :: vs' =>
         if fomit f && isEmptyValue x then members fs' vs'
         else
           match encode (ftype f) x with
           | inl j =>
             match members fs' vs' with
             | inl m => inl ((appendString (fkey f), j) :: m)
             | inr e => inr e
             end
           | inr e => inr e
           end
       | _, _ => inr UnsupportedValue
       end) fs vs
    with
    | inl m => inl (Object m)
    | inr e => inr e
    end
  | TPtr _, VNil => inl Null
  | TPtr t', VPtr x => encode t' x
  | _, _ => inr UnsupportedValue
  end.

(** What a Go interface value holds, as far as the package tells apart:
    nothing, a pointer of static type [*t] (nil, or to a variable holding
    a value), or a value that is no pointer. *)
Inductive any : Type :=
| AnyNil
| AnyPtr (t : gotype) (target : option goval)
| AnyVal (t : gotype) (v : goval).

(** [json.Marshal]. *)
Definition Marshal (v : any) : string + error :=
  match v with
  | AnyNil => inl "null"
  | AnyPtr _ None => inl "null"
  | AnyPtr t (Some x) | AnyVal t x =>
    match encode t x with
    | inl j => inl (render j)
    | inr e => inr e
    end
  end.

(** *** The decoder *)

(** [foldName], exact on what can match an ASCII field name: letters are
    upper-cased, and the Kelvin sign and the long s, the two other runes
    whose case orbit meets ASCII, become K and S. *)
Fixpoint foldName_from (skip : nat) (s : string) : string :=
  match s with
  | "" => ""
  | String b r =>
    match skip with
    | S k => foldName_from k r
    | O =>
      if val b <? 128 then String (to_upper b) (foldName_from 0 r)
      else
        match s with
        | String b0 (String b1 r1) =>
          if (val b0 =? 197) && (val b1 =? 191)
          then String "S" (foldName_from 1 r)
          else
            match r1 with
            | String b2 _ =>
              if (val b0 =? 226) && (val b1 =? 132) && (val b2 =? 170)
              then String "K" (foldName_from 2 r)
              else String b (foldName_from 0 r)
            | "" => String b (foldName_from 0 r)
            end
        | _ => String b (foldName_from 0 r)
        end
    end
  end.

Definition foldName (s : string) : string := foldName_from 0 s.

(** The field a member is stored into: the one whose name is the key,
    else the first one whose folded name is the folded key. *)
Fixpoint find_by (p : field -> bool) (fs : list field) (i : nat)
  : option (nat * field) :=
  match fs with
  | [] => None
  | f :: fs' => if p f then Some (i, f) else find_by p fs' (S i)
  end.

Definition find_field (key : string) (fs : list field)
  : option (nat * field) :=
  match find_by (fun f => String.eqb (fkey f) key) fs 0 with
  | Some x => Some x
  | None =>
    find_by (fun f => String.eqb (foldName (fkey f)) (foldName key)) fs 0
  end.

(** How a pass over the input stands: no error, a type error set aside
    ([saveError] keeps the first) while decoding goes on, or an error that
    ended it. *)
Inductive dstatus : Type :=
| DGood
| DSaved (e : error)
| DAbort (e : error).

Definition save (st : dstatus) (e : error) : dstatus :=
  match st with
  | DGood => DSaved e
  | _ => st
  end.

Definition merge (st st1 : dstatus) : dstatus :=
  match st1 with
  | DGood => st
  | DSaved e => save st e
  | DAbort e => DAbort e
  end.

(** [indirect]: walking down pointers to the value to fill, allocating
    where a pointer is nil.  The answer is the type and the value
    reached, and how to put a new value back in place. *)
Fixpoint indirect (t : gotype) (v : goval)
  : gotype * goval * (goval -> goval) :=
  match t with
  | TPtr t' =>
    let cur := match v with VPtr x => x | _ => zero t' end in
    let '(t0, v0, k) := indirect t' cur in
    (t0, v0, fun x => VPtr (k x))
  | _ => (t, v, fun x => x)
  end.

Definition kind_of (j : value) : string :=
  match j with
  | Null => "null"
  | Bool _ => "bool"
  | Number _ => "number"
  | Str _ => "string"
  | Array _ => "array"
  | Object _ => "object"
  end.

(** [d.value]: store the JSON value [j] into the variable of type [t]
    that holds [v]. *)
Fixpoint decode (j : value) (t : gotype) (v : goval) : goval * dstatus :=
  match j with
  | Null =>
    (* null clears a pointer and leaves anything else as it is *)
    (match t with TPtr _ => VNil | _ => v end, DGood)
  | _ =>
    let '(t0, v0, k) := indirect t v in
    let '(x, st) :=
      match t0 with
      | TTime =>
        (* time.Time is an Unmarshaler: it is handed the text of the value *)
        match v0 with
        | VTime tm =>
          match time.UnmarshalJSON (render j) tm with
          | inl tm' => (VTime tm', DGood)
          | inr e => (v0, DAbort e)
          end
        | _ => (v0, DAbort UnsupportedValue)
        end
      | _ =>
        match j with
        | Bool b =>
          match t0 with
          | TBool => (VBool b, DGood)
          | _ => (v0, DSaved (UnmarshalTypeError "bool" (type_string t0)))
          end
        | Str lit =>
          match t0 with
          | TString _ =>
            match unquote lit with
            | Some s => (VString s, DGood)
            | None => (v0, DAbort (SyntaxError "json: invalid string"))
            end
          | _ => (v0, DSaved (UnmarshalTypeError "string" (type_string t0)))
          end
        | Object m =>
          match t0, v0 with
          | TStruct _ fs, VStruct vs =>
            let '(vs', st) :=
              (fix members (m : list (string * value)) (vs : list goval)
                   (st : dstatus) : list goval * dstatus :=
                 match m with
                 | [] => (vs, st)
                 | (klit, x) :: m' =>
                   match unquote klit with
                   | None => (vs, DAbort (SyntaxError "json: invalid string"))
                   | Some key =>
                     match find_field key fs with
                     | None => members m' vs st
                     | Some (i, f) =>
                       match vs !! i with
                       | None => (vs, DAbort UnsupportedValue)
                       | Some cur =>
                         let '(y, st1) := decode x (ftype f) cur in
                         match st1 with
                         | DAbort e => (<[i := y]> vs, DAbort e)
                         | _ => members m' (<[i := y]> vs) (merge st st1)
                         end
                       end
                     end
                   end
                 end) m vs DGood in
            (VStruct vs', st)
          | _, _ =>
            (v0, DSaved (UnmarshalTypeError "object" (type_string t0)))
          end
        | _ =>
          (v0, DSaved (UnmarshalTypeError (kind_of j) (type_string t0)))
        end
      end in
    (k x, st)
  end.

Definition err_of (st : dstatus) : option error :=
  match st with
  | DGood => None
  | DSaved e | DAbort e => Some e
  end.

(** [json.Unmarshal data v]: the input is checked first; then [v] must be
    a pointer that is not nil, and the value it points to is filled.  The
    answer is [v] afterwards and the error returned. *)
Definition Unmarshal (data : string) (v : any) : any * option error :=
  match parse data with
  | None => (v, Some (SyntaxError "json: syntax error"))
  | Some j =>
    match v with
    | AnyPtr t (Some cur) =>
      let '(x, st) := decode j t cur in (AnyPtr t (Some x), err_of st)
    | AnyPtr t None => (v, Some (InvalidUnmarshalError ("*" +:+ type_string t)))
    | AnyVal t _ => (v, Some (InvalidUnmarshalError (type_string t)))
    | AnyNil => (v, Some (InvalidUnmarshalError "nil"))
    end
  end.

End json.

(** ** The schemas

    Each struct of the sources is described by its fields in the order of
    the declaration: the Go name, the type, and the name and the omitempty
    option of the json tag. *)

Import json.

Definition fld (name : string) (t : gotype) (key : string) : field :=
  mkField name t key false.

Definition fld_omitempty (name : string) (t : gotype) (key : string) : field :=
  mkField name t key true.

Definition string_ : gotype := TString "string".
Definition bool_ : gotype := TBool.
Definition time_Time : gotype := TTime.

(** The string-backed types. *)
Definition PaymentMode : gotype := TString "main.PaymentMode".
Definition PaymentModeDirect : string := "direct".
Definition PaymentModeHosted : string := "hosted".

Definition PaymentStatus : gotype := TString "main.PaymentStatus".
Definition PaymentStatusInit : string := "init".
Definition PaymentStatusPending : string := "pending".
Definition PaymentStatusSuccess : string := "success".
Definition PaymentStatusFailure : string := "failure".

Definition PaymentStatusCode : gotype := TString "main.PaymentStatusCode".

Definition StatusCodeAuthorizationFailed : string := "authorization_failed".
Definition StatusCodeCustomerAuthNotFound : string := "customer_auth_not_found".
Definition StatusCodeRequestFailed : string := "request_failed".
Definition StatusCodeInternalError : string := "internal_error".
Definition StatusCodeAccessNotAllowed : string := "access_not_allowed".
Definition StatusCodeInvalidRequestBody : string := "invalid_request_body".
Definition StatusCodePaymentSettingsNotFound : string := "payment_settings_not_found".
Definition StatusCodeTransactionAlreadyPaid : string := "transaction_already_paid".
Definition StatusCodeActionNotAllowed : string := "action_not_allowed".
Definition StatusCodeActionAlreadyDone : string := "action_already_done".
Definition StatusCodeTransactionSuccessPrimaryNotFound : string := "transaction_success_primary_not_found".
Definition StatusCodePaymentMethodNotAllowed : string := "payment_method_not_allowed".
Definition StatusCodeWalletNotConfigured : string := "wallet_not_configured".
Definition StatusCodePaymentMethodAlreadyConfirmed : string := "payment_method_already_confirmed".
Definition StatusCodePaymentMethodNotFound : string := "payment_method_not_found".
Definition StatusCodeInvalidCardToken : string := "invalid_card_token".
Definition StatusCodeCustomerAuthTokenExpiredOrInvalid : string := "customer_auth_token_expired_or_invalid".
Definition StatusCodeCustomerProfileNotFound : string := "customer_profile_not_found".
Definition StatusCodeCustomerIDNotPassed : string := "customer_id_not_passed".
Definition StatusCodeTransactionNotFound : string := "transaction_not_found".
Definition StatusCodeWaitingForVerification : string := "waiting_for_verification".
Definition StatusCodeTransactionAmountLimit : string := "transaction_amount_limit".
Definition StatusCodeInvalidData : string := "invalid_data".
Definition StatusCodeTransactionDeclined : string := "transaction_declined".
Definition StatusCodeAuthorizationError : string := "authorization_error".
Definition StatusCodeTransactionRejected : string := "transaction_rejected".
Definition StatusCodeTransactionSuccessful : string := "transaction_successful".
Definition StatusCodeAntiFraudCheck : string := "anti_fraud_check".
Definition StatusCodeCardNotSupported : string := "card_not_supported".
Definition StatusCodeConfirmationTimeout : string := "confirmation_timeout".
Definition StatusCodeInvalidCardData : string := "invalid_card_data".
Definition StatusCodeInvalidCurrency : string := "invalid_currency".
Definition StatusCodePending : string := "pending".
Definition StatusCodeWaitingForComplete : string := "waiting_for_complete".
Definition StatusCodeAccessError : string := "access_error".
Definition StatusCodeCardExpired : string := "card_expired".
Definition StatusCodeReceiverInfoError : string := "receiver_info_error".
Definition StatusCodeTransactionLimitExceeded : string := "transaction_limit_exceeded".
Definition StatusCodeTransactionNotSupported : string := "transaction_not_supported".
Definition StatusCodeThreeDSNotSupported : string := "3ds_not_supported".
Definition StatusCodeThreeDSRequired : string := "3ds_required".
Definition StatusCodeFailedToCreateTransaction : string := "failed_to_create_transaction".
Definition StatusCodeFailedToFinishTransaction : string := "failed_to_finish_transaction".
Definition StatusCodeInsufficientFunds : string := "insufficient_funds".
Definition StatusCodeInvalidPhoneNumber : string := "invalid_phone_number".
Definition StatusCodeCardHasConstraints : string := "card_has_constraints".
Definition StatusCodePINTRIESExceeded : string := "pin_tries_exceeded".
Definition StatusCodeSessionExpired : string := "session_expired".
Definition StatusCodeTimeout : string := "timeout".
Definition StatusCodeTransactionCreated : string := "transaction_created".
Definition StatusCodeWaitingForRedirect : string := "waiting_for_redirect".
Definition StatusCodeWrongAmount : string := "wrong_amount".
Definition StatusCodeTestTransaction : string := "test_transaction".
Definition StatusCodeSubscriptionSuccessful : string := "subscription_successful".
Definition StatusCodeUnsubscribedSuccessfully : string := "unsubscribed_successfully".
Definition StatusCodeWrongPIN : string := "wrong_pin".
Definition StatusCodeWrongAuthorizationCode : string := "wrong_authorization_code".
Definition StatusCodeWrongCAVV : string := "wrong_cavv".
Definition StatusCodeWrongCVV : string := "wrong_cvv".
Definition StatusCodeWrongAccountNumber : string := "wrong_account_number".
Definition StatusCodeConfirmRequired : string := "confirm_required".
Definition StatusCodeCVVIsRequired : string := "cvv_is_required".
Definition StatusCodeConfirmationRequired : string := "confirmation_required".
Definition StatusCodeSenderInfoRequired : string := "sender_info_required".
Definition StatusCodeMissedPayoutMethodData : string := "missed_payout_method_data".
Definition StatusCodeCardVerificationRequired : string := "card_verification_required".
Definition StatusCodeIncorrectRefundSumOrCurrency : string := "incorrect_refund_sum_or_currency".
Definition StatusCodePaymentCardHasInvalidStatus : string := "payment_card_has_invalid_status".
Definition StatusCodeWrongCardNumber : string := "wrong_card_number".
Definition StatusCodeUserNotFound : string := "user_not_found".
Definition StatusCodeFailedToSendSMS : string := "failed_to_send_sms".
Definition StatusCodeWrongSMSPassword : string := "wrong_sms_password".
Definition StatusCodeCardNotFound : string := "card_not_found".
Definition StatusCodePaymentSystemNotSupported : string := "payment_system_not_supported".
Definition StatusCodeCountryNotSupported : string := "country_not_supported".
Definition StatusCodeNoDiscountFound : string := "no_discount_found".
Definition StatusCodeFailedToLoadWallet : string := "failed_to_load_wallet".
Definition StatusCodeInvalidVerificationCode : string := "invalid_verification_code".
Definition StatusCodeAdditionalInformationIsPending : string := "additional_information_is_pending".
Definition StatusCodeTransactionIsNotRecurring : string := "transaction_is_not_recurring".
Definition StatusCodeConfirmAmountCannotBeMoreThanTheTransactionAmount : string := "confirm_amount_cannot_be_more_than_the_transaction_amount".
Definition StatusCodeCardBINNotFound : string := "card_bin_not_found".
Definition StatusCodeCurrencyRateNotFound : string := "currency_rate_not_found".
Definition StatusCodeInvalidRecipientName : string := "invalid_recipient_name".
Definition StatusCodeDailyCardUsageLimitReached : string := "daily_card_usage_limit_reached".
Definition StatusCodeInvalidTransactionAmount : string := "invalid_transaction_amount".
Definition StatusCodeCardTypeIsNotSupported : string := "card_type_is_not_supported".
Definition StatusCodeStoreIsBlocked : string := "store_is_blocked".
Definition StatusCodeStoreIsNotActive : string := "store_is_not_active".
Definition StatusCodeTransactionCannotBeProcessed : string := "transaction_cannot_be_processed".
Definition StatusCodeInvalidTransactionStatus : string := "invalid_transaction_status".
Definition StatusCodePublicKeyNotFound : string := "public_key_not_found".
Definition StatusCodeTerminalNotFound : string := "terminal_not_found".
Definition StatusCodeFeeNotFound : string := "fee_not_found".
Definition StatusCodeFailedToVerifyCard : string := "failed_to_verify_card".
Definition StatusCodeInvalidTransactionType : string := "invalid_transaction_type".
Definition StatusCodeRestrictedIP : string := "restricted_ip".
Definition StatusCodeInvalidToken : string := "invalid_token".
Definition StatusCodePreauthNotAllowed : string := "preauth_not_allowed".
Definition StatusCodeTokenDoesNotExist : string := "token_does_not_exist".
Definition StatusCodeReachedTheLimitOfAttemptsForIP : string := "reached_the_limit_of_attempts_for_ip".
Definition StatusCodeCardBranchIsBlocked : string := "card_branch_is_blocked".
Definition StatusCodeCardBranchDailyLimitReached : string := "card_branch_daily_limit_reached".
Definition StatusCodeCompletionLimitReached : string := "completion_limit_reached".
Definition StatusCodeRecurringTransactionsNotAllowed : string := "recurring_transactions_not_allowed".
Definition StatusCodeTransactionIsCanceledByPayer : string := "transaction_is_canceled_by_payer".
Definition StatusCodePaymentWasRefunded : string := "payment_was_refunded".

(** The status codes the sources name. *)
Definition knownStatusCodes : list string :=
  [StatusCodeAuthorizationFailed; StatusCodeCustomerAuthNotFound;
   StatusCodeRequestFailed; StatusCodeInternalError;
   StatusCodeAccessNotAllowed; StatusCodeInvalidRequestBody;
   StatusCodePaymentSettingsNotFound; StatusCodeTransactionAlreadyPaid;
   StatusCodeActionNotAllowed; StatusCodeActionAlreadyDone;
   StatusCodeTransactionSuccessPrimaryNotFound;
   StatusCodePaymentMethodNotAllowed; StatusCodeWalletNotConfigured;
   StatusCodePaymentMethodAlreadyConfirmed; StatusCodePaymentMethodNotFound;
   StatusCodeInvalidCardToken; StatusCodeCustomerAuthTokenExpiredOrInvalid;
   StatusCodeCustomerProfileNotFound; StatusCodeCustomerIDNotPassed;
   StatusCodeTransactionNotFound; StatusCodeWaitingForVerification;
   StatusCodeTransactionAmountLimit; StatusCodeInvalidData;
   StatusCodeTransactionDeclined; StatusCodeAuthorizationError;
   StatusCodeTransactionRejected; StatusCodeTransactionSuccessful;
   StatusCodeAntiFraudCheck; StatusCodeCardNotSupported;
   StatusCodeConfirmationTimeout; StatusCodeInvalidCardData;
   StatusCodeInvalidCurrency; StatusCodePending;
   StatusCodeWaitingForComplete; StatusCodeAccessError;
   StatusCodeCardExpired; StatusCodeReceiverInfoError;
   StatusCodeTransactionLimitExceeded; StatusCodeTransactionNotSupported;
   StatusCodeThreeDSNotSupported; StatusCodeThreeDSRequired;
   StatusCodeFailedToCreateTransaction; StatusCodeFailedToFinishTransaction;
   StatusCodeInsufficientFunds; StatusCodeInvalidPhoneNumber;
   StatusCodeCardHasConstraints; StatusCodePINTRIESExceeded;
   StatusCodeSessionExpired; StatusCodeTimeout; StatusCodeTransactionCreated;
   StatusCodeWaitingForRedirect; StatusCodeWrongAmount;
   StatusCodeTestTransaction; StatusCodeSubscriptionSuccessful;
   StatusCodeUnsubscribedSuccessfully; StatusCodeWrongPIN;
   StatusCodeWrongAuthorizationCode; StatusCodeWrongCAVV; StatusCodeWrongCVV;
   StatusCodeWrongAccountNumber; StatusCodeConfirmRequired;
   StatusCodeCVVIsRequired; StatusCodeConfirmationRequired;
   StatusCodeSenderInfoRequired; StatusCodeMissedPayoutMethodData;
   StatusCodeCardVerificationRequired;
   StatusCodeIncorrectRefundSumOrCurrency;
   StatusCodePaymentCardHasInvalidStatus; StatusCodeWrongCardNumber;
   StatusCodeUserNotFound; StatusCodeFailedToSendSMS;
   StatusCodeWrongSMSPassword; StatusCodeCardNotFound;
   StatusCodePaymentSystemNotSupported; StatusCodeCountryNotSupported;
   StatusCodeNoDiscountFound; StatusCodeFailedToLoadWallet;
   StatusCodeInvalidVerificationCode;
   StatusCodeAdditionalInformationIsPending;
   StatusCodeTransactionIsNotRecurring;
   StatusCodeConfirmAmountCannotBeMoreThanTheTransactionAmount;
   StatusCodeCardBINNotFound; StatusCodeCurrencyRateNotFound;
   StatusCodeInvalidRecipientName; StatusCodeDailyCardUsageLimitReached;
   StatusCodeInvalidTransactionAmount; StatusCodeCardTypeIsNotSupported;
   StatusCodeStoreIsBlocked; StatusCodeStoreIsNotActive;
   StatusCodeTransactionCannotBeProcessed;
   StatusCodeInvalidTransactionStatus; StatusCodePublicKeyNotFound;
   StatusCodeTerminalNotFound; StatusCodeFeeNotFound;
   StatusCodeFailedToVerifyCard; StatusCodeInvalidTransactionType;
   StatusCodeRestrictedIP; StatusCodeInvalidToken;
   StatusCodePreauthNotAllowed; StatusCodeTokenDoesNotExist;
   StatusCodeReachedTheLimitOfAttemptsForIP; StatusCodeCardBranchIsBlocked;
   StatusCodeCardBranchDailyLimitReached; StatusCodeCompletionLimitReached;
   StatusCodeRecurringTransactionsNotAllowed;
   StatusCodeTransactionIsCanceledByPayer; StatusCodePaymentWasRefunded].

Definition CustomerColorModer : gotype := TString "main.CustomerColorModer".
Definition CustomerColorModeLight : string := "light".
Definition CustomerColorModeDark : string := "dark".

Definition CustomerCheckoutLocale : gotype :=
  TString "main.CustomerCheckoutLocale".
Definition CustomerCheckoutLocaleUK : string := "UK".
Definition CustomerCheckoutLocaleEN : string := "EN".
Definition CustomerCheckoutLocaleES : string := "ES".
Definition CustomerCheckoutLocalePL : string := "PL".
Definition CustomerCheckoutLocaleFR : string := "FR".
Definition CustomerCheckoutLocaleSK : string := "SK".
Definition CustomerCheckoutLocaleDE : string := "DE".

Definition PaymentMethodType : gotype := TString "main.PaymentMethodType".
Definition PaymentMethodTypeApplePay : string := "apple_pay".
Definition PaymentMethodTypeCCToken : string := "cc_token".
Definition PaymentMethodTypeGooglePay : string := "google_pay".
Definition PaymentMethodTypeWallet : string := "wallet".

Definition CallbackResendOperation : gotype :=
  TString "main.CallbackResendOperation".
Definition CallbackResendOperationPayment : string := "payment".

(** The structs. *)

Definition BrowserFingerprint : gotype :=
  TStruct "BrowserFingerprint"
    [fld_omitempty "BrowserAcceptHeader" string_ "browser_accept_header";
     fld_omitempty "BrowserColorDepth" string_ "browser_color_depth";
     fld_omitempty "BrowserIPAddress" string_ "browser_ip_address";
     fld_omitempty "BrowserJavaEnabled" string_ "browser_java_enabled";
     fld_omitempty "BrowserLanguage" string_ "browser_language";
     fld_omitempty "BrowserScreenHeight" string_ "browser_screen_height";
     fld_omitempty "BrowserTimeZone" string_ "browser_time_zone";
     fld_omitempty "BrowserTimeZoneOffset" string_ "browser_time_zone_offset";
     fld_omitempty "BrowserUserAgent" string_ "browser_user_agent"].

Definition PaymentMethodAdditions : gotype :=
  TStruct "PaymentMethodAdditions"
    [fld_omitempty "BrowserFingerPrint" BrowserFingerprint "browser_fingerprint";
     fld "Token" string_ "token";
     fld_omitempty "Use3DSFlow" bool_ "use_3ds_flow"].

Definition WalletRequestPaymentMethod : gotype :=
  TStruct "WalletRequestPaymentMethod"
    [fld_omitempty "BrowserFingerPrint" BrowserFingerprint "browser_fingerprint";
     fld "OptionID" string_ "option_id";
     fld_omitempty "Use3DSFlow" bool_ "use_3ds_flow"].

Definition CCToken : gotype :=
  TStruct "CCToken"
    [fld "BrowserFingerprint" BrowserFingerprint "browser_fingerprint";
     fld "Token" string_ "token";
     fld "Use3DSFlow" bool_ "use_3ds_flow"].

Definition ApplePay : gotype :=
  TStruct "ApplePay"
    [fld "BrowserFingerprint" BrowserFingerprint "browser_fingerprint";
     fld "Token" string_ "token";
     fld "Use3DSFlow" bool_ "use_3ds_flow"].

Definition GooglePay : gotype :=
  TStruct "GooglePay"
    [fld "BrowserFingerprint" BrowserFingerprint "browser_fingerprint";
     fld "Token" string_ "token";
     fld "Use3DSFlow" bool_ "use_3ds_flow"].

Definition Wallet : gotype :=
  TStruct "Wallet"
    [fld "BrowserFingerprint" BrowserFingerprint "browser_fingerprint";
     fld "OptionID" string_ "option_id";
     fld "Use3DSFlow" bool_ "use_3ds_flow"].

Definition PaymentMethod : gotype :=
  TStruct "PaymentMethod"
    [fld_omitempty "ApplePay" ApplePay "apple_pay";
     fld_omitempty "CCToken" CCToken "cc_token";
     fld_omitempty "GooglePay" GooglePay "google_pay";
     fld_omitempty "Type" PaymentMethodType "type";
     fld_omitempty "Wallet" Wallet "wallet"].

Definition PaymentUserAction : gotype :=
  TStruct "PaymentUserAction"
    [fld "Type" string_ "type";
     fld "Value" string_ "value"].

Definition PaymentResponseDetailsProperties : gotype :=
  TStruct "PaymentResponseDetailsProperties"
    [fld "Property1" string_ "property1";
     fld "Property2" string_ "property2"].

Definition PaymentResponseDetailsFee : gotype :=
  TStruct "PaymentResponseDetailsFee"
    [fld "Amount" string_ "amount";
     fld "Currency" string_ "currency"].

Definition PaymentResponsePaymentMethod : gotype :=
  TStruct "PaymentResponsePaymentMethod"
    [fld "CCToken" CCToken "cc_token";
     fld "Type" string_ "type"].

Definition PaymentResponseCustomer : gotype :=
  TStruct "PaymentResponseCustomer"
    [fld "BrowserUserAgent" string_ "browser_user_agent";
     fld "Email" string_ "email";
     fld "ExternalID" string_ "external_id";
     fld "FirstName" string_ "first_name";
     fld "IPAddress" string_ "ip_address";
     fld "LastName" string_ "last_name";
     fld "Patronym" string_ "patronym";
     fld "Phone" string_ "phone"].

Definition CustomerData : gotype :=
  TStruct "CustomerData"
    [fld_omitempty "ColorMode" CustomerColorModer "color_mode";
     fld_omitempty "Locale" CustomerCheckoutLocale "locale";
     fld_omitempty "AccountNumber" string_ "account_number";
     fld_omitempty "IPAddress" string_ "ip_address";
     fld_omitempty "Address" string_ "address";
     fld_omitempty "City" string_ "city";
     fld_omitempty "Country" string_ "country";
     fld_omitempty "Email" string_ "email";
     fld_omitempty "ExternalID" string_ "external_id";
     fld_omitempty "FirstName" string_ "first_name";
     fld_omitempty "LastName" string_ "last_name";
     fld_omitempty "Patronym" string_ "patronym";
     fld_omitempty "PaymentMethod" PaymentMethod "payment_method";
     fld_omitempty "Phone" string_ "phone";
     fld_omitempty "PostalCode" string_ "postal_code"].

Definition Fee : gotype :=
  TStruct "Fee"
    [fld "Amount" string_ "amount";
     fld "Currency" string_ "currency"].

Definition PaymentCallbackResendSchema : gotype :=
  TStruct "PaymentCallbackResendSchema"
    [fld "ExternalID" string_ "external_id";
     fld "Operation" CallbackResendOperation "operation"].

Definition AddWalletCustomerSchema : gotype :=
  TStruct "AddWalletCustomerSchema"
    [fld "CallbackURL" string_ "callback_url";
     fld "ResultURL" string_ "result_url";
     fld "PaymentMethod" PaymentMethod "payment_method"].

Definition Card : gotype :=
  TStruct "Card"
    [fld "ExpiresAt" time_Time "expires_at";
     fld "Mask" string_ "mask"].

Definition WalletEntry : gotype :=
  TStruct "WalletEntry"
    [fld "Card" Card "card";
     fld "OptionID" string_ "option_id";
     fld "Name" string_ "name";
     fld "Type" string_ "type"].

Definition DeleteWalletCustomerSchema : gotype :=
  TStruct "DeleteWalletCustomerSchema"
    [fld "OptionID" string_ "option_id";
     fld "Type" PaymentMethodType "type"].

Definition DeleteWalletCustomerResponse : gotype :=
  TStruct "DeleteWalletCustomerResponse"
    [fld "Delete" bool_ "delete";
     fld "OptionID" string_ "option_id";
     fld "Type" PaymentMethodType "type"].

Definition ErrorResponse : gotype :=
  TStruct "ErrorResponse"
    [fld "Code" PaymentStatusCode "code";
     fld "Message" string_ "message";
     fld "Param" string_ "param";
     fld "PaymentID" string_ "payment_id";
     fld "Type" string_ "type"].

Definition Recipient : gotype :=
  TStruct "Recipient"
    [fld_omitempty "Address" string_ "address";
     fld_omitempty "City" string_ "city";
     fld_omitempty "Country" string_ "country";
     fld_omitempty "Email" string_ "email";
     fld_omitempty "ExternalID" string_ "external_id";
     fld_omitempty "FirstName" string_ "first_name";
     fld_omitempty "LastName" string_ "last_name";
     fld_omitempty "Patronym" string_ "patronym";
     fld_omitempty "PaymentMethod" PaymentMethod "payment_method";
     fld_omitempty "Phone" string_ "phone";
     fld_omitempty "PostalCode" string_ "postal_code"].

Definition PaymentResponseDetails : gotype :=
  TStruct "PaymentResponseDetails"
    [fld "Amount" string_ "amount";
     fld "BillingOrderID" string_ "billing_order_id";
     fld "CreatedAt" time_Time "created_at";
     fld "Currency" string_ "currency";
     fld "Description" string_ "description";
     fld "GatewayOrderID" string_ "gateway_order_id";
     fld "Payload" string_ "payload";
     fld "PaymentID" string_ "payment_id";
     fld "ProcessedAt" time_Time "processed_at";
     fld "Properties" PaymentResponseDetailsProperties "properties";
     fld "RRN" string_ "rrn";
     fld "Status" PaymentStatus "status";
     fld "StatusCode" PaymentStatusCode "status_code";
     fld "StatusDescription" string_ "status_description";
     fld "TransactionID" string_ "transaction_id";
     fld "AuthCode" string_ "auth_code";
     fld "Fee" PaymentResponseDetailsFee "fee";
     fld "TerminalName" string_ "terminal_name"].

Definition AddWalletCustomerPaymentMethod : gotype :=
  TStruct "AddWalletCustomerPaymentMethod"
    [fld "Card" Card "card";
     fld "OptionID" string_ "option_id";
     fld "Name" string_ "name";
     fld "Type" string_ "type"].

Definition AddWalletCustomerResponse : gotype :=
  TStruct "AddWalletCustomerResponse"
    [fld "Action" PaymentUserAction "action";
     fld "ActionRequired" bool_ "action_required";
     fld "CreatedAt" time_Time "created_at";
     fld "PaymentMethod" AddWalletCustomerPaymentMethod "payment_method";
     fld "Status" PaymentStatus "status"].

Definition PaymentResponse : gotype :=
  TStruct "PaymentResponse"
    [fld "ID" string_ "id";
     fld "Action" PaymentUserAction "action";
     fld "ActionRequired" bool_ "action_required";
     fld "Details" PaymentResponseDetails "details";
     fld "ExternalID" string_ "external_id";
     fld "IsSuccess" bool_ "is_success";
     fld "ReceiptURL" string_ "receipt_url";
     fld "PaymentMethod" PaymentMethod "payment_method";
     fld "Customer" PaymentResponseCustomer "customer"].

(** Field selection [x.Name] on a struct value of type [t]. *)
Definition sel (t : gotype) (name : string) (x : goval) : option goval :=
  match t, x with
  | TStruct _ fs, VStruct vs =>
    match find_by (fun f => String.eqb (fname f) name) fs 0 with
    | Some (i, _) => vs !! i
    | None => None
    end
  | _, _ => None
  end.

Definition sel_string (t : gotype) (name : string) (x : goval)
  : option string :=
  match sel t name x with
  | Some (VString s) => Some s
  | _ => None
  end.

(** ** The error type of the package *)

Definition ErrResponseIsEmpty : error :=
  errorString (PkgVar "ErrResponseIsEmpty") "response is empty".

(** What a call comes to: it returns, or it panics. *)
Inductive ret (A : Type) : Type :=
| Returned (a : A)
| Panicked (msg : string).
Arguments Returned {A}.
Arguments Panicked {A}.

Definition nil_dereference : string :=
  "runtime error: invalid memory address or nil pointer dereference".

(** [ErrorResponse.ErrorCode]: the receiver [e] is a pointer. *)
Definition ErrorCode (e : goval) : ret error :=
  match e with
  | VPtr x =>
    match sel_string ErrorResponse "Code" x with
    | Some code => Returned (fmt.Errorf code)
    | None => Panicked nil_dereference
    end
  | _ => Panicked nil_dereference
  end.

(** ** Package [net/http], as far as the client uses it *)

Module http.

Record URL : Type := mkURL {
  Location : string;   (* scheme, host and path *)
  RawQuery : string
}.

(** [URL.String] *)
Definition URL_String (u : URL) : string :=
  if (String.length (RawQuery u) =? 0)%nat then Location u
  else Location u +:+ "?" +:+ RawQuery u.

Record Request : Type := mkRequest {
  Method : string;
  Url : URL;
  Header : gmap string (list string);
  Body : option string
}.

(** A response: the status code and what reading the body to its end
    gives. *)
Record Response : Type := mkResponse {
  StatusCode : Z;
  ReadAll : string + error
}.

Definition MethodGet : string := "GET".
Definition MethodPost : string := "POST".
Definition MethodDelete : string := "DELETE".

(** [httpguts.IsTokenRune] *)
Definition isToken (b : ascii) : bool :=
  Bytes.is_alpha b || Bytes.is_digit b || Bytes.contains b "!#$%&'*+-.^_`|~".

Definition validMethod (method : string) : bool :=
  (0 <? String.length method)%nat && Bytes.all isToken method.

(** [textproto.CanonicalMIMEHeaderKey]: a name made of token bytes gets a
    capital first letter and a capital after each hyphen, its other letters
    in lower case; any other name is left as it is. *)
Fixpoint canonical (upper : bool) (s : string) : string :=
  match s with
  | "" => ""
  | String b r =>
    let b' :=
      if upper && Bytes.is_lower b then Bytes.of_val (Bytes.val b - 32)
      else if negb upper && Bytes.is_upper b then Bytes.of_val (Bytes.val b + 32)
      else b in
    String b' (canonical (Ascii.eqb b' "-") r)
  end.

Definition CanonicalMIMEHeaderKey (s : string) : string :=
  if Bytes.all isToken s then canonical true s else s.

Definition set_Header (h : gmap string (list string)) (r : Request)
  : Request :=
  {| Method := Method r; Url := Url r; Header := h; Body := Body r |}.

Definition set_RawQuery (q : string) (r : Request) : Request :=
  {| Method := Method r;
     Url := {| Location := Location (Url r); RawQuery := q |};
     Header := Header r; Body := Body r |}.

End http.

(** ** [client.go] *)

(** The client holds its configuration and an HTTP client, which is what
    its method [Do] answers to a request. *)
Record Client : Type := mkClient {
  c : Config;
  httpClient : http.Request -> http.Response + error
}.

Definition WithCustomHTTPClient
    (h : http.Request -> http.Response + error) (m : Client) : Client :=
  {| c := c m; httpClient := h |}.

Definition NewClient (config : Config)
    (DefaultClient : http.Request -> http.Response + error)
    (opts : list (Client -> Client)) : Client :=
  fold_left (fun m opt => opt m)
            opts {| c := config; httpClient := DefaultClient |}.

(** *** The effects of [Send]

    [Send] writes the header of the request it is given, fills the
    destination [v], and calls the logger, the HTTP client and the JSON
    decoder.  The request and the destination are threaded through; the
    calls are recorded in order. *)

Inductive logarg : Type :=
| ArgS (s : string)
| ArgD (n : Z).

Inductive event : Type :=
| EvPrintf (format : string) (args : list logarg)
| EvDo (req : http.Request)
| EvReadAll
| EvClose
| EvUnmarshal (data : string).

Record world : Type := mkWorld {
  w_req : http.Request;
  w_v : any;
  w_trace : list event
}.

Inductive step (A : Type) : Type :=
| Next (a : A)
| Exit (r : ret (option error)).
Arguments Next {A}.
Arguments Exit {A}.

Definition M (A : Type) : Type := world -> step A * world.

Definition pure {A} (a : A) : M A := fun w => (Next a, w).

Definition bind {A B} (m : M A) (k : A -> M B) : M B :=
  fun w =>
    match m w with
    | (Next a, w') => k a w'
    | (Exit r, w') => (Exit r, w')
    end.

Notation "x <- m ;; k" := (bind m (fun x => k))
  (at level 100, m at next level, right associativity).
Notation "m ;;; k" := (bind m (fun _ => k))
  (at level 100, right associativity).

Definition return_ {A} (err : option error) : M A :=
  fun w => (Exit (Returned err), w).

Definition panic {A} (msg : string) : M A :=
  fun w => (Exit (Panicked msg), w).

Definition emit (ev : event) : M unit :=
  fun w =>
    (Next tt, {| w_req := w_req w; w_v := w_v w;
                 w_trace := w_trace w ++ [ev] |}).

Definition get_req : M http.Request := fun w => (Next (w_req w), w).

Definition put_req (r : http.Request) : M unit :=
  fun w => (Next tt, {| w_req := r; w_v := w_v w; w_trace := w_trace w |}).

Definition get_v : M any := fun w => (Next (w_v w), w).

Definition put_v (v : any) : M unit :=
  fun w => (Next tt, {| w_req := w_req w; w_v := v; w_trace := w_trace w |}).

Definition when (b : bool) (m : M unit) : M unit :=
  if b then m else pure tt.

(** [defer f()]: [f] runs when the function is left, however it is left. *)
Definition defer {A} (ev : event) (body : M A) : M A :=
  fun w =>
    let '(r, w') := body w in
    (r, {| w_req := w_req w'; w_v := w_v w';
           w_trace := w_trace w' ++ [ev] |}).

Definition log_Printf (format : string) (args : list logarg) : M unit :=
  emit (EvPrintf format args).

Definition json_Unmarshal (data : string) (v : any) : M (any * option error) :=
  emit (EvUnmarshal data) ;;; pure (json.Unmarshal data v).

(** [x.Name] through the pointer [x]: a nil pointer panics. *)
Definition deref_string (t : gotype) (name : string) (p : goval) : M string :=
  match p with
  | VPtr x =>
    match sel_string t name x with
    | Some s => pure s
    | None => panic nil_dereference
    end
  | _ => panic nil_dereference
  end.

Definition debug_request_format : string :=
  "[RozetkaPay] Debug --- type: %s, method: %s, url: %s" +:+ String (Bytes.of_val 10) "".

Definition error_format : string :=
  "[RozetkaPay] Error --- type: %s, code: %s, message: %s, payment_id: %s, type: %s"
    +:+ String (Bytes.of_val 10) "".

Definition debug_response_format : string :=
  "[RozetkaPay] Debug --- type: %s, method: %s, url: %s, code: %d, bytes: %d"
    +:+ String (Bytes.of_val 10) "".

(** The header [Send] gives the request. *)
Definition Send_header (c0 : Client) : gmap string (list string) :=
  {[ "Content-type" := ["application/json"];
     "Authorization" := ["Basic " +:+ BasicAuth (c c0)] ]}.

Definition Send_body (c0 : Client) : M unit :=
  req0 <- get_req ;;
  put_req (http.set_Header (Send_header c0) req0) ;;;
  req <- get_req ;;
  when (Debug (c c0))
       (log_Printf debug_request_format
          [ArgS "request"; ArgS (http.Method req);
           ArgS (http.URL_String (http.Url req))]) ;;;
  emit (EvDo req) ;;;
  match httpClient c0 req with
  | inr err => return_ (Some err)
  | inl resp =>
    defer EvClose (
      emit EvReadAll ;;;
      match http.ReadAll resp with
      | inr err => return_ (Some err)
      | inl body =>
        if (http.StatusCode resp <? 200) || (299 <? http.StatusCode resp) then
          if (String.length body =? 0)%nat then
            return_ (Some ErrResponseIsEmpty)
          else
            r <- json_Unmarshal body (AnyPtr (TPtr ErrorResponse) (Some VNil)) ;;
            match r with
            | (_, Some err) => return_ (Some err)
            | (a, None) =>
              let errResp :=
                match a with
                | AnyPtr _ (Some p) => p
                | _ => VNil
                end in
              ty <- deref_string ErrorResponse "Type" errResp ;;
              code <- deref_string ErrorResponse "Code" errResp ;;
              message <- deref_string ErrorResponse "Message" errResp ;;
              payment_id <- deref_string ErrorResponse "PaymentID" errResp ;;
              log_Printf error_format
                [ArgS ty; ArgS code; ArgS message; ArgS payment_id; ArgS ty] ;;;
              match ErrorCode errResp with
              | Returned e => return_ (Some e)
              | Panicked msg => panic msg
              end
            end
        else
          v <- get_v ;;
          match v with
          | AnyNil => return_ None
          | _ =>
            when (Debug (c c0))
                 (log_Printf debug_response_format
                    [ArgS "response"; ArgS (http.Method req);
                     ArgS (http.URL_String (http.Url req));
                     ArgD (http.StatusCode resp);
                     ArgD (Z.of_nat (String.length body))]) ;;;
            r <- json_Unmarshal body v ;;
            put_v (fst r) ;;;
            return_ (snd r)
          end
      end)
  end.

(** What [Send] leaves behind: how it ended, the request and the
    destination afterwards, and the calls it made. *)
Record SendResult : Type := mkSendResult {
  result : ret (option error);
  req_after : http.Request;
  v_after : any;
  trace : list event
}.

(** [Client.Send req v].  The body never falls off its end; a run that
    did would return no error. *)
Definition Send (c0 : Client) (req : http.Request) (v : any) : SendResult :=
  let '(r, w) := Send_body c0 {| w_req := req; w_v := v; w_trace := [] |} in
  {| result := match r with Exit x => x | Next _ => Returned None end;
     req_after := w_req w;
     v_after := w_v w;
     trace := w_trace w |}.

(** [Client.GetPaymentCallbackFromBytes]: the pointer decoded, or the
    error. *)
Definition GetPaymentCallbackFromBytes (c0 : Client) (body : string)
  : goval * option error :=
  match json.Unmarshal body (AnyPtr (TPtr PaymentResponse) (Some VNil)) with
  | (_, Some err) => (VNil, Some err)
  | (AnyPtr _ (Some callback), None) => (callback, None)
  | (_, None) => (VNil, None)
  end.

(** *** [NewRequest]

    Parsing the URL, reading its query and writing a query back are the
    work of [net/url]; they are taken as given. *)

Section NewRequest.

Variable url_Parse : string -> http.URL + error.
Variable url_Query : http.URL -> gmap string (list string).
Variable values_Encode : gmap string (list string) -> string.

(** [http.NewRequest]: an empty method stands for GET; the method must be
    a token and the URL must parse. *)
Definition http_NewRequest (method url : string) (body : option string)
  : http.Request + error :=
  let method' := if (String.length method =? 0)%nat then "GET" else method in
  if negb (http.validMethod method') then
    inr (errors.New "net/http" "net/http: invalid method")
  else
    match url_Parse url with
    | inr err => inr err
    | inl u =>
      inl {| http.Method := method'; http.Url := u;
             http.Header := ∅; http.Body := body |}
    end.

(** [Values.Add] *)
Definition values_Add (key value : string) (q : gmap string (list string))
  : gmap string (list string) :=
  <[key := (default [] (q !! key) ++ [value])%list]> q.

(** [Client.NewRequest method url payload query].  [json.Marshal] is handed
    a pointer to [payload] and encodes what it holds. *)
Definition NewRequest (c0 : Client) (method url : string) (payload : any)
    (query : gmap string string) : http.Request + error :=
  let buf :=
    match payload with
    | AnyNil => inl None
    | _ =>
      match json.Marshal payload with
      | inl b => inl (Some b)
      | inr err => inr err
      end
    end in
  match buf with
  | inr err => inr err
  | inl buf' =>
    match http_NewRequest method url buf' with
    | inr err => inr err
    | inl req =>
      let q := map_fold values_Add (url_Query (http.Url req)) query in
      inl (http.set_RawQuery (values_Encode q) req)
    end
  end.

End NewRequest.

(** ** Sample inputs

    A request that already carries headers, an HTTP client that answers
    every request with a given status and body, and a client configured
    with it. *)

Definition sample_request : http.Request :=
  {| http.Method := "POST";
     http.Url := {| http.Location := "https://api.rozetkapay.com/api/payments/v1/new";
                    http.RawQuery := "" |};
     http.Header := {[ "X-Request-Id" := ["42"]; "Content-type" := ["text/plain"] ]};
     http.Body := None |}.

Definition answering (status : Z) (body : string)
  : http.Request -> http.Response + error :=
  fun _ => inl {| http.StatusCode := status; http.ReadAll := inl body |}.

Definition sample_client (debug : bool) (status : Z) (body : string) : Client :=
  {| c := SetDebugMode (NewConfig "login" "password") debug;
     httpClient := answering status body |}.

(** A destination as the operations of the client pass it: a pointer to a
    fresh struct. *)
Definition new_ (t : gotype) : any := AnyPtr t (Some (zero t)).

(** The client [c0] with its debug flag set to [debug]. *)
Definition with_debug (c0 : Client) (debug : bool) : Client :=
  {| c := SetDebugMode (c c0) debug; httpClient := httpClient c0 |}.

(** The text [Send] logs for a failure response that decodes. *)
Definition error_line (ty code message payment_id : string) : event :=
  EvPrintf error_format
    [ArgS ty; ArgS code; ArgS message; ArgS payment_id; ArgS ty].

(** Two failure bodies: the one of the specification, and one whose code
    holds a percent sign. *)
Definition declined_body : string :=
  Bytes.q "{'code':'transaction_declined', 'message':'m', 'param':'p', 'payment_id':'id1', 'type':'t'}".

Definition percent_body : string :=
  Bytes.q "{'code':'rate_limit_100%', 'message':'m', 'param':'p', 'payment_id':'id1', 'type':'t'}".

(** ** More sample inputs *)

(** [x.Name = y] on a struct value of type [t]. *)
Definition set_field (t : gotype) (name : string) (y : goval) (x : goval)
  : goval :=
  match t, x with
  | TStruct _ fs, VStruct vs =>
    match find_by (fun f => String.eqb (fname f) name) fs 0 with
    | Some (i, _) => VStruct (<[i := y]> vs)
    | None => x
    end
  | _, _ => x
  end.

(** A payment response as the gateway sends one. *)
Definition sample_details : goval :=
  set_field PaymentResponseDetails "Amount" (VString "100.50")
    (set_field PaymentResponseDetails "CreatedAt"
       (VTime (time.mkTime 2024 2 29 13 5 9 120000000 7200))
       (set_field PaymentResponseDetails "Status" (VString PaymentStatusSuccess)
          (set_field PaymentResponseDetails "StatusCode"
             (VString StatusCodeTransactionSuccessful)
             (zero PaymentResponseDetails)))).





(** An error response with the given code and nothing else. *)
Definition error_with_code (code : string) : goval :=
  set_field ErrorResponse "Code" (VString code) (zero ErrorResponse).

(** A URL parser that accepts every text, for the examples. *)
Definition parse_any (u : string) : http.URL + error :=
  inl {| http.Location := u; http.RawQuery := "" |}.

Definition no_query (u : http.URL) : gmap string (list string) := ∅.

Definition encode_none (q : gmap string (list string)) : string := "".

(** What [NewRequest] sends for an [AddWalletCustomerSchema] with no field
    set. *)
Definition empty_wallet_body : string :=
  Bytes.q "{'callback_url':'','result_url':'','payment_method':{'apple_pay':{'browser_fingerprint':{},'token':'','use_3ds_flow':false},'cc_token':{'browser_fingerprint':{},'token':'','use_3ds_flow':false},'google_pay':{'browser_fingerprint':{},'token':'','use_3ds_flow':false},'wallet':{'browser_fingerprint':{},'option_id':'','use_3ds_flow':false}}}".

(** The same for the [CustomerData] a [CreatePaymentSchema] points to. *)
Definition empty_customer_body : string :=
  Bytes.q "{'payment_method':{'apple_pay':{'browser_fingerprint':{},'token':'','use_3ds_flow':false},'cc_token':{'browser_fingerprint':{},'token':'','use_3ds_flow':false},'google_pay':{'browser_fingerprint':{},'token':'','use_3ds_flow':false},'wallet':{'browser_fingerprint':{},'option_id':'','use_3ds_flow':false}}}".

(** A success body. *)
Definition success_body : string :=
  Bytes.q "{'id':'pay_1','is_success':true,'details':{'amount':'100.50','status':'success','status_code':'transaction_successful','created_at':'2024-02-29T13:05:09.12+02:00'},'unknown':[1,2]}".

(** Whether the field [name] of the struct type [t] is tagged omitempty. *)
Definition tagged_omitempty (t : gotype) (name : string) : bool :=
  match t with
  | TStruct _ fs =>
    match find_by (fun f => String.eqb (fname f) name) fs 0 with
    | Some (_, f) => fomit f
    | None => false
    end
  | _ => false
  end.

(** * Notions used to state and prove the properties *)

(** ** Base64 as RFC 4648 words it

    The input is read as a string of bits, the bits are taken six at a
    time, the last group being filled up with zero bits, each group is
    written as the letter of the alphabet at its number, and equal signs
    bring the length to a multiple of four.  [base64.EncodeToString] above
    follows the Go sources instead, which work on blocks of three
    bytes. *)

Module base64Spec.
Import Bytes.

#[local] Open Scope list_scope.

(** The bits of a byte, the most significant first. *)
Definition byte_bits (b : ascii) : list bool :=
  let '(Ascii b0 b1 b2 b3 b4 b5 b6 b7) := b in
  [b7; b6; b5; b4; b3; b2; b1; b0].

Fixpoint bits (s : string) : list bool :=
  match s with
  | "" => []
  | String b r => byte_bits b ++ bits r
  end.

(** The number a group of bits stands for. *)
Definition number (g : list bool) : Z :=
  fold_left (fun n (b : bool) => 2 * n + (if b then 1 else 0)) g 0.

Fixpoint groups (l : list bool) : list (list bool) :=
  match l with
  | [] => []
  | a :: b :: c :: d :: e :: f :: r => [a; b; c; d; e; f] :: groups r
  | short => [firstn 6 (short ++ repeat false 5)]
  end.

(** The alphabet: A to Z, a to z, 0 to 9, plus and slash. *)
Definition letter (n : Z) : ascii :=
  if n <? 26 then of_val (65 + n)
  else if n <? 52 then of_val (97 + (n - 26))
  else if n <? 62 then of_val (48 + (n - 52))
  else if n =? 62 then "+"%char
  else "/"%char.

Fixpoint equals (n : nat) : string :=
  match n with
  | O => ""
  | S k => String "=" (equals k)
  end.

Definition letters (src : string) : list ascii :=
  map (fun g => letter (number g)) (groups (bits src)).

Definition encoding (src : string) : string :=
  string_of_list_ascii (letters src)
    +:+ equals ((4 - length (letters src) mod 4) mod 4).

End base64Spec.

Module jsonSpec.
Import Bytes json.

#[local] Open Scope list_scope.

(** The scanner as a state machine over the inside of a literal: the state
    after [s], when [s] holds no closing quote and nothing the scanner
    refuses. *)
Fixpoint scan_state (st : sstate) (s : string) : option sstate :=
  match s with
  | "" => Some st
  | String b r =>
    match st with
    | InString =>
      if Ascii.eqb b dquote then None
      else if Ascii.eqb b "\" then scan_state InStringEsc r
      else if val b <? 32 then None
      else scan_state InString r
    | InStringEsc =>
      if contains b "bfnrt\/" || Ascii.eqb b dquote
      then scan_state InString r
      else if Ascii.eqb b "u" then scan_state (InStringEscU 3) r
      else None
    | InStringEscU n =>
      if is_hex b then
        scan_state (match n with O => InString | S k => InStringEscU k end) r
      else None
    end
  end.

(** A literal the scanner reads up to its closing quote. *)
Definition valid_literal (lit : string) : bool :=
  match scan_state InString lit with
  | Some InString => true
  | _ => false
  end.

Ltac split_if :=
  match goal with
  | |- context [if ?c then _ else _] => destruct c
  end.

Definition scan_next (st : sstate) (b : ascii) : option sstate :=
  match st with
  | InString =>
    if Ascii.eqb b dquote then None
    else if Ascii.eqb b "\" then Some InStringEsc
    else if val b <? 32 then None
    else Some InString
  | InStringEsc =>
    if contains b "bfnrt\/" || Ascii.eqb b dquote then Some InString
    else if Ascii.eqb b "u" then Some (InStringEscU 3)
    else None
  | InStringEscU n =>
    if is_hex b then Some (match n with O => InString | S k => InStringEscU k end)
    else None
  end.

(** The members of an object as [render] writes them, from the first
    member to the closing brace. *)
Fixpoint render_members (m : list (string * value)) : string :=
  match m with
  | [] => "}"
  | (k, x) :: r =>
    quoted k +:+ ":" +:+ render x
      +:+ match r with [] => "}" | _ => "," +:+ render_members r end
  end.

(** The trees the encoder builds from the types described: no number and
    no array, and literals the scanner accepts. *)
Fixpoint canonical (j : value) : bool :=
  match j with
  | Null | Bool _ => true
  | Str lit => valid_literal lit
  | Object m =>
    forallb (fun kx => valid_literal (fst kx) && canonical (snd kx)) m
  | Number _ | Array _ => false
  end.

(** The nesting of a tree, and the number of its nodes. *)
Fixpoint height (j : value) : Z :=
  match j with
  | Object m => 1 + fold_right (fun kx h => Z.max (height (snd kx)) h) 0 m
  | Array l => 1 + fold_right (fun x h => Z.max (height x) h) 0 l
  | _ => 0
  end.

Fixpoint weight (j : value) : nat :=
  match j with
  | Object m => S (fold_right (fun kx n => S (weight (snd kx) + n)) O m)
  | Array l => S (fold_right (fun x n => S (weight x + n)) O l)
  | _ => 1
  end.

Definition mweight (m : list (string * value)) : nat :=
  fold_right (fun kx n => S (weight (snd kx) + n)) O m.

Definition mheight (m : list (string * value)) : Z :=
  fold_right (fun kx h => Z.max (height (snd kx)) h) 0 m.

Definition mcanonical (m : list (string * value)) : bool :=
  forallb (fun kx => valid_literal (fst kx) && canonical (snd kx)) m.

(** The members of a struct, as the encoder writes them. *)
Fixpoint encode_members (fs : list field) (vs : list goval)
  : list (string * value) + error :=
  match fs, vs with
  | [], [] => inl []
  | f :: fs', x :: vs' =>
    if fomit f && isEmptyValue x then encode_members fs' vs'
    else
      match encode (ftype f) x with
      | inl j =>
        match encode_members fs' vs' with
        | inl m => inl ((appendString (fkey f), j) :: m)
        | inr e => inr e
        end
      | inr e => inr e
      end
  | _, _ => inr UnsupportedValue
  end.

(** The members of an object, as the decoder stores them into the fields
    [fs] of a struct holding [vs]. *)
Definition decode_members (fs : list field)
  : list (string * value) -> list goval -> dstatus -> list goval * dstatus :=
  fix members (m : list (string * value)) (vs : list goval) (st : dstatus)
    : list goval * dstatus :=
    match m with
    | [] => (vs, st)
    | (klit, x) :: m' =>
      match unquote klit with
      | None => (vs, DAbort (SyntaxError "json: invalid string"))
      | Some key =>
        match find_field key fs with
        | None => members m' vs st
        | Some (i, f) =>
          match vs !! i with
          | None => (vs, DAbort UnsupportedValue)
          | Some cur =>
            let '(y, st1) := decode x (ftype f) cur in
            match st1 with
            | DAbort e => (<[i := y]> vs, DAbort e)
            | _ => members m' (<[i := y]> vs) (merge st st1)
            end
          end
        end
      end
    end.

(** A byte that stands for itself inside a literal. *)
Definition plain (b : ascii) : bool :=
  negb (Ascii.eqb b dquote) && negb (Ascii.eqb b "\") && (32 <=? val b).

Definition time_eqb (a b : time.Time) : bool :=
  (time.year a =? time.year b) && (time.month a =? time.month b)
  && (time.day a =? time.day b) && (time.hour a =? time.hour b)
  && (time.minute a =? time.minute b) && (time.second a =? time.second b)
  && (time.nsec a =? time.nsec b) && (time.offset a =? time.offset b).

(** A timestamp that has an RFC 3339 text and is what that text reads
    as. *)
Definition time_reads_back (tm : time.Time) : bool :=
  match time.appendStrictRFC3339 tm with
  | inl b =>
    valid_literal b
    && match time.UnmarshalJSON (quoted b) time.zero with
       | inl tm' => time_eqb tm' tm
       | inr _ => false
       end
  | inr _ => false
  end.

(** A timestamp whose civil reading is one of the calendar, in a year of
    at most four digits, with a zone offset of whole minutes and less than
    a day. *)
Definition time_ok (tm : time.Time) : bool :=
  (0 <=? time.year tm) && (time.year tm <=? 9999)
  && (1 <=? time.month tm) && (time.month tm <=? 12)
  && (1 <=? time.day tm)
  && (time.day tm <=? time.daysIn (time.month tm) (time.year tm))
  && (0 <=? time.hour tm) && (time.hour tm <=? 23)
  && (0 <=? time.minute tm) && (time.minute tm <=? 59)
  && (0 <=? time.second tm) && (time.second tm <=? 59)
  && (0 <=? time.nsec tm) && (time.nsec tm <=? 999999999)
  && (time.offset tm mod 60 =? 0)
  && (-86400 <? time.offset tm) && (time.offset tm <? 86400).

Fixpoint distinct (l : list string) : bool :=
  match l with
  | [] => true
  | x :: r => negb (existsb (String.eqb x) r) && distinct r
  end.

Definition is_ptr (t : gotype) : bool :=
  match t with
  | TPtr _ => true
  | _ => false
  end.

(** The types the round trip is proved for: the json names of a struct
    are distinct and well-formed UTF-8, and no pointer points to a
    pointer. *)
Fixpoint type_ok (t : gotype) : bool :=
  match t with
  | TStruct _ fs =>
    distinct (map fkey fs)
    && forallb (fun f => utf8.ValidString (fkey f)) fs
    && forallb (fun f => type_ok (ftype f)) fs
  | TPtr t' => negb (is_ptr t') && type_ok t'
  | _ => true
  end.

(** The values the round trip is proved for: values of their type, whose
    strings are well-formed UTF-8 and whose timestamps are [time_ok]. *)
Fixpoint value_ok (t : gotype) (v : goval) : bool :=
  match t, v with
  | TString _, VString s => utf8.ValidString s
  | TBool, VBool _ => true
  | TTime, VTime tm => time_ok tm
  | TStruct _ fs, VStruct vs =>
    (fix all2 (fs : list field) (vs : list goval) : bool :=
       match fs, vs with
       | [], [] => true
       | f :: fs', x :: vs' => value_ok (ftype f) x && all2 fs' vs'
       | _, _ => false
       end) fs vs
  | TPtr _, VNil => true
  | TPtr t', VPtr x => value_ok t' x
  | _, _ => false
  end.

Fixpoint values_ok (fs : list field) (vs : list goval) : bool :=
  match fs, vs with
  | [], [] => true
  | f :: fs', x :: vs' => value_ok (ftype f) x && values_ok fs' vs'
  | _, _ => false
  end.

Fixpoint theight (t : gotype) : Z :=
  match t with
  | TStruct _ fs => 1 + fold_right (fun f h => Z.max (theight (ftype f)) h) 0 fs
  | TPtr t' => theight t'
  | _ => 0
  end.

Definition fheight (fs : list field) : Z :=
  fold_right (fun f h => Z.max (theight (ftype f)) h) 0 fs.

Definition zeros (fs : list field) : list goval :=
  map (fun f => zero (ftype f)) fs.

(** Writing a value of type [t] and reading the text back into a fresh
    variable of type [t] gives the value. *)
Definition roundtrip_at (t : gotype) : Prop :=
  type_ok t = true ->
  forall v, value_ok t v = true ->
  exists j,
    encode t v = inl j
    /\ canonical j = true
    /\ height j <= theight t
    /\ (is_ptr t = false -> j <> Null)
    /\ decode j t (zero t) = (v, DGood).

(** The type a pointer type leads to. *)
Fixpoint base_type (t : gotype) : gotype :=
  match t with
  | TPtr t' => base_type t'
  | _ => t
  end.

(** [matches j t]: the JSON value [j] has the shape of the Go type [t].
    null matches every type; true and false match bool; a string matches a
    string type, and a timestamp when it reads as one; an object matches a
    struct when each member that names a field matches the type of the
    field (a member that names no field is ignored).  Pointers match what
    they point to. *)
Fixpoint matches (j : value) (t : gotype) : bool :=
  match j with
  | Null => true
  | _ =>
    match base_type t with
    | TTime =>
      match time.UnmarshalJSON (render j) time.zero with
      | inl _ => true
      | inr _ => false
      end
    | TBool => match j with Bool _ => true | _ => false end
    | TString _ =>
      match j with
      | Str lit => match unquote lit with Some _ => true | None => false end
      | _ => false
      end
    | TStruct _ fs =>
      match j with
      | Object m =>
        forallb
          (fun kx =>
             match unquote (fst kx) with
             | None => false
             | Some key =>
               match find_field key fs with
               | None => true
               | Some (_, f) => matches (snd kx) (ftype f)
               end
             end) m
      | _ => false
      end
    | TPtr _ => false
    end
  end.

Definition member_matches (fs : list field) (kx : string * value) : bool :=
  match unquote (fst kx) with
  | None => false
  | Some key =>
    match find_field key fs with
    | None => true
    | Some (_, f) => matches (snd kx) (ftype f)
    end
  end.

Fixpoint has_types (fs : list field) (vs : list goval) : bool :=
  match fs, vs with
  | [], [] => true
  | f :: fs', x :: vs' => has_type (ftype f) x && has_types fs' vs'
  | _, _ => false
  end.

End jsonSpec.

(** Unfolding a run of [Send]. *)
Ltac run_send :=
  unfold Send, Send_body, bind, get_req, put_req, get_v, put_v, when,
    log_Printf, emit, defer, json_Unmarshal, deref_string, return_, panic,
    pure; simpl.

Ltac send_cases :=
  repeat (case_match; simpl in *; simplify_eq; try done).

Definition is_Unmarshal (ev : event) : bool :=
  match ev with
  | EvUnmarshal _ => true
  | _ => false
  end.

Definition is_Printf (ev : event) : bool :=
  match ev with
  | EvPrintf _ _ => true
  | _ => false
  end.

(** The two trace lines that announce themselves as debug lines. *)
Definition is_debug_line (ev : event) : bool :=
  match ev with
  | EvPrintf format _ =>
    String.eqb format debug_request_format
    || String.eqb format debug_response_format
  | _ => false
  end.

Definition outside_2xx (status : Z) : Prop := status < 200 \/ 299 < status.

(** * The operations of the client *)

(** ** Events by kind, and HTTP clients for the examples *)

Definition is_Do (ev : event) : bool :=
  match ev with
  | EvDo _ => true
  | _ => false
  end.

Definition is_Close (ev : event) : bool :=
  match ev with
  | EvClose => true
  | _ => false
  end.

Definition is_ReadAll (ev : event) : bool :=
  match ev with
  | EvReadAll => true
  | _ => false
  end.

(** An HTTP client whose [Do] fails with [err], and one that answers with
    a response whose body cannot be read. *)
Definition failing (err : error) : http.Request -> http.Response + error :=
  fun _ => inr err.

Definition unreadable (status : Z) (err : error)
  : http.Request -> http.Response + error :=
  fun _ => inl {| http.StatusCode := status; http.ReadAll := inr err |}.

Definition connection_refused : error :=
  TransportError "dial tcp: connection refused".

Definition unexpected_EOF : error := TransportError "unexpected EOF".

(** A query writer for the examples: it writes the first value of
    [external_id] and nothing else. *)
Definition encode_external_id (q : gmap string (list string)) : string :=
  match q !! "external_id" with
  | Some (value :: _) => "external_id=" +:+ value
  | _ => ""
  end.

(** The tree of the failure body of the examples. *)
Definition declined_tree : value := default Null (parse declined_body).

(** A request to delete a payment method, and the answer to it. *)
Definition sample_delete : goval :=
  VStruct [VString "opt_7"; VString PaymentMethodTypeWallet].

Definition sample_deleted : goval :=
  VStruct [VBool true; VString "opt_7"; VString PaymentMethodTypeWallet].

Definition sample_deleted_body : string :=
  Bytes.q "{'delete':true,'option_id':'opt_7','type':'wallet'}".

(** ** Reading base64 back

    The inverse of the alphabet, and the text read four characters at a
    time: each gives six bits, an equal sign at the end stands for a
    missing byte. *)

Module base64Reading.
Import Bytes.

Definition number_of (ch : ascii) : option Z :=
  if is_upper ch then Some (val ch - 65)
  else if is_lower ch then Some (val ch - 97 + 26)
  else if is_digit ch then Some (val ch - 48 + 52)
  else if Ascii.eqb ch "+" then Some 62
  else if Ascii.eqb ch "/" then Some 63
  else None.

Fixpoint decoding (s : string) : option string :=
  match s with
  | "" => Some ""
  | String a (String b (String c (String d r))) =>
    match number_of a, number_of b with
    | Some x0, Some x1 =>
      let b0 := of_val (x0 * 4 + x1 / 16) in
      if Ascii.eqb c "=" then
        if Ascii.eqb d "=" && (String.length r =? 0)%nat
        then Some (String b0 "")
        else None
      else
        match number_of c with
        | Some x2 =>
          let b1 := of_val (x1 mod 16 * 16 + x2 / 4) in
          if Ascii.eqb d "=" then
            if (String.length r =? 0)%nat
            then Some (String b0 (String b1 ""))
            else None
          else
            match number_of d, decoding r with
            | Some x3, Some rest =>
              Some (String b0
                      (String b1 (String (of_val (x2 mod 4 * 64 + x3)) rest)))
            | _, _ => None
            end
        | None => None
        end
    | _, _ => None
    end
  | _ => None
  end.

(** The characters of a base64 text. *)
Definition is_base64 (ch : ascii) : bool :=
  is_alpha ch || is_digit ch || contains ch "+/=".

End base64Reading.

(** A type with no timestamp inside. *)
Fixpoint timeless (t : gotype) : bool :=
  match t with
  | TTime => false
  | TStruct _ fs => forallb (fun f => timeless (ftype f)) fs
  | TPtr t' => timeless t'
  | _ => true
  end.

(** ** What an operation comes to

    An operation returns a value and an error, or panics; [calls] are the
    calls [Send] made on its behalf. *)

Record Outcome (A : Type) : Type := mkOutcome {
  returned : ret (A * option error);
  calls : list event
}.
Arguments mkOutcome {A}.
Arguments returned {A}.
Arguments calls {A}.

Section Operations.

Variable url_Parse : string -> http.URL + error.
Variable url_Query : http.URL -> gmap string (list string).
Variable values_Encode : gmap string (list string) -> string.

(** [Client.ResendPaymentCallback schema]; [schema] is a pointer, [None]
    when nil.  The query map is nil. *)
Definition ResendPaymentCallback (c0 : Client) (schema : option goval)
  : Outcome bool :=
  match NewRequest url_Parse url_Query values_Encode c0 http.MethodPost
          (API (c c0) +:+ "payments/v1/callback/resend")
          (AnyPtr PaymentCallbackResendSchema schema) ∅ with
  | inr err => {| returned := Returned (false, Some err); calls := [] |}
  | inl req =>
    let r := Send c0 req AnyNil in
    {| returned :=
         match result r with
         | Returned (Some err) => Returned (false, Some err)
         | Returned None => Returned (true, None)
         | Panicked msg => Panicked msg
         end;
       calls := trace r |}
  end.

(** [Client.AddWalletCustomerPayment customerID schema]: the response is
    decoded into a fresh [AddWalletCustomerResponse], whose address is
    returned when [Send] returns no error. *)
Definition AddWalletCustomerPayment (c0 : Client) (customerID : string)
    (schema : option goval) : Outcome goval :=
  match NewRequest url_Parse url_Query values_Encode c0 http.MethodPost
          (API (c c0) +:+ "customers/v1/wallet")
          (AnyPtr AddWalletCustomerSchema schema)
          {[ "external_id" := customerID ]} with
  | inr err => {| returned := Returned (VNil, Some err); calls := [] |}
  | inl req =>
    let r := Send c0 req (AnyPtr AddWalletCustomerResponse
                            (Some (zero AddWalletCustomerResponse))) in
    {| returned :=
         match result r with
         | Returned (Some err) => Returned (VNil, Some err)
         | Returned None =>
           match v_after r with
           | AnyPtr _ (Some resp) => Returned (VPtr resp, None)
           | _ => Returned (VNil, None)
           end
         | Panicked msg => Panicked msg
         end;
       calls := trace r |}
  end.

(** [Client.DeleteWalletCustomerPayment customerID schema] *)
Definition DeleteWalletCustomerPayment (c0 : Client) (customerID : string)
    (schema : option goval) : Outcome goval :=
  match NewRequest url_Parse url_Query values_Encode c0 http.MethodDelete
          (API (c c0) +:+ "customers/v1/wallet")
          (AnyPtr DeleteWalletCustomerSchema schema)
          {[ "external_id" := customerID ]} with
  | inr err => {| returned := Returned (VNil, Some err); calls := [] |}
  | inl req =>
    let r := Send c0 req (AnyPtr DeleteWalletCustomerResponse
                            (Some (zero DeleteWalletCustomerResponse))) in
    {| returned :=
         match result r with
         | Returned (Some err) => Returned (VNil, Some err)
         | Returned None =>
           match v_after r with
           | AnyPtr _ (Some resp) => Returned (VPtr resp, None)
           | _ => Returned (VNil, None)
           end
         | Panicked msg => Panicked msg
         end;
       calls := trace r |}
  end.

End Operations.

(** * Facts about the library models *)

Module BytesFacts.
Import Bytes.

Lemma val_range b : 0 <= val b < 256.
Proof.
  unfold val. pose proof (N_ascii_bounded b) as H. lia.
Qed.

Lemma of_val_val b : of_val (val b) = b.
Proof.
  unfold of_val, val. rewrite N2Z.id. apply ascii_N_embedding.
Qed.

Lemma stake_app (s t : string) : take (String.length s) (s +:+ t) = s.
Proof. induction s as [|b s IH]; simpl; [by destruct t | by f_equal]. Qed.

Lemma sdrop_app (s t : string) : drop (String.length s) (s +:+ t) = t.
Proof. induction s as [|b s IH]; simpl; [by destruct t | done]. Qed.

Lemma sapp_assoc (a b c : string) : (a +:+ b) +:+ c = a +:+ (b +:+ c).
Proof. induction a as [|x a IH]; simpl; [done | by f_equal]. Qed.

Lemma sapp_nil_r (a : string) : a +:+ "" = a.
Proof. induction a as [|x a IH]; simpl; [done | by f_equal]. Qed.

Lemma slength_app (a b : string) :
  String.length (a +:+ b) = (String.length a + String.length b)%nat.
Proof. induction a as [|x a IH]; simpl; [done | by f_equal]. Qed.

End BytesFacts.

Module utf8Facts.
Import Bytes utf8.

Lemma size_le_4 s : (size s <= 4)%nat.
Proof.
  unfold size. destruct s as [|b0 r0]; [lia|].
  repeat case_match; lia.
Qed.

Lemma size_le_length s : (size s <= String.length s)%nat.
Proof.
  unfold size. destruct s as [|b0 r0]; [simpl; lia|].
  repeat case_match; simpl; lia.
Qed.

Lemma size_ascii b r : (val b <? 128) = true -> size (String b r) = 1%nat.
Proof. intros H. unfold size. by rewrite H. Qed.

Lemma size_high b r : (val b <? 128) = false -> size (String b r) <> 1%nat.
Proof.
  intros H. unfold size. rewrite H. repeat case_match; lia.
Qed.

End utf8Facts.

Module fmtFacts.
Import Bytes fmt.

(** A format without a percent sign is written out unchanged. *)
Lemma doPrintf_plain (format : string) :
  contains "%" format = false -> Sprintf0 format = format.
Proof.
  unfold Sprintf0. induction format as [|b r IH]; simpl; [done|].
  intros H. apply orb_false_elim in H as [Hb Hr].
  rewrite Hb. by rewrite IH.
Qed.

End fmtFacts.

(** * [EncodeToString] writes base64 *)

Module base64Facts.
Import Bytes base64 base64Spec.

#[local] Open Scope list_scope.

Lemma land_shifted (a b k : Z) :
  0 <= k -> 0 <= b < 2 ^ k -> Z.land (a * 2 ^ k) b = 0.
Proof.
  intros Hk Hb. apply Z.bits_inj'. intros n Hn.
  rewrite Z.land_spec, Z.bits_0.
  destruct (Z.lt_ge_cases n k) as [Hlt|Hge].
  - by rewrite Z.mul_pow2_bits_low.
  - destruct (Z.eq_dec b 0) as [->|Hnz];
      [by rewrite Z.bits_0, andb_false_r|].
    rewrite (Z.bits_above_log2 b n), andb_false_r; [done|lia|].
    assert (Z.log2 b < k) by (apply Z.log2_lt_pow2; lia). lia.
Qed.

Lemma lor_shifted (a b k : Z) :
  0 <= k -> 0 <= b < 2 ^ k -> Z.lor (a * 2 ^ k) b = a * 2 ^ k + b.
Proof.
  intros Hk Hb. pose proof (land_shifted a b k Hk Hb) as H.
  by rewrite <- Z.lxor_lor, <- Z.add_nocarry_lxor.
Qed.

(** The 24 bits of a block, as the number the byte values make. *)
Lemma block_value (x0 x1 x2 : Z) :
  0 <= x0 < 256 -> 0 <= x1 < 256 -> 0 <= x2 < 256 ->
  Z.lor (Z.lor (Z.shiftl x0 16) (Z.shiftl x1 8)) x2
  = x0 * 65536 + x1 * 256 + x2.
Proof.
  intros H0 H1 H2. rewrite !Z.shiftl_mul_pow2 by lia.
  rewrite (lor_shifted x0 (x1 * 2 ^ 8) 16);
    [|lia|change (2 ^ 8) with 256; change (2 ^ 16) with 65536; lia].
  replace (x0 * 2 ^ 16 + x1 * 2 ^ 8) with ((x0 * 256 + x1) * 2 ^ 8)
    by (change (2 ^ 8) with 256; change (2 ^ 16) with 65536; lia).
  rewrite lor_shifted; [|lia|change (2 ^ 8) with 256; lia].
  change (2 ^ 8) with 256. lia.
Qed.

(** The four numbers [Encode] takes from a block. *)
Lemma block_sextets (x0 x1 x2 : Z) :
  0 <= x0 < 256 -> 0 <= x1 < 256 -> 0 <= x2 < 256 ->
  let v := Z.lor (Z.lor (Z.shiftl x0 16) (Z.shiftl x1 8)) x2 in
  Z.land (Z.shiftr v 18) 63 = x0 / 4
  /\ Z.land (Z.shiftr v 12) 63 = x0 mod 4 * 16 + x1 / 16
  /\ Z.land (Z.shiftr v 6) 63 = x1 mod 16 * 4 + x2 / 64
  /\ Z.land v 63 = x2 mod 64.
Proof.
  intros H0 H1 H2 v. subst v. rewrite block_value by done.
  change 63 with (Z.ones 6). rewrite !Z.land_ones by lia.
  rewrite !Z.shiftr_div_pow2 by lia.
  change (2 ^ 18) with 262144. change (2 ^ 12) with 4096.
  change (2 ^ 6) with 64.
  repeat split; Z.div_mod_to_equations; lia.
Qed.

Ltac by_bits :=
  repeat match goal with b : bool |- _ => destruct b end; reflexivity.

Lemma byte_div4 b0 b1 b2 b3 b4 b5 b6 b7 :
  val (Ascii b0 b1 b2 b3 b4 b5 b6 b7) / 4 = number [b7; b6; b5; b4; b3; b2].
Proof. by_bits. Qed.

Lemma byte_mod4 b0 b1 b2 b3 b4 b5 b6 b7 :
  val (Ascii b0 b1 b2 b3 b4 b5 b6 b7) mod 4 = number [b1; b0].
Proof. by_bits. Qed.

Lemma byte_div16 b0 b1 b2 b3 b4 b5 b6 b7 :
  val (Ascii b0 b1 b2 b3 b4 b5 b6 b7) / 16 = number [b7; b6; b5; b4].
Proof. by_bits. Qed.

Lemma byte_mod16 b0 b1 b2 b3 b4 b5 b6 b7 :
  val (Ascii b0 b1 b2 b3 b4 b5 b6 b7) mod 16 = number [b3; b2; b1; b0].
Proof. by_bits. Qed.

Lemma byte_div64 b0 b1 b2 b3 b4 b5 b6 b7 :
  val (Ascii b0 b1 b2 b3 b4 b5 b6 b7) / 64 = number [b7; b6].
Proof. by_bits. Qed.

Lemma byte_mod64 b0 b1 b2 b3 b4 b5 b6 b7 :
  val (Ascii b0 b1 b2 b3 b4 b5 b6 b7) mod 64 = number [b5; b4; b3; b2; b1; b0].
Proof. by_bits. Qed.

Lemma number_2_4 (a b c d e f : bool) :
  number [a; b] * 16 + number [c; d; e; f] = number [a; b; c; d; e; f].
Proof. by_bits. Qed.

Lemma number_4_2 (a b c d e f : bool) :
  number [a; b; c; d] * 4 + number [e; f] = number [a; b; c; d; e; f].
Proof. by_bits. Qed.

(** The table of the Go sources is the alphabet. *)
Lemma encode_letter (a b c d e f : bool) :
  encode (number [a; b; c; d; e; f]) = letter (number [a; b; c; d; e; f]).
Proof. by_bits. Qed.

Lemma string_ind3 (P : string -> Prop) :
  P "" ->
  (forall a, P (String a "")) ->
  (forall a b, P (String a (String b ""))) ->
  (forall a b c r, P r -> P (String a (String b (String c r)))) ->
  forall s, P s.
Proof.
  intros H0 H1 H2 H3 s.
  assert (H : P s /\ (forall a, P (String a s))
              /\ (forall a b, P (String a (String b s)))).
  { induction s as [|x s (IH0 & IH1 & IH2)]; [by auto|].
    split; [apply IH1|]. split; [intros a; apply IH2|].
    intros a b. by apply H3. }
  apply H.
Qed.

Lemma mod4_add4 (n : nat) : (S (S (S (S n))) mod 4 = n mod 4)%nat.
Proof.
  replace (S (S (S (S n)))) with (n + 1 * 4)%nat by lia.
  apply Nat.Div0.mod_add.
Qed.

(** [EncodeToString] writes the base64 text of its input. *)
Theorem EncodeToString_base64 (src : string) :
  EncodeToString src = encoding src.
Proof.
  induction src as [|s0|s0 s1|s0 s1 s2 r IH] using string_ind3.
  - reflexivity.
  - pose proof (block_sextets (val s0) 0 0 (BytesFacts.val_range s0)
                  ltac:(lia) ltac:(lia)) as (E0 & E1 & _).
    cbv zeta in E0, E1.
    change (Z.shiftl 0 8) with 0 in E0, E1. rewrite !Z.lor_0_r in E0, E1.
    cbn [EncodeToString]. cbv zeta. rewrite E0, E1.
    destruct s0 as [a0 a1 a2 a3 a4 a5 a6 a7].
    rewrite byte_div4, byte_mod4.
    change (0 / 16) with (number [false; false; false; false]).
    rewrite number_2_4, !encode_letter. reflexivity.
  - pose proof (block_sextets (val s0) (val s1) 0 (BytesFacts.val_range s0)
                  (BytesFacts.val_range s1) ltac:(lia)) as (E0 & E1 & E2 & _).
    cbv zeta in E0, E1, E2. rewrite !Z.lor_0_r in E0, E1, E2.
    cbn [EncodeToString]. cbv zeta. rewrite E0, E1, E2.
    destruct s0 as [a0 a1 a2 a3 a4 a5 a6 a7].
    destruct s1 as [c0 c1 c2 c3 c4 c5 c6 c7].
    rewrite byte_div4, byte_mod4, byte_div16, byte_mod16.
    change (0 / 64) with (number [false; false]).
    rewrite number_2_4, number_4_2, !encode_letter. reflexivity.
  - pose proof (block_sextets (val s0) (val s1) (val s2)
                  (BytesFacts.val_range s0) (BytesFacts.val_range s1)
                  (BytesFacts.val_range s2)) as (E0 & E1 & E2 & E3).
    cbv zeta in E0, E1, E2, E3.
    cbn [EncodeToString]. cbv zeta. rewrite E0, E1, E2, E3, IH.
    destruct s0 as [a0 a1 a2 a3 a4 a5 a6 a7].
    destruct s1 as [c0 c1 c2 c3 c4 c5 c6 c7].
    destruct s2 as [d0 d1 d2 d3 d4 d5 d6 d7].
    rewrite byte_div4, byte_mod4, byte_div16, byte_mod16, byte_div64,
      byte_mod64.
    rewrite number_2_4, number_4_2, !encode_letter.
    unfold encoding, letters.
    cbn [bits byte_bits app groups map string_of_list_ascii length
         String.append].
    by rewrite mod4_add4.
Qed.

End base64Facts.

(** * JSON string literals: writing and reading back *)

Module jsonStrings.
Import Bytes json jsonSpec BytesFacts utf8Facts.

(** The skip counter of the byte loops stands for bytes dropped. *)
Lemma appendString_from_drop (k : nat) (s : string) :
  appendString_from k s = appendString_from 0 (drop k s).
Proof.
  revert s. induction k as [|k IH]; intros [|b r]; simpl; try done;
    try apply IH.
Qed.

Lemma unquote_from_drop (k : nat) (s : string) :
  unquote_from k s = unquote_from 0 (drop k s).
Proof.
  revert s. induction k as [|k IH]; intros [|b r]; simpl; try done;
    try apply IH.
Qed.

Lemma valid_from_drop (k : nat) (s : string) :
  utf8.valid_from k s = utf8.valid_from 0 (drop k s).
Proof.
  revert s. induction k as [|k IH]; intros [|b r]; simpl; try done;
    try apply IH.
Qed.

Lemma drop_app_length (p t : string) (n : nat) :
  String.length p = n -> drop n (p +:+ t) = t.
Proof. intros <-. apply sdrop_app. Qed.

Lemma take_drop (n : nat) (s : string) : take n s +:+ drop n s = s.
Proof.
  revert s. induction n as [|n IH]; intros [|b r]; simpl; try done.
  by rewrite IH.
Qed.

Lemma length_take (n : nat) (s : string) :
  (n <= String.length s)%nat -> String.length (take n s) = n.
Proof.
  revert s. induction n as [|n IH]; intros [|b r]; simpl; try lia.
  intros H. rewrite IH; lia.
Qed.

Lemma length_drop (n : nat) (s : string) :
  String.length (drop n s) = (String.length s - n)%nat.
Proof.
  revert s. induction n as [|n IH]; intros [|b r]; simpl; try lia;
    try apply IH.
Qed.

(** The width of the rune at the head depends on its own bytes only. *)
Lemma size_take_app (s t : string) :
  utf8.size s <> 0%nat ->
  utf8.size (take (utf8.size s) s +:+ t) = utf8.size s.
Proof.
  unfold utf8.size at 1 3 4.
  destruct s as [|b0 r0]; [done|].
  destruct (val b0 <? 128) eqn:E0; [intros _; simpl; by rewrite E0|].
  destruct (val b0 <? 194) eqn:E1; [done|].
  destruct (val b0 <? 224) eqn:E2.
  { destruct r0 as [|b1 r1]; [done|].
    destruct (utf8.cont b1) eqn:C1; [|done].
    intros _. simpl. by rewrite E0, E1, E2, C1. }
  destruct (val b0 <? 240) eqn:E3.
  { destruct r0 as [|b1 [|b2 r2]]; try done.
    destruct (utf8.second_ok (val b0) b1 && utf8.cont b2) eqn:C1; [|done].
    intros _. simpl. by rewrite E0, E1, E2, E3, C1. }
  destruct (val b0 <? 245) eqn:E4; [|done].
  destruct r0 as [|b1 [|b2 [|b3 r3]]]; try done.
  destruct (utf8.second_ok (val b0) b1 && utf8.cont b2 && utf8.cont b3) eqn:C1;
    [|done].
  intros _. simpl. by rewrite E0, E1, E2, E3, E4, C1.
Qed.

(** Every byte of a rune of more than one byte is above the ASCII range. *)
Lemma size_high_bytes (s : string) (b : ascii) (r : string) :
  s = String b r -> (val b <? 128) = false -> utf8.size s <> 0%nat ->
  all (fun x => 128 <=? val x) (take (utf8.size s) s) = true.
Proof.
  intros -> E0. unfold utf8.size. rewrite E0.
  assert (Hc : forall x, utf8.cont x = true -> (128 <=? val x) = true).
  { intros x. unfold utf8.cont, in_range. intros [? _]%andb_true_iff. done. }
  assert (Hs : forall y x, utf8.second_ok y x = true -> (128 <=? val x) = true).
  { intros y x. unfold utf8.second_ok, in_range.
    repeat case_match; try apply Hc;
      intros [?%Z.leb_le _]%andb_true_iff; apply Z.leb_le; lia. }
  assert (Hb : (128 <=? val b) = true).
  { apply Z.leb_le. apply Z.ltb_ge in E0. lia. }
  destruct (val b <? 194); [done|].
  destruct (val b <? 224).
  { destruct r as [|b1 r1]; [done|]. destruct (utf8.cont b1) eqn:C1; [|done].
    intros _. simpl. rewrite Hb, (Hc _ C1). done. }
  destruct (val b <? 240).
  { destruct r as [|b1 [|b2 r2]]; try done.
    destruct (utf8.second_ok (val b) b1 && utf8.cont b2) eqn:C1; [|done].
    apply andb_true_iff in C1 as [C1 C2].
    intros _. simpl. rewrite Hb, (Hs _ _ C1), (Hc _ C2). done. }
  destruct (val b <? 245); [|done].
  destruct r as [|b1 [|b2 [|b3 r3]]]; try done.
  destruct (utf8.second_ok (val b) b1 && utf8.cont b2 && utf8.cont b3) eqn:C1;
    [|done].
  apply andb_true_iff in C1 as [[C1 C2]%andb_true_iff C3].
  intros _. simpl. rewrite Hb, (Hs _ _ C1), (Hc _ C2), (Hc _ C3). done.
Qed.

End jsonStrings.

Module jsonStrings2.
Import Bytes json jsonSpec BytesFacts utf8Facts jsonStrings.

#[local] Arguments utf8.size : simpl never.

Lemma scan_state_cons (st : sstate) (b : ascii) (r : string) :
  scan_state st (String b r)
  = match scan_next st b with
    | Some st' => scan_state st' r
    | None => None
    end.
Proof.
  unfold scan_next. destruct st; simpl; repeat split_if; done.
Qed.

Lemma scan_string_cons (st : sstate) (b : ascii) (r : string) :
  scan_string st (String b r)
  = match scan_next st b with
    | Some st' => push b (scan_string st' r)
    | None =>
      match st with
      | InString => if Ascii.eqb b dquote then Some ("", r) else None
      | _ => None
      end
    end.
Proof.
  unfold scan_next. destruct st; simpl; repeat split_if; done.
Qed.

Lemma scan_state_app (st : sstate) (a b : string) :
  scan_state st (a +:+ b)
  = match scan_state st a with
    | Some st' => scan_state st' b
    | None => None
    end.
Proof.
  revert st. induction a as [|x a IH]; intros st; [done|].
  change (String x a +:+ b) with (String x (a +:+ b)).
  rewrite !scan_state_cons. destruct (scan_next st x); [apply IH | done].
Qed.

Lemma scan_string_state (st : sstate) (lit rest : string) :
  scan_state st lit = Some InString ->
  scan_string st (lit +:+ String dquote rest) = Some (lit, rest).
Proof.
  revert st. induction lit as [|x lit IH]; intros st.
  - intros [= ->]. reflexivity.
  - change (String x lit +:+ String dquote rest)
      with (String x (lit +:+ String dquote rest)).
    rewrite scan_state_cons, scan_string_cons.
    destruct (scan_next st x); [|done].
    intros H. by rewrite (IH _ H).
Qed.

Lemma scan_string_valid (lit rest : string) :
  valid_literal lit = true ->
  scan_string InString (lit +:+ String dquote rest) = Some (lit, rest).
Proof.
  unfold valid_literal. intros H. apply scan_string_state.
  destruct (scan_state InString lit) as [[]|]; done.
Qed.

(** Bytes above the ASCII range are read as they are. *)
Lemma scan_state_high (s : string) :
  all (fun x => 128 <=? val x) s = true ->
  scan_state InString s = Some InString.
Proof.
  induction s as [|b r IH]; [done|].
  intros [Hb Hr]%andb_true_iff. apply Z.leb_le in Hb.
  rewrite scan_state_cons. unfold scan_next.
  assert (Ascii.eqb b dquote = false) as ->.
  { apply Ascii.eqb_neq. intros ->. vm_compute in Hb. done. }
  assert (Ascii.eqb b "\" = false) as ->.
  { apply Ascii.eqb_neq. intros ->. vm_compute in Hb. done. }
  assert ((val b <? 32) = false) as -> by (apply Z.ltb_ge; lia).
  by apply IH.
Qed.

(** What the encoder writes for an ASCII byte is read back as that byte. *)
Lemma scan_state_escape_ascii (b : ascii) :
  (val b <? 128) = true ->
  scan_state InString (escape_ascii b) = Some InString.
Proof.
  destruct b as [[] [] [] [] [] [] [] []]; vm_compute; try done.
Qed.

Lemma unquote_escape_ascii (b : ascii) (t : string) :
  (val b <? 128) = true ->
  unquote_from 0 (escape_ascii b +:+ t)
  = prepend (String b "") (unquote_from 0 t).
Proof.
  destruct b as [[] [] [] [] [] [] [] []]; intros H; try done;
    vm_compute; reflexivity.
Qed.

Lemma high_not_special (b : ascii) :
  (val b <? 128) = false ->
  Ascii.eqb b dquote = false /\ Ascii.eqb b "\" = false
  /\ (val b <? 32) = false.
Proof.
  intros H. apply Z.ltb_ge in H.
  split; [|split].
  - apply Ascii.eqb_neq. intros ->. vm_compute in H. by apply H.
  - apply Ascii.eqb_neq. intros ->. vm_compute in H. by apply H.
  - apply Z.ltb_ge. lia.
Qed.

Lemma appendString_cons (b : ascii) (r : string) :
  appendString (String b r)
  = if val b <? 128 then escape_ascii b +:+ appendString r
    else
      match utf8.size (String b r) with
      | O => "\ufffd" +:+ appendString r
      | S n =>
        match line_separator (String b r) with
        | Some d => "\u202" +:+ String d (appendString (drop n r))
        | None => take (S n) (String b r) +:+ appendString (drop n r)
        end
      end.
Proof.
  unfold appendString. cbn [appendString_from].
  destruct (val b <? 128); [done|].
  destruct (utf8.size (String b r)) as [|n]; [done|].
  rewrite (appendString_from_drop n r). done.
Qed.

Lemma unquote_high (b : ascii) (r : string) :
  (val b <? 128) = false ->
  unquote_from 0 (String b r)
  = match utf8.size (String b r) with
    | O => prepend utf8.replacement (unquote_from 0 r)
    | S n => prepend (take (S n) (String b r)) (unquote_from 0 (drop n r))
    end.
Proof.
  intros H. destruct (high_not_special b H) as (H1 & H2 & H3).
  cbn [unquote_from]. rewrite H1, H2, H3, H. simpl.
  destruct (utf8.size (String b r)) as [|n]; [done|].
  by rewrite (unquote_from_drop n r).
Qed.

(** The three bytes of U+2028 and U+2029. *)
Lemma line_separator_Some (s : string) (d : ascii) :
  line_separator s = Some d ->
  exists r,
    (d = "8"%char /\ s = String (of_val 226) (String (of_val 128) (String (of_val 168) r)))
    \/ (d = "9"%char /\ s = String (of_val 226) (String (of_val 128) (String (of_val 169) r))).
Proof.
  unfold line_separator.
  destruct s as [|b0 [|b1 [|b2 r]]]; try done.
  destruct ((val b0 =? 226) && (val b1 =? 128)) eqn:E; [|done].
  apply andb_true_iff in E as [E0%Z.eqb_eq E1%Z.eqb_eq].
  assert (b0 = of_val 226) as -> by (by rewrite <- (of_val_val b0), E0).
  assert (b1 = of_val 128) as -> by (by rewrite <- (of_val_val b1), E1).
  destruct (val b2 =? 168) eqn:E2.
  { apply Z.eqb_eq in E2. intros [= <-]. exists r. left. split; [done|].
    by rewrite <- (of_val_val b2), E2. }
  destruct (val b2 =? 169) eqn:E3; [|done].
  apply Z.eqb_eq in E3. intros [= <-]. exists r. right. split; [done|].
  by rewrite <- (of_val_val b2), E3.
Qed.

(** What the encoder writes is a literal the scanner accepts. *)
Lemma appendString_valid_literal (s : string) :
  valid_literal (appendString s) = true.
Proof.
  unfold valid_literal.
  enough (scan_state InString (appendString s) = Some InString) as -> by done.
  remember (String.length s) as n eqn:Hn.
  revert s Hn. induction n as [n IH] using lt_wf_ind. intros s Hn.
  destruct s as [|b r]; [done|].
  rewrite appendString_cons.
  destruct (val b <? 128) eqn:E0.
  { rewrite scan_state_app, (scan_state_escape_ascii b E0).
    apply (IH (String.length r)); [simpl in Hn; lia | done]. }
  destruct (utf8.size (String b r)) as [|k] eqn:Ek.
  { rewrite scan_state_app. simpl.
    apply (IH (String.length r)); [simpl in Hn; lia | done]. }
  assert (Hrec : scan_state InString (appendString (drop k r)) = Some InString).
  { apply (IH (String.length (drop k r))); [|done].
    rewrite length_drop. simpl in Hn. lia. }
  destruct (line_separator (String b r)) as [d|] eqn:Ed.
  - apply line_separator_Some in Ed as [r' [[-> _]|[-> _]]];
      simpl; exact Hrec.
  - rewrite scan_state_app, scan_state_high; [exact Hrec|].
    rewrite <- Ek. eapply size_high_bytes; [done | exact E0 | by rewrite Ek].
Qed.

(** Reading back what the encoder wrote for well-formed UTF-8 gives the
    string itself. *)
Lemma unquote_appendString (s : string) :
  utf8.ValidString s = true -> unquote (appendString s) = Some s.
Proof.
  unfold unquote, utf8.ValidString.
  remember (String.length s) as n eqn:Hn.
  revert s Hn. induction n as [n IH] using lt_wf_ind. intros s Hn Hv.
  destruct s as [|b r]; [done|].
  rewrite appendString_cons.
  cbn [utf8.valid_from] in Hv.
  destruct (val b <? 128) eqn:E0.
  { rewrite (size_ascii b r E0) in Hv.
    rewrite (unquote_escape_ascii b _ E0).
    rewrite (IH (String.length r)); [done | simpl in Hn; lia | done | done]. }
  destruct (utf8.size (String b r)) as [|k] eqn:Ek; [done|].
  rewrite valid_from_drop in Hv.
  assert (Hk : (S k <= String.length (String b r))%nat).
  { rewrite <- Ek. apply size_le_length. }
  assert (Hrec : unquote_from 0 (appendString (drop k r)) = Some (drop k r)).
  { apply (IH (String.length (drop k r))); [|done|done].
    rewrite length_drop. simpl in Hn. lia. }
  assert (Hlen : String.length (take k r) = k).
  { apply length_take. simpl in Hk. lia. }
  destruct (line_separator (String b r)) as [d|] eqn:Ed.
  - apply line_separator_Some in Ed as [r' [[-> Er]|[-> Er]]];
      injection Er as -> ->; vm_compute in Ek; injection Ek as <-;
      simpl in Hrec |- *; rewrite Hrec; reflexivity.
  - set (t := appendString (drop k r)) in *.
    change (take (S k) (String b r) +:+ t) with (String b (take k r +:+ t)).
    rewrite (unquote_high b _ E0).
    assert (Hsz : utf8.size (String b (take k r +:+ t)) = S k).
    { pose proof (size_take_app (String b r) t) as H. rewrite Ek in H.
      apply H. done. }
    rewrite Hsz.
    change (take (S k) (String b (take k r +:+ t)))
      with (String b (take k (take k r +:+ t))).
    rewrite <- Hlen at 1 3. rewrite stake_app, sdrop_app, Hrec. simpl.
    by rewrite take_drop.
Qed.

End jsonStrings2.

(** * JSON texts: writing and reading back *)

Module jsonTexts.
Import Bytes json jsonSpec BytesFacts jsonStrings jsonStrings2.

Lemma render_Object (m : list (string * value)) :
  render (Object m) = "{" +:+ render_members m.
Proof.
  reflexivity.
Qed.

Lemma height_nonneg (j : value) : 0 <= height j.
Proof.
  destruct j as [| | | |l|m]; simpl; try lia.
  - assert (0 <= fold_right (fun x h => Z.max (height x) h) 0 l); [|lia].
    induction l; simpl; lia.
  - assert (0 <= fold_right (fun kx h => Z.max (height kx.2) h) 0 m); [|lia].
    induction m; simpl; lia.
Qed.

(** A canonical tree starts with a byte that is no blank. *)
Lemma skip_ws_render (j : value) (rest : string) :
  canonical j = true -> skip_ws (render j +:+ rest) = render j +:+ rest.
Proof.
  destruct j as [|[]| | |l|m]; done.
Qed.

Lemma mheight_nonneg m : 0 <= mheight m.
Proof. induction m; simpl; lia. Qed.

Lemma render_members_cons k x r rest :
  render_members ((k, x) :: r) +:+ rest
  = String dquote
      (k +:+ String dquote
         (String ":"
            (render x +:+
               match r with
               | [] => String "}" rest
               | _ => String "," (render_members r +:+ rest)
               end))).
Proof.
  cbn [render_members]. unfold quoted.
  rewrite !sapp_assoc. simpl. rewrite ?sapp_assoc. simpl.
  do 4 f_equal. destruct r; simpl; [done|]. by rewrite ?sapp_assoc.
Qed.

Lemma parse_members_render (n : nat)
    (IHv : forall (j : value) (fuel : nat) (depth : Z) (rest : string),
        (weight j < n)%nat -> (weight j <= fuel)%nat ->
        canonical j = true ->
        depth + height j <= maxNestingDepth ->
        parse_value fuel depth (render j +:+ rest) = Some (j, rest)) :
  forall (m : list (string * value)) (fuel : nat) (depth : Z) (rest : string),
    m <> [] -> (mweight m < n)%nat -> (mweight m <= fuel)%nat ->
    mcanonical m = true ->
    depth + mheight m <= maxNestingDepth ->
    parse_members fuel depth (render_members m +:+ rest) = Some (m, rest).
Proof.
  induction m as [|[k x] r IHm]; [done|].
  intros fuel depth rest _ Hn Hfuel Hc Hd.
  simpl in Hn, Hfuel, Hc, Hd.
  apply andb_true_iff in Hc as [[Hk Hx]%andb_true_iff Hr].
  destruct fuel as [|f]; [lia|].
  rewrite render_members_cons. cbn [parse_members].
  change (skip_ws (String dquote ?t)) with (String dquote t).
  cbn iota beta.
  change (Ascii.eqb dquote dquote) with true. cbn iota.
  rewrite (scan_string_valid k _ Hk).
  change (skip_ws (String ":" ?t)) with (String ":" t).
  cbn iota beta.
  rewrite (IHv x f depth); [| |lia|done|fold (mheight r) in Hd; pose proof (mheight_nonneg r); lia].
  2:{ fold (mweight r) in Hn. lia. }
  destruct r as [|kx r'].
  - done.
  - change (skip_ws (String "," ?t)) with (String "," t).
    cbn iota beta.
    rewrite IHm; [done|done| | |done|].
    + fold (mweight (kx :: r')) in Hn. lia.
    + fold (mweight (kx :: r')) in Hfuel. lia.
    + fold (mheight (kx :: r')) in Hd. lia.
Qed.

Lemma parse_value_render (n : nat) :
  forall (j : value) (fuel : nat) (depth : Z) (rest : string),
    (weight j < n)%nat -> (weight j <= fuel)%nat ->
    canonical j = true ->
    depth + height j <= maxNestingDepth ->
    parse_value fuel depth (render j +:+ rest) = Some (j, rest).
Proof.
  induction n as [n IH] using lt_wf_ind.
  intros j fuel depth rest Hn Hfuel Hc Hd.
  destruct fuel as [|f]; [destruct j; simpl in Hfuel; lia|].
  destruct j as [|[]|lit|lit|l|m]; try done.
  - (* a string *)
    simpl in Hc. cbn [parse_value render]. unfold quoted.
    change (skip_ws ((String dquote lit +:+ String dquote "") +:+ rest))
      with (String dquote ((lit +:+ String dquote "") +:+ rest)).
    cbn iota beta. rewrite sapp_assoc. simpl.
    rewrite (scan_string_valid lit rest Hc). done.
  - (* an object *)
    rewrite render_Object. cbn [parse_value].
    change (skip_ws (("{" +:+ render_members m) +:+ rest))
      with (String "{" (render_members m +:+ rest)).
    cbn iota beta.
    assert (Hdepth : (maxNestingDepth <? depth + 1) = false).
    { apply Z.ltb_ge. simpl in Hd. fold (mheight m) in Hd.
      pose proof (mheight_nonneg m). lia. }
    simpl in Hn, Hfuel, Hd. fold (mweight m) in Hn, Hfuel.
    fold (mheight m) in Hd.
    simpl. rewrite Hdepth.
    destruct m as [|[k x] r]; [done|].
    rewrite render_members_cons.
    change (skip_ws (String dquote ?t)) with (String dquote t).
    cbn iota. rewrite <- render_members_cons.
    assert (IHv : forall (j : value) (fuel : nat) (depth : Z) (rest : string),
               (weight j < mweight ((k, x) :: r) + 1)%nat ->
               (weight j <= fuel)%nat -> canonical j = true ->
               depth + height j <= maxNestingDepth ->
               parse_value fuel depth (render j +:+ rest) = Some (j, rest)).
    { intros j' fuel' depth' rest' Hw. apply (IH (mweight ((k, x) :: r) + 1)%nat); lia. }
    rewrite (parse_members_render _ IHv ((k, x) :: r) f (depth + 1) rest);
      [done|done|lia|lia|exact Hc|lia].
Qed.

(** The text of a canonical tree, read by [checkValid], is that tree. *)
Lemma parse_render (j : value) :
  canonical j = true -> height j <= maxNestingDepth ->
  (weight j <= S (String.length (render j)))%nat ->
  parse (render j) = Some j.
Proof.
  intros Hc Hh Hw. unfold parse.
  rewrite <- (sapp_nil_r (render j)) at 2.
  rewrite (parse_value_render (S (weight j))); [done|lia|done|done|lia].
Qed.

Lemma fold_mweight (m : list (string * value)) :
  fold_right (fun kx n => S (weight (snd kx) + n)) O m = mweight m.
Proof. done. Qed.

Lemma length_render_members_pos (m : list (string * value)) :
  (1 <= String.length (render_members m))%nat.
Proof.
  destruct m as [|[k x] r]; simpl; [lia|]. unfold quoted. simpl. lia.
Qed.

Lemma length_render_members_cons k x (r : list (string * value)) :
  String.length (render_members ((k, x) :: r))
  = (String.length k + 3 + String.length (render x)
     + match r with
       | [] => 1
       | _ => 1 + String.length (render_members r)
       end)%nat.
Proof.
  pose proof (render_members_cons k x r "") as H.
  rewrite sapp_nil_r in H. rewrite H. clear H.
  simpl. rewrite slength_app. simpl. rewrite slength_app.
  destruct r; simpl; [lia|]. rewrite sapp_nil_r. lia.
Qed.

Lemma mweight_lt_length (n : nat)
    (IH : forall j : value,
        (weight j < n)%nat -> canonical j = true ->
        (weight j <= String.length (render j))%nat) :
  forall m : list (string * value),
    (mweight m < n)%nat -> mcanonical m = true -> m <> [] ->
    (mweight m < String.length (render_members m))%nat.
Proof.
  induction m as [|[k x] r IHr]; [done|].
  intros Hw Hc _. cbn [mweight fold_right snd] in Hw |- *.
  rewrite fold_mweight in *.
  cbn [mcanonical forallb fst snd] in Hc.
  apply andb_true_iff in Hc as [[_ Hx]%andb_true_iff Hr].
  pose proof (IH x ltac:(lia) Hx) as Hwx.
  rewrite length_render_members_cons.
  destruct r as [|kx r']; [simpl; lia|].
  assert (mweight (kx :: r') < String.length (render_members (kx :: r')))%nat
    by (apply IHr; [lia|done|done]).
  lia.
Qed.

Lemma weight_le_length (n : nat) :
  forall j : value,
    (weight j < n)%nat -> canonical j = true ->
    (weight j <= String.length (render j))%nat.
Proof.
  induction n as [n IH] using lt_wf_ind. intros j Hn Hc.
  destruct j as [|[]|lit|lit|l|m]; try done; try (simpl; lia).
  rewrite render_Object. simpl in Hn |- *. rewrite fold_mweight in *.
  apply le_n_S.
  destruct m as [|kx m']; [simpl; lia|].
  assert (mweight (kx :: m') < String.length (render_members (kx :: m')))%nat;
    [|lia].
  apply (mweight_lt_length (n - 1)); [|lia|exact Hc|done].
  intros j Hj. apply (IH (n - 1)%nat); lia.
Qed.

(** The text of a canonical tree, read by [checkValid], is that tree. *)
Lemma parse_render_canonical (j : value) :
  canonical j = true -> height j <= maxNestingDepth ->
  parse (render j) = Some j.
Proof.
  intros Hc Hh. apply parse_render; [done|done|].
  pose proof (weight_le_length (S (weight j)) j ltac:(lia) Hc). lia.
Qed.

End jsonTexts.
(** * Timestamps and their RFC 3339 text *)

Module timeFacts.
Import Bytes json time jsonSpec BytesFacts jsonStrings jsonStrings2.

Lemma val_of_val (z : Z) : 0 <= z < 256 -> val (of_val z) = z.
Proof.
  intros H. unfold val, of_val. rewrite N_ascii_embedding; lia.
Qed.

Lemma is_digit_digit (a : Z) : 0 <= a <= 9 -> is_digit (digit a) = true.
Proof.
  intros H. unfold is_digit, in_range, digit. rewrite val_of_val by lia.
  apply andb_true_iff. split; apply Z.leb_le; lia.
Qed.

Lemma digit_val_digit (a : Z) : 0 <= a <= 9 -> digit_val (digit a) = a.
Proof.
  intros H. unfold digit_val, digit. rewrite val_of_val by lia. lia.
Qed.

Lemma all_app (p : ascii -> bool) (s t : string) :
  all p (s +:+ t) = all p s && all p t.
Proof.
  induction s as [|b s IH]; simpl; [done|]. by rewrite IH, andb_assoc.
Qed.

Lemma digits_acc (f : nat) (u : Z) (acc : string) :
  digits f u acc = digits f u "" +:+ acc.
Proof.
  revert u acc. induction f as [|f IH]; intros u acc; simpl; [done|].
  destruct (u <? 10); [done|].
  rewrite (IH _ (String _ acc)), (IH _ (String _ "")).
  by rewrite sapp_assoc.
Qed.

Lemma digits_all (f : nat) (u : Z) :
  0 <= u -> all is_digit (digits f u "") = true.
Proof.
  revert u. induction f as [|f IH]; intros u Hu; simpl; [done|].
  destruct (Z.ltb_spec u 10) as [H|H]; simpl.
  - rewrite is_digit_digit by lia. done.
  - rewrite digits_acc, all_app, IH by (apply Z.div_pos; lia). simpl.
    rewrite is_digit_digit; [done|].
    pose proof (Z.mod_pos_bound u 10). lia.
Qed.

Lemma atoi_app (a : Z) (s r : string) :
  atoi a (s +:+ r)
  = match atoi a s with
    | Some x => atoi x r
    | None => None
    end.
Proof.
  revert a. induction s as [|b s IH]; intros a; simpl; [done|].
  destruct (is_digit b); [apply IH | done].
Qed.

Lemma atoi_digits (f : nat) (u a : Z) :
  0 <= u < 10 ^ Z.of_nat f ->
  atoi a (digits f u "")
  = Some (a * 10 ^ Z.of_nat (String.length (digits f u "")) + u).
Proof.
  revert u a. induction f as [|f IH]; intros u a Hu.
  - simpl in *. f_equal. lia.
  - cbn [digits]. destruct (Z.ltb_spec u 10) as [H|H].
    + simpl. rewrite is_digit_digit, digit_val_digit by lia. f_equal; lia.
    + assert (Hq : 0 <= u / 10 < 10 ^ Z.of_nat f).
      { split; [apply Z.div_pos; lia|].
        apply Z.div_lt_upper_bound; [lia|].
        rewrite Nat2Z.inj_succ, Z.pow_succ_r in Hu by lia. lia. }
      pose proof (Z.mod_pos_bound u 10 ltac:(lia)) as Hm.
      rewrite digits_acc, atoi_app, (IH _ a Hq). simpl.
      rewrite is_digit_digit, digit_val_digit by lia.
      rewrite slength_app. simpl String.length.
      rewrite Nat2Z.inj_add, Z.pow_add_r by lia. f_equal.
      change (Z.of_nat 1) with 1. rewrite Z.pow_1_r.
      pose proof (Z.div_mod u 10 ltac:(lia)). lia.
Qed.

Lemma digits_length (f : nat) (u : Z) (k : nat) :
  0 <= u < 10 ^ Z.of_nat k -> (1 <= k)%nat ->
  (String.length (digits f u "") <= k)%nat.
Proof.
  revert u k. induction f as [|f IH]; intros u k Hu Hk; simpl; [lia|].
  destruct (Z.ltb_spec u 10) as [H|H]; simpl; [lia|].
  destruct k as [|[|k]]; [lia| simpl in Hu; lia |].
  rewrite digits_acc, slength_app. simpl.
  assert (Hq : 0 <= u / 10 < 10 ^ Z.of_nat (S k)).
  { split; [apply Z.div_pos; lia|].
    apply Z.div_lt_upper_bound; [lia|].
    rewrite (Nat2Z.inj_succ (S k)), Z.pow_succ_r in Hu by lia. lia. }
  pose proof (IH _ (S k) Hq ltac:(lia)). lia.
Qed.

Lemma fuel_enough (u : Z) :
  0 <= u -> u < 10 ^ Z.of_nat (S (Z.to_nat (Z.log2 u))).
Proof.
  intros Hu. pose proof (Z.log2_nonneg u) as Hl.
  rewrite Nat2Z.inj_succ, Z2Nat.id by lia.
  destruct (Z.eq_dec u 0) as [->|Hz]; [simpl; lia|].
  pose proof (Z.log2_spec u ltac:(lia)) as [_ H2].
  eapply Z.lt_le_trans; [exact H2|].
  apply Z.pow_le_mono_l. lia.
Qed.

Lemma length_zeros (n : nat) : String.length (time.zeros n) = n.
Proof. induction n as [|n IH]; simpl; [done | by rewrite IH]. Qed.

Lemma all_zeros (n : nat) : all is_digit (time.zeros n) = true.
Proof. induction n as [|n IH]; simpl; done. Qed.

Lemma atoi_zeros (n : nat) (s : string) :
  atoi 0 (time.zeros n +:+ s) = atoi 0 s.
Proof. induction n as [|n IH]; simpl; done. Qed.

(** [appendInt] of a number that fits the width: as many digits as the
    width, which read as the number. *)
Lemma appendInt_fits (x : Z) (w : nat) :
  0 <= x < 10 ^ Z.of_nat w -> (1 <= w)%nat ->
  String.length (appendInt x w) = w
  /\ all is_digit (appendInt x w) = true
  /\ atoi 0 (appendInt x w) = Some x.
Proof.
  intros Hx Hw. unfold appendInt. cbv zeta.
  destruct (Z.ltb_spec x 0) as [?|_]; [lia|].
  rewrite Z.abs_eq by lia.
  set (ds := digits (S (Z.to_nat (Z.log2 x))) x "").
  change ("" +:+ ?s) with s.
  assert (Hlen : (String.length ds <= w)%nat) by (by apply digits_length).
  split; [|split].
  - rewrite slength_app, length_zeros. lia.
  - rewrite all_app, all_zeros. apply digits_all. lia.
  - rewrite atoi_zeros. unfold ds. rewrite atoi_digits.
    + f_equal; lia.
    + split; [lia|]. apply fuel_enough. lia.
Qed.

Lemma atoi_shift (m : nat) (x : Z) :
  atoi x (time.zeros m) = Some (x * 10 ^ Z.of_nat m).
Proof.
  revert x. induction m as [|m IH]; intros x.
  - simpl. f_equal. lia.
  - cbn [time.zeros atoi]. change (is_digit "0") with true. cbv iota.
    rewrite IH. change (digit_val "0") with 0.
    rewrite Nat2Z.inj_succ, Z.pow_succ_r by lia. f_equal. lia.
Qed.

Lemma trim_zeros_rev_split (r : list ascii) :
  exists m, r = (repeat "0"%char m ++ trim_zeros_rev r)%list.
Proof.
  induction r as [|c r [m IH]]; [by exists 0%nat|].
  destruct (Ascii.eqb_spec c "0") as [->|Hc].
  - exists (S m). simpl. by rewrite <- IH.
  - exists 0%nat.
    destruct c as [[] [] [] [] [] [] [] []]; try reflexivity; done.
Qed.

Lemma string_of_repeat (m : nat) :
  string_of_list_ascii (repeat "0"%char m) = time.zeros m.
Proof. induction m as [|m IH]; simpl; [done | by rewrite IH]. Qed.

Lemma string_of_app (a b : list ascii) :
  string_of_list_ascii (a ++ b)%list
  = string_of_list_ascii a +:+ string_of_list_ascii b.
Proof. induction a as [|x a IH]; simpl; [done | by rewrite IH]. Qed.

Lemma rev_repeat (m : nat) : rev (repeat "0"%char m) = repeat "0"%char m.
Proof.
  induction m as [|m IH]; [done|]. simpl. rewrite IH.
  clear IH. induction m as [|m IH]; [done|]. simpl. by rewrite IH.
Qed.

(** The text is what is kept of it, then zeros. *)
Lemma trim_zeros_split (s : string) :
  exists m, s = trim_zeros s +:+ time.zeros m.
Proof.
  unfold trim_zeros.
  destruct (trim_zeros_rev_split (rev (list_ascii_of_string s))) as [m Hm].
  exists m. rewrite <- string_of_repeat, <- string_of_app.
  rewrite <- (rev_repeat m), <- rev_app_distr, <- Hm, rev_involutive.
  by rewrite string_of_list_ascii_of_string.
Qed.

Lemma take_all (n : nat) (s : string) :
  (String.length s <= n)%nat -> take n s = s.
Proof.
  revert s. induction n as [|n IH]; intros [|b r]; simpl; try done; try lia.
  intros H. rewrite IH; [done | lia].
Qed.

(** The fraction written for the nanoseconds reads as them. *)
Lemma appendNano_reads (ns : Z) :
  0 < ns <= 999999999 ->
  exists c t,
    appendNano ns = String "." (String c t)
    /\ all is_digit (String c t) = true
    /\ parseNanoseconds (String c t) = ns.
Proof.
  intros Hns. unfold appendNano.
  destruct (Z.eqb_spec ns 0) as [?|_]; [lia|].
  destruct (appendInt_fits ns 9) as (Hlen & Hall & Hval); [simpl; lia|lia|].
  destruct (trim_zeros_split (appendInt ns 9)) as [m Hm].
  set (t := trim_zeros (appendInt ns 9)) in *.
  rewrite Hm in Hlen, Hall, Hval.
  rewrite slength_app, length_zeros in Hlen.
  rewrite all_app in Hall. apply andb_true_iff in Hall as [Hall _].
  rewrite atoi_app in Hval.
  destruct (atoi 0 t) as [x|] eqn:Ex; [|done].
  rewrite atoi_shift in Hval. injection Hval as Hx.
  destruct t as [|c t'].
  { simpl in Ex. injection Ex as <-. lia. }
  exists c, t'. split; [done|]. split; [done|].
  unfold parseNanoseconds. rewrite take_all by lia. rewrite Ex.
  replace (9 - String.length (String c t'))%nat with m by lia. done.
Qed.

Lemma span_digits_app (t z : string) :
  all is_digit t = true ->
  match z with
  | String c _ => is_digit c = false
  | "" => True
  end ->
  span_digits (t +:+ z) = (t, z).
Proof.
  intros Ht Hz. induction t as [|b t IH].
  - destruct z as [|c z]; simpl; [done | by rewrite Hz].
  - simpl in Ht. apply andb_true_iff in Ht as [Hb Ht]. simpl.
    rewrite Hb, IH; done.
Qed.

Lemma daysIn_le (m y : Z) : daysIn m y <= 31.
Proof. unfold daysIn. repeat case_match; lia. Qed.

(** Two digits that read as a number. *)
Lemma appendInt_two (x : Z) :
  0 <= x <= 99 ->
  exists a b,
    appendInt x 2 = String a (String b "")
    /\ is_digit a = true /\ is_digit b = true
    /\ atoi 0 (String a (String b "")) = Some x.
Proof.
  intros Hx.
  destruct (appendInt_fits x 2) as (Hlen & Hall & Hval); [simpl; lia|lia|].
  destruct (appendInt x 2) as [|a [|b [|]]]; try done.
  exists a, b. simpl in Hall.
  apply andb_true_iff in Hall as [Ha [Hb _]%andb_true_iff]. done.
Qed.

Lemma appendInt_four (x : Z) :
  0 <= x <= 9999 ->
  exists a b c d,
    appendInt x 4 = String a (String b (String c (String d "")))
    /\ all is_digit (String a (String b (String c (String d "")))) = true
    /\ atoi 0 (String a (String b (String c (String d "")))) = Some x.
Proof.
  intros Hx.
  destruct (appendInt_fits x 4) as (Hlen & Hall & Hval); [simpl; lia|lia|].
  destruct (appendInt x 4) as [|a [|b [|c [|d [|]]]]]; try done.
  by exists a, b, c, d.
Qed.

Lemma parseUint_in (s : string) (x lo hi : Z) :
  atoi 0 s = Some x -> lo <= x <= hi -> parseUint s lo hi = Some x.
Proof.
  intros Hs Hx. unfold parseUint. rewrite Hs.
  destruct (Z.ltb_spec x lo); [lia|]. destruct (Z.ltb_spec hi x); [lia|]. done.
Qed.

Lemma byte_at_app (s t : string) (k : nat) :
  byte_at (String.length s + k) (s +:+ t) = byte_at k t.
Proof. unfold byte_at. induction s as [|b s IH]; simpl; done. Qed.

Lemma drop_app_plus (s t : string) (k : nat) :
  drop (String.length s + k) (s +:+ t) = drop k t.
Proof. induction s as [|b s IH]; simpl; done. Qed.

Lemma two_digits (a b : ascii) (x : Z) :
  is_digit a = true -> is_digit b = true ->
  atoi 0 (String a (String b "")) = Some x ->
  x = 10 * (val a - 48) + (val b - 48).
Proof.
  intros Ha Hb. simpl. rewrite Ha, Hb. unfold digit_val. intros [= <-]. lia.
Qed.

(** The zone written for an offset of whole minutes within a day reads as
    the offset. *)
Lemma zone_reads (off : Z) :
  off mod 60 = 0 -> -86400 < off < 86400 -> off <> 0 ->
  exists sg a1 a2 b1 b2,
    (if Z.quot off 60 <? 0 then "-" else "+")
      +:+ appendInt (Z.abs (Z.quot off 60) / 60) 2 +:+ ":"
      +:+ appendInt (Z.abs (Z.quot off 60) mod 60) 2
    = String sg (String a1 (String a2 (String ":" (String b1 (String b2 "")))))
    /\ (sg = "+"%char \/ sg = "-"%char)
    /\ all is_digit (String a1 (String a2 (String b1 (String b2 "")))) = true
    /\ num2 (String a1 (String a2 (String ":" (String b1 (String b2 ""))))) < 24
    /\ parseZone
         (String sg (String a1 (String a2 (String ":" (String b1 (String b2 ""))))))
       = Some off.
Proof.
  intros Hmod Hr Hnz.
  assert (Hq : off = 60 * Z.quot off 60).
  { pose proof (Z.quot_rem' off 60) as H.
    assert (Z.rem off 60 = 0) by (apply Z.rem_mod_eq_0; lia). lia. }
  set (zone := Z.quot off 60) in *.
  assert (Hz : 0 <= Z.abs zone < 1440) by lia.
  pose proof (Z.div_mod (Z.abs zone) 60 ltac:(lia)) as Hdm.
  pose proof (Z.mod_pos_bound (Z.abs zone) 60 ltac:(lia)) as Hm.
  assert (Hh : 0 <= Z.abs zone / 60 <= 23).
  { split; [apply Z.div_pos; lia|].
    assert (Z.abs zone / 60 < 24); [|lia].
    apply Z.div_lt_upper_bound; lia. }
  destruct (appendInt_two (Z.abs zone / 60)) as (a1 & a2 & Ea & Ha1 & Ha2 & Va);
    [lia|].
  destruct (appendInt_two (Z.abs zone mod 60)) as (b1 & b2 & Eb & Hb1 & Hb2 & Vb);
    [lia|].
  rewrite Ea, Eb.
  pose proof (two_digits a1 a2 _ Ha1 Ha2 Va) as Hn.
  exists (if zone <? 0 then "-"%char else "+"%char), a1, a2, b1, b2.
  split; [by destruct (zone <? 0)|].
  split; [destruct (zone <? 0); auto|].
  split; [simpl; by rewrite Ha1, Ha2, Hb1, Hb2|].
  split; [unfold num2, byte_at; simpl; lia|].
  unfold parseZone.
  assert (String.eqb
            (String (if zone <? 0 then "-"%char else "+"%char)
               (String a1 (String a2 (String ":" (String b1 (String b2 ""))))))
            "Z" = false) as -> by (by destruct (zone <? 0)).
  cbn [String.length Nat.eqb negb slice take drop Nat.sub].
  rewrite (parseUint_in _ _ 0 23 Va) by lia.
  rewrite (parseUint_in _ _ 0 59 Vb) by lia.
  unfold byte_at. cbn [String.get].
  destruct (Z.ltb_spec zone 0); simpl; f_equal; lia.
Qed.

Lemma appendStrictRFC3339_text (tm : Time) (P Zt : string) :
  appendFormatRFC3339 tm = P +:+ Zt ->
  byte_at 4 (P +:+ Zt) = "-"%char ->
  (Zt = "Z"
   \/ exists sg a1 a2 b1 b2,
       Zt = String sg (String a1 (String a2 (String ":" (String b1 (String b2 "")))))
       /\ is_digit sg = false
       /\ num2 (String a1 (String a2 (String ":" (String b1 (String b2 ""))))) < 24) ->
  appendStrictRFC3339 tm = inl (P +:+ Zt).
Proof.
  intros E H4 HZ. unfold appendStrictRFC3339. rewrite E. cbv zeta.
  rewrite H4. change (negb (Ascii.eqb "-" "-")) with false. cbv iota.
  rewrite slength_app.
  destruct HZ as [->|(sg & a1 & a2 & b1 & b2 & -> & Hsg & Hn)].
  - replace (String.length P + String.length "Z" - 1)%nat
      with (String.length P + 0)%nat by (simpl; lia).
    by rewrite byte_at_app.
  - cbn [String.length].
    replace (String.length P + 6 - 1)%nat with (String.length P + 5)%nat by lia.
    replace (String.length P + 6 - 6)%nat with (String.length P + 0)%nat by lia.
    replace (String.length P + 6 - 5)%nat with (String.length P + 1)%nat by lia.
    rewrite !byte_at_app, drop_app_plus. cbn [drop].
    change (byte_at 0 (String sg ?r)) with sg. rewrite Hsg.
    destruct (Z.leb_spec 24
                (num2 (String a1 (String a2 (String ":" (String b1 (String b2 "")))))));
      [lia|].
    by rewrite andb_false_r.
Qed.

Lemma dquote_bits :
  dquote = Ascii false true false false false true false false.
Proof. reflexivity. Qed.

(** [UnmarshalJSON] of a text between quotes reads the text. *)
Lemma UnmarshalJSON_quoted (b : string) (t : Time) :
  UnmarshalJSON (quoted b) t
  = match parseRFC3339 b with
    | Some t' => inl t'
    | None => inr (TimeParseError "parsing time: cannot parse")
    end.
Proof.
  unfold UnmarshalJSON, quoted.
  change (String dquote b +:+ String dquote "")
    with (String dquote (b +:+ String dquote "")).
  assert (String.eqb (String dquote (b +:+ String dquote "")) "null" = false)
    as -> by (rewrite dquote_bits; reflexivity).
  cbn [String.length]. rewrite slength_app. cbn [String.length].
  replace (S (String.length b + 1) <? 2)%nat with false
    by (symmetry; apply Nat.ltb_ge; lia).
  change (byte_at 0 (String dquote ?r)) with dquote.
  rewrite Ascii.eqb_refl.
  replace (S (String.length b + 1) - 1)%nat with (S (String.length b + 0))
    by lia.
  change (byte_at (S (String.length b + 0)) (String dquote ?r))
    with (byte_at (String.length b + 0) r).
  rewrite byte_at_app. change (byte_at 0 (String dquote "")) with dquote.
  rewrite Ascii.eqb_refl. cbn [negb orb].
  unfold slice. cbn [drop].
  replace (S (String.length b + 0) - 1)%nat with (String.length b) by lia.
  by rewrite stake_app.
Qed.

Lemma plain_literal (s : string) :
  all plain s = true -> scan_state InString s = Some InString.
Proof.
  induction s as [|b r IH]; [done|].
  intros [Hb Hr]%andb_true_iff. unfold plain in Hb.
  apply andb_true_iff in Hb as [[H1 H2]%andb_true_iff H3].
  rewrite scan_state_cons. unfold scan_next.
  apply negb_true_iff in H1, H2. rewrite H1, H2.
  apply Z.leb_le in H3.
  assert ((val b <? 32) = false) as -> by (apply Z.ltb_ge; lia).
  by apply IH.
Qed.

Lemma digit_plain (b : ascii) : is_digit b = true -> plain b = true.
Proof.
  unfold is_digit, in_range, plain. intros [H1 H2]%andb_true_iff.
  apply Z.leb_le in H1, H2.
  assert (Ascii.eqb b dquote = false) as ->.
  { apply Ascii.eqb_neq. intros ->. vm_compute in H1. done. }
  assert (Ascii.eqb b "\" = false) as ->.
  { apply Ascii.eqb_neq. intros ->. vm_compute in H2. done. }
  simpl. apply Z.leb_le. lia.
Qed.

Lemma digits_plain (s : string) : all is_digit s = true -> all plain s = true.
Proof.
  induction s as [|b r IH]; [done|]. simpl.
  intros [Hb Hr]%andb_true_iff. by rewrite (digit_plain b Hb), IH.
Qed.

#[local] Arguments parseUint : simpl never.
#[local] Arguments parseZone : simpl never.
#[local] Arguments span_digits : simpl never.
#[local] Arguments parseNanoseconds : simpl never.
#[local] Arguments is_digit : simpl never.

(** Reading a text whose date and clock fields are in range comes down to
    reading its fraction and zone. *)
Lemma parseRFC3339_fields
    (y1 y2 y3 y4 m1 m2 d1 d2 h1 h2 i1 i2 s1 s2 : ascii) (rest : string)
    (Y M D h mi s : Z) :
  atoi 0 (String y1 (String y2 (String y3 (String y4 "")))) = Some Y ->
  atoi 0 (String m1 (String m2 "")) = Some M ->
  atoi 0 (String d1 (String d2 "")) = Some D ->
  atoi 0 (String h1 (String h2 "")) = Some h ->
  atoi 0 (String i1 (String i2 "")) = Some mi ->
  atoi 0 (String s1 (String s2 "")) = Some s ->
  0 <= Y <= 9999 -> 1 <= M <= 12 -> 1 <= D <= daysIn M Y ->
  0 <= h <= 23 -> 0 <= mi <= 59 -> 0 <= s <= 59 ->
  parseRFC3339
    (String y1 (String y2 (String y3 (String y4 (String "-"
      (String m1 (String m2 (String "-"
        (String d1 (String d2 (String "T"
          (String h1 (String h2 (String ":"
            (String i1 (String i2 (String ":"
              (String s1 (String s2 rest)))))))))))))))))))
  = let '(ns, s2) :=
      match rest with
      | String "." (String b r) =>
        if is_digit b then
          let '(ds, rest') := span_digits (String b r) in
          (parseNanoseconds ds, rest')
        else (0, rest)
      | _ => (0, rest)
      end in
    match parseZone s2 with
    | Some off => Some (mkTime Y M D h mi s ns off)
    | None => None
    end.
Proof.
  intros VY VM VD Vh Vi Vs HY HM HD Hh Hi Hs.
  unfold parseRFC3339. cbn [String.length Nat.ltb Nat.leb].
  cbn [slice take drop Nat.sub].
  rewrite (parseUint_in _ _ 0 9999 VY HY), (parseUint_in _ _ 1 12 VM HM),
    (parseUint_in _ _ 1 _ VD HD), (parseUint_in _ _ 0 23 Vh Hh),
    (parseUint_in _ _ 0 59 Vi Hi), (parseUint_in _ _ 0 59 Vs Hs).
  unfold byte_at. cbn [String.get]. simpl Ascii.eqb. cbn [andb].
  reflexivity.
Qed.

Lemma time_eqb_refl (tm : Time) : time_eqb tm tm = true.
Proof. unfold time_eqb. by rewrite !Z.eqb_refl. Qed.

(** What follows the seconds, fraction then zone, reads as the nanoseconds
    and leaves the zone. *)
Lemma fraction_reads (ns : Z) (c : ascii) (z : string) :
  0 <= ns <= 999999999 -> is_digit c = false -> c <> "."%char ->
  all plain (appendNano ns) = true
  /\ match appendNano ns +:+ String c z with
     | String "." (String b r) =>
       if is_digit b then
         let '(ds, rest') := span_digits (String b r) in
         (parseNanoseconds ds, rest')
       else (0, appendNano ns +:+ String c z)
     | _ => (0, appendNano ns +:+ String c z)
     end = (ns, String c z).
Proof.
  intros Hns Hc Hdot. destruct (Z.eq_dec ns 0) as [->|Hnz].
  - split; [done|]. change (appendNano 0) with "".
    change ("" +:+ String c z) with (String c z).
    destruct c as [[] [] [] [] [] [] [] []]; try reflexivity; done.
  - destruct (appendNano_reads ns) as (c0 & t & -> & Hall & Hval); [lia|].
    split.
    + change (all plain (String "." (String c0 t)))
        with (plain "." && all plain (String c0 t)).
      by rewrite (digits_plain _ Hall).
    + change (String "." (String c0 t) +:+ String c z)
        with (String "." (String c0 (t +:+ String c z))).
      cbv iota beta.
      assert (Hc0 : is_digit c0 = true).
      { simpl in Hall. by apply andb_true_iff in Hall as [? _]. }
      rewrite Hc0.
      change (String c0 (t +:+ String c z))
        with (String c0 t +:+ String c z).
      rewrite (span_digits_app (String c0 t) (String c z) Hall Hc).
      by rewrite Hval.
Qed.

(** A timestamp of the calendar, in a year of at most four digits and a
    zone of whole minutes within a day, has an RFC 3339 text and is what
    the text reads as. *)
Theorem time_ok_reads_back (tm : Time) :
  time_ok tm = true -> time_reads_back tm = true.
Proof.
  destruct tm as [Y M D h mi s ns off]. unfold time_ok.
  cbn [year month day hour minute second nsec offset].
  rewrite !andb_true_iff, !Z.leb_le, !Z.ltb_lt, Z.eqb_eq. intros H.
  repeat match goal with H : _ /\ _ |- _ => destruct H end.
  pose proof (daysIn_le M Y) as HdI.
  destruct (appendInt_four Y) as (y1 & y2 & y3 & y4 & EY & AY & VY); [lia|].
  destruct (appendInt_two M) as (m1 & m2 & EM & Am1 & Am2 & VM); [lia|].
  destruct (appendInt_two D) as (d1 & d2 & ED & Ad1 & Ad2 & VD); [lia|].
  destruct (appendInt_two h) as (h1 & h2 & Eh & Ah1 & Ah2 & Vh); [lia|].
  destruct (appendInt_two mi) as (i1 & i2 & Ei & Ai1 & Ai2 & Vi); [lia|].
  destruct (appendInt_two s) as (s1 & s2 & Es & As1 & As2 & Vs); [lia|].
  set (Zt := if off =? 0 then "Z"
             else
               (if Z.quot off 60 <? 0 then "-" else "+")
                 +:+ appendInt (Z.abs (Z.quot off 60) / 60) 2 +:+ ":"
                 +:+ appendInt (Z.abs (Z.quot off 60) mod 60) 2).
  assert (HZ : exists c z,
             Zt = String c z /\ is_digit c = false /\ c <> "."%char
             /\ all plain Zt = true
             /\ parseZone Zt = Some off
             /\ (Zt = "Z"
                 \/ exists sg a1 a2 b1 b2,
                     Zt = String sg (String a1 (String a2 (String ":"
                            (String b1 (String b2 "")))))
                     /\ is_digit sg = false
                     /\ num2 (String a1 (String a2 (String ":"
                            (String b1 (String b2 ""))))) < 24)).
  { unfold Zt. destruct (Z.eqb_spec off 0) as [->|Hnz].
    - exists "Z"%char, "". repeat split; auto; done.
    - destruct (zone_reads off) as (sg & a1 & a2 & b1 & b2 & -> & Hsg & Hall & Hn & Hp);
        [done|lia|done|].
      exists sg, (String a1 (String a2 (String ":" (String b1 (String b2 ""))))).
      simpl in Hall.
      apply andb_true_iff in Hall as [Ha1 Hall].
      apply andb_true_iff in Hall as [Ha2 Hall].
      apply andb_true_iff in Hall as [Hb1 Hall].
      apply andb_true_iff in Hall as [Hb2 _].
      split; [done|]. split; [by destruct Hsg as [->| ->]|].
      split; [by destruct Hsg as [->| ->]|]. split.
      { cbn [all]. rewrite (digit_plain _ Ha1), (digit_plain _ Ha2),
          (digit_plain _ Hb1), (digit_plain _ Hb2).
        by destruct Hsg as [->| ->]. }
      split; [done|]. right. exists sg, a1, a2, b1, b2.
      split; [done|]. split; [by destruct Hsg as [->| ->] | done]. }
  destruct HZ as (c & z & EZ & Hc & Hdot & HpZ & HparseZ & Hshape).
  destruct (fraction_reads ns c z) as [HpN HN]; [lia|done|done|].
  set (F := String y1 (String y2 (String y3 (String y4 (String "-"
              (String m1 (String m2 (String "-"
                (String d1 (String d2 (String "T"
                  (String h1 (String h2 (String ":"
                    (String i1 (String i2 (String ":"
                      (String s1 (String s2 ""))))))))))))))))))).
  assert (Eb : appendFormatRFC3339 (mkTime Y M D h mi s ns off)
               = (F +:+ appendNano ns) +:+ Zt).
  { unfold appendFormatRFC3339.
    cbn [year month day hour minute second nsec offset].
    fold Zt. rewrite EY, EM, ED, Eh, Ei, Es. rewrite sapp_assoc. reflexivity. }
  unfold time_reads_back.
  rewrite (appendStrictRFC3339_text _ _ _ Eb); [|reflexivity|exact Hshape].
  assert (Hplain : all plain ((F +:+ appendNano ns) +:+ Zt) = true).
  { rewrite !all_app, HpN, HpZ. unfold F. cbn [all].
    simpl in AY.
    apply andb_true_iff in AY as [Ay1 AY].
    apply andb_true_iff in AY as [Ay2 AY].
    apply andb_true_iff in AY as [Ay3 AY].
    apply andb_true_iff in AY as [Ay4 _].
    rewrite (digit_plain _ Ay1), (digit_plain _ Ay2), (digit_plain _ Ay3),
      (digit_plain _ Ay4), (digit_plain _ Am1), (digit_plain _ Am2),
      (digit_plain _ Ad1), (digit_plain _ Ad2), (digit_plain _ Ah1),
      (digit_plain _ Ah2), (digit_plain _ Ai1), (digit_plain _ Ai2),
      (digit_plain _ As1), (digit_plain _ As2).
    reflexivity. }
  unfold valid_literal. rewrite (plain_literal _ Hplain).
  rewrite UnmarshalJSON_quoted. rewrite sapp_assoc. unfold F.
  change (String y1 ?r +:+ ?t) with (String y1 (r +:+ t)).
  cbn [String.append].
  rewrite (parseRFC3339_fields y1 y2 y3 y4 m1 m2 d1 d2 h1 h2 i1 i2 s1 s2
             (appendNano ns +:+ Zt) Y M D h mi s); try done; try lia.
  rewrite EZ, HN, <- EZ, HparseZ. cbn [andb]. apply time_eqb_refl.
Qed.

Lemma parseUint_range (s : string) (lo hi x : Z) :
  parseUint s lo hi = Some x -> lo <= x <= hi.
Proof.
  unfold parseUint. destruct (atoi 0 s) as [y|]; [|done].
  destruct (Z.ltb_spec y lo); [done|]. destruct (Z.ltb_spec hi y); [done|].
  intros [= <-]. lia.
Qed.

Lemma atoi_bound (s : string) (a x : Z) :
  0 <= a -> atoi a s = Some x ->
  a * 10 ^ Z.of_nat (String.length s) <= x
  < (a + 1) * 10 ^ Z.of_nat (String.length s).
Proof.
  revert a. induction s as [|b r IH]; intros a Ha.
  - simpl. intros [= <-]. lia.
  - cbn [atoi]. destruct (is_digit b) eqn:Hb; [|done]. intros Hx.
    assert (Hd : 0 <= digit_val b <= 9).
    { unfold is_digit, in_range in Hb. unfold digit_val.
      apply andb_true_iff in Hb as [H1 H2]. apply Z.leb_le in H1, H2. lia. }
    apply IH in Hx; [|lia].
    cbn [String.length]. rewrite Nat2Z.inj_succ, Z.pow_succ_r by lia.
    assert (0 < 10 ^ Z.of_nat (String.length r)) by (apply Z.pow_pos_nonneg; lia).
    nia.
Qed.

Lemma length_take_le (n : nat) (s : string) :
  (String.length (take n s) <= n)%nat.
Proof.
  revert s. induction n as [|n IH]; intros [|b r]; simpl; try lia.
  specialize (IH r). lia.
Qed.

Lemma parseNanoseconds_range (ds : string) :
  0 <= parseNanoseconds ds <= 999999999.
Proof.
  unfold parseNanoseconds.
  pose proof (length_take_le 9 ds) as Hl.
  destruct (atoi 0 (take 9 ds)) as [x|] eqn:Ex; [|lia].
  apply atoi_bound in Ex; [|lia].
  set (k := String.length (take 9 ds)) in *.
  assert (Hp : 10 ^ Z.of_nat k * 10 ^ Z.of_nat (9 - k) = 1000000000).
  { rewrite <- Z.pow_add_r by lia.
    replace (Z.of_nat k + Z.of_nat (9 - k)) with 9 by lia. reflexivity. }
  assert (0 < 10 ^ Z.of_nat (9 - k)) by (apply Z.pow_pos_nonneg; lia).
  nia.
Qed.

Lemma parseZone_range (s : string) (off : Z) :
  parseZone s = Some off -> off mod 60 = 0 /\ -86400 < off < 86400.
Proof.
  unfold parseZone. destruct (String.eqb s "Z"); [by intros [= <-]|].
  destruct (negb _); [done|].
  destruct (parseUint (slice 1 3 s) 0 23) as [hr|] eqn:Eh; [|done].
  destruct (parseUint (slice 4 6 s) 0 59) as [mm|] eqn:Em; [|done].
  apply parseUint_range in Eh, Em.
  destruct (_ && _); [|done].
  destruct (Ascii.eqb (byte_at 0 s) "-"); intros [= <-].
  - split; [|lia].
    replace (- ((hr * 60 + mm) * 60)) with ((- (hr * 60 + mm)) * 60) by lia.
    apply Z.mod_mul. lia.
  - split; [apply Z.mod_mul|]; lia.
Qed.

(** Whatever the fast path reads is a timestamp of the calendar. *)
Lemma parseRFC3339_ok (s : string) (tm : Time) :
  parseRFC3339 s = Some tm -> time_ok tm = true.
Proof.
  unfold parseRFC3339. destruct (_ <? _)%nat; [done|].
  destruct (parseUint (slice 0 4 s) 0 9999) as [Y|] eqn:EY; [|done].
  destruct (parseUint (slice 5 7 s) 1 12) as [M|] eqn:EM; [|done].
  destruct (parseUint (slice 8 10 s) 1 (daysIn M Y)) as [D|] eqn:ED; [|done].
  destruct (parseUint (slice 11 13 s) 0 23) as [h|] eqn:Eh; [|done].
  destruct (parseUint (slice 14 16 s) 0 59) as [mi|] eqn:Ei; [|done].
  destruct (parseUint (slice 17 19 s) 0 59) as [sec|] eqn:Es; [|done].
  apply parseUint_range in EY, EM, ED, Eh, Ei, Es.
  destruct (_ && _); [|done].
  set (frac := match drop 19 s with String _ _ => _ | _ => _ end).
  assert (Hns : 0 <= fst frac <= 999999999).
  { unfold frac. repeat case_match; simpl; try lia;
      apply parseNanoseconds_range. }
  destruct frac as [ns s2]. simpl in Hns.
  destruct (parseZone s2) as [off|] eqn:Ez; [|done].
  apply parseZone_range in Ez as [Hm Ho]. intros [= <-].
  unfold time_ok. cbn [year month day hour minute second nsec offset].
  rewrite !andb_true_iff, !Z.leb_le, !Z.ltb_lt, Z.eqb_eq. lia.
Qed.

Lemma time_eqb_true (a b : Time) : time_eqb a b = true -> a = b.
Proof.
  unfold time_eqb. rewrite !andb_true_iff, !Z.eqb_eq.
  destruct a, b; simpl. intros H.
  repeat match goal with H : _ /\ _ |- _ => destruct H end. by subst.
Qed.

(** X23: the timestamps that come back from their JSON text are those of
    the calendar, in a year of at most four digits, with a zone of whole
    minutes within a day. *)
Theorem time_reads_back_iff (tm : Time) :
  time_reads_back tm = true <-> time_ok tm = true.
Proof.
  split; [|apply time_ok_reads_back].
  unfold time_reads_back.
  destruct (appendStrictRFC3339 tm) as [b|]; [|done].
  intros [_ H]%andb_true_iff. rewrite UnmarshalJSON_quoted in H.
  destruct (parseRFC3339 b) as [tm'|] eqn:Ep; [|done].
  apply time_eqb_true in H as ->. by apply parseRFC3339_ok in Ep.
Qed.

End timeFacts.

(** * The encoder and the decoder on the types described *)

Module jsonTyped.
Import Bytes json jsonSpec BytesFacts jsonStrings jsonStrings2 jsonTexts.

#[local] Arguments utf8.size : simpl never.
#[local] Open Scope list_scope.

Lemma encode_struct (name : string) (fs : list field) (vs : list goval) :
  encode (TStruct name fs) (VStruct vs)
  = match encode_members fs vs with
    | inl m => inl (Object m)
    | inr e => inr e
    end.
Proof. reflexivity. Qed.

Lemma decode_struct (m : list (string * value)) (name : string)
    (fs : list field) (vs : list goval) :
  decode (Object m) (TStruct name fs) (VStruct vs)
  = let '(vs', st) := decode_members fs m vs DGood in (VStruct vs', st).
Proof.
  transitivity
    (let '(x, st) :=
       (let '(vs', st) := decode_members fs m vs DGood in (VStruct vs', st)) in
     (x, st)); [reflexivity|].
  by destruct (decode_members fs m vs DGood).
Qed.

(** Decoding through a pointer: the pointer is allocated if need be, and
    the value it points to is decoded. *)
Lemma decode_pointer (j : value) (t : gotype) (v : goval) :
  j <> Null ->
  decode j (TPtr t) v
  = let '(x, st) :=
      decode j t (match v with VPtr cur => cur | _ => zero t end) in
    (VPtr x, st).
Proof.
  intros Hj.
  destruct j as [|b|lit|lit|l|m]; [done| | | | |];
    cbn [decode indirect];
    destruct (indirect t _) as [[t0 v0] k]; cbn beta iota zeta;
    match goal with
    | |- (let '(x, st) := ?e in _) = _ => destruct e as [x st]
    end; done.
Qed.

Lemma gotype_ind' (P : gotype -> Prop)
    (HS : forall name, P (TString name))
    (HB : P TBool)
    (HT : P TTime)
    (HSt : forall name fs, Forall (fun f => P (ftype f)) fs -> P (TStruct name fs))
    (HP : forall t, P t -> P (TPtr t)) :
  forall t, P t.
Proof.
  fix IH 1. intros [name| | |name fs|t].
  - apply HS.
  - apply HB.
  - apply HT.
  - apply HSt.
    refine ((fix go (l : list field) : Forall (fun f => P (ftype f)) l :=
               match l with
               | [] => List.Forall_nil _
               | f :: l' => List.Forall_cons _ _ _ (IH (ftype f)) (go l')
               end) fs).
  - apply HP, IH.
Qed.

Lemma value_ok_struct name fs vs :
  value_ok (TStruct name fs) (VStruct vs) = values_ok fs vs.
Proof. reflexivity. Qed.

Lemma fheight_nonneg fs : 0 <= fheight fs.
Proof. induction fs; simpl; lia. Qed.

Lemma theight_nonneg t : 0 <= theight t.
Proof.
  induction t using gotype_ind'; simpl; try lia.
  fold (fheight fs). pose proof (fheight_nonneg fs). lia.
Qed.

(** An empty value of a type is the zero value of the type. *)
Lemma empty_is_zero (t : gotype) (v : goval) :
  value_ok t v = true -> isEmptyValue v = true -> v = zero t.
Proof.
  destruct t, v; try done; simpl.
  - intros _ H. apply Nat.eqb_eq in H. by destruct s.
  - intros _ H. by destruct b.
Qed.

Lemma find_by_app (p : field -> bool) (pre : list field) (f : field)
    (suf : list field) (i : nat) :
  forallb (fun g => negb (p g)) pre = true -> p f = true ->
  find_by p (pre ++ f :: suf) i = Some ((i + length pre)%nat, f).
Proof.
  revert i. induction pre as [|g pre IH]; intros i Hpre Hf; simpl.
  - rewrite Hf. do 2 f_equal. lia.
  - simpl in Hpre. apply andb_true_iff in Hpre as [Hg Hpre].
    apply negb_true_iff in Hg. rewrite Hg.
    rewrite IH; [|done|done]. do 2 f_equal. lia.
Qed.

Lemma distinct_app_cons (pre : list string) (x : string) (suf : list string) :
  distinct (pre ++ x :: suf) = true ->
  forallb (fun y => negb (String.eqb y x)) pre = true.
Proof.
  induction pre as [|y pre IH]; [done|]. simpl.
  intros [Hy Hd]%andb_true_iff. apply andb_true_iff. split; [|by apply IH].
  apply negb_true_iff in Hy. apply negb_true_iff.
  destruct (String.eqb y x) eqn:E; [|done].
  apply String.eqb_eq in E as ->.
  rewrite existsb_app in Hy. simpl in Hy. rewrite String.eqb_refl in Hy.
  by rewrite orb_true_r in Hy.
Qed.

Lemma find_field_own (pre : list field) (f : field) (suf : list field) :
  distinct (map fkey (pre ++ f :: suf)) = true ->
  find_field (fkey f) (pre ++ f :: suf) = Some (length pre, f).
Proof.
  intros Hd. unfold find_field.
  rewrite find_by_app; [done| |by rewrite String.eqb_refl].
  rewrite map_app in Hd. simpl in Hd.
  apply distinct_app_cons in Hd. rewrite forallb_forall in *.
  intros g Hg. apply Hd. apply in_map_iff. by exists g.
Qed.

Lemma decode_members_cons (fs : list field) (klit : string) (x : value)
    (m : list (string * value)) (vs : list goval) (st : dstatus)
    (key : string) (i : nat) (f : field) (cur y : goval) :
  unquote klit = Some key ->
  find_field key fs = Some (i, f) ->
  vs !! i = Some cur ->
  decode x (ftype f) cur = (y, DGood) ->
  decode_members fs ((klit, x) :: m) vs st
  = decode_members fs m (<[i := y]> vs) st.
Proof.
  intros H1 H2 H3 H4. cbn [decode_members]. rewrite H1, H2, H3, H4.
  by destruct st.
Qed.

Lemma members_roundtrip (fs_all : list field) :
  distinct (map fkey fs_all) = true ->
  forall suf : list field,
    Forall (fun f => roundtrip_at (ftype f)) suf ->
    forallb (fun f => utf8.ValidString (fkey f)) suf = true ->
    forallb (fun f => type_ok (ftype f)) suf = true ->
    forall (vs_suf : list goval) (pre : list field) (vs_pre : list goval),
      fs_all = pre ++ suf -> length vs_pre = length pre ->
      values_ok suf vs_suf = true ->
      exists m,
        encode_members suf vs_suf = inl m
        /\ mcanonical m = true
        /\ mheight m <= fheight suf
        /\ decode_members fs_all m (vs_pre ++ zeros suf) DGood
           = (vs_pre ++ vs_suf, DGood).
Proof.
  intros Hd. induction suf as [|f suf IH];
    intros HP Hkeys Htys vs_suf pre vs_pre Hfs Hlen Hvs.
  - destruct vs_suf; [|done]. exists []. simpl. by rewrite app_nil_r.
  - destruct vs_suf as [|x vs']; [done|].
    simpl in Hkeys, Htys, Hvs.
    apply andb_true_iff in Hkeys as [Hkey Hkeys].
    apply andb_true_iff in Htys as [Hty Htys].
    apply andb_true_iff in Hvs as [Hx Hvs].
    apply Forall_cons in HP as [Hf HP].
    destruct (IH HP Hkeys Htys vs' (pre ++ [f]) (vs_pre ++ [x]))
      as (m' & Hm' & Hc' & Hh' & Hdec'); [by rewrite <- app_assoc| |done|].
    { rewrite !length_app. simpl. lia. }
    rewrite <- !app_assoc in Hdec'. simpl in Hdec'.
    cbn [encode_members].
    destruct (fomit f && isEmptyValue x) eqn:Eomit.
    + apply andb_true_iff in Eomit as [_ Hempty].
      exists m'. split; [done|]. split; [done|]. split; [simpl; lia|].
      simpl. rewrite <- (empty_is_zero _ _ Hx Hempty). exact Hdec'.
    + destruct (Hf Hty x Hx) as (j & Hj & Hcj & Hhj & _ & Hdj).
      rewrite Hj, Hm'.
      exists ((appendString (fkey f), j) :: m').
      split; [done|]. split.
      { simpl. rewrite appendString_valid_literal, Hcj. exact Hc'. }
      split.
      { simpl. fold (mheight m'). fold (fheight suf). lia. }
      simpl zeros.
      rewrite (decode_members_cons fs_all _ j m' _ DGood (fkey f)
                 (length pre) f (zero (ftype f)) x).
      * replace (length pre) with (length vs_pre + 0)%nat by lia.
        rewrite insert_app_r. simpl. exact Hdec'.
      * by apply unquote_appendString.
      * rewrite Hfs. apply find_field_own. by rewrite <- Hfs.
      * by apply list_lookup_middle.
      * exact Hdj.
Qed.

Lemma values_ok_length fs vs : values_ok fs vs = true -> length vs = length fs.
Proof.
  revert vs. induction fs as [|f fs IH]; intros [|x vs]; simpl; try done.
  intros [_ H]%andb_true_iff. by rewrite (IH _ H).
Qed.

Theorem encode_decode (t : gotype) : roundtrip_at t.
Proof.
  induction t as [name| | |name fs IH|t IH] using gotype_ind';
    intros Hty v Hv.
  - destruct v as [s| | | | |]; try done. simpl in Hv.
    exists (Str (appendString s)). simpl.
    rewrite appendString_valid_literal.
    fold (unquote (appendString s)). rewrite (unquote_appendString s Hv).
    repeat split; done.
  - destruct v as [|b| | | |]; try done.
    exists (Bool b). repeat split; done.
  - destruct v as [| |tm| | |]; try done. simpl in Hv.
    apply timeFacts.time_ok_reads_back in Hv. unfold time_reads_back in Hv.
    destruct (time.appendStrictRFC3339 tm) as [b|] eqn:Eb; [|done].
    apply andb_true_iff in Hv as [Hlit Hun].
    destruct (time.UnmarshalJSON (quoted b) time.zero) as [tm'|] eqn:Eun;
      [|done].
    apply timeFacts.time_eqb_true in Hun as ->.
    exists (Str b). cbn [encode]. unfold time.MarshalJSON. rewrite Eb.
    unfold compact.
    change (String dquote b +:+ String dquote "") with (render (Str b)).
    rewrite parse_render_canonical; [|done|done].
    split; [done|]. split; [done|]. split; [done|]. split; [done|].
    cbn [decode indirect zero render]. rewrite Eun. done.
  - destruct v as [| | |vs| |]; try done.
    rewrite value_ok_struct in Hv. simpl in Hty.
    apply andb_true_iff in Hty as [[Hd Hkeys]%andb_true_iff Htys].
    destruct (members_roundtrip fs Hd fs IH Hkeys Htys vs [] [])
      as (m & Hm & Hc & Hh & Hdec); [done|done|done|].
    exists (Object m). rewrite encode_struct, Hm.
    split; [done|]. split; [exact Hc|]. split.
    { simpl. fold (mheight m). fold (fheight fs). lia. }
    split; [done|].
    cbn [zero]. rewrite decode_struct. fold (zeros fs).
    simpl in Hdec. by rewrite Hdec.
  - simpl in Hty. apply andb_true_iff in Hty as [Hnp Hty].
    apply negb_true_iff in Hnp.
    destruct v as [| | | | |x]; try done.
    + exists Null. repeat split; try done. simpl. apply theight_nonneg.
    + simpl in Hv.
      destruct (IH Hty x Hv) as (j & Hj & Hc & Hh & Hnn & Hdec).
      exists j. split; [done|]. split; [done|]. split; [done|].
      split; [done|].
      rewrite decode_pointer; [|by apply Hnn]. cbn [zero]. by rewrite Hdec.
Qed.

End jsonTyped.

(** * A JSON text that matches a Go type *)

Module jsonMatches.
Import Bytes json jsonSpec BytesFacts jsonStrings jsonStrings2 jsonTexts jsonTyped.

#[local] Arguments utf8.size : simpl never.
#[local] Open Scope list_scope.

Lemma has_type_struct name fs vs :
  has_type (TStruct name fs) (VStruct vs) = has_types fs vs.
Proof. reflexivity. Qed.

Lemma has_type_zero (t : gotype) : has_type t (zero t) = true.
Proof.
  induction t as [name| | |name fs IH|t IH] using gotype_ind'; try done.
  cbn [zero]. rewrite has_type_struct.
  induction IH as [|f fs Hf _ IHfs]; [done|].
  simpl. by rewrite Hf, IHfs.
Qed.

Lemma has_types_lookup fs vs i f :
  has_types fs vs = true -> fs !! i = Some f ->
  exists cur, vs !! i = Some cur /\ has_type (ftype f) cur = true.
Proof.
  revert vs i. induction fs as [|g fs IH]; intros [|x vs] i; try done.
  simpl. intros [Hx Hvs]%andb_true_iff. destruct i as [|i]; simpl.
  - intros [= ->]. by exists x.
  - intros Hi. by apply IH.
Qed.

Lemma has_types_insert fs vs i f y :
  has_types fs vs = true -> fs !! i = Some f ->
  has_type (ftype f) y = true ->
  has_types fs (<[i := y]> vs) = true.
Proof.
  revert vs i. induction fs as [|g fs IH]; intros [|x vs] i; try done.
  simpl. intros [Hx Hvs]%andb_true_iff. destruct i as [|i]; simpl.
  - intros [= ->] Hy. by rewrite Hy, Hvs.
  - intros Hi Hy. rewrite Hx. simpl. by apply IH.
Qed.

Lemma find_by_lookup (p : field -> bool) (fs : list field) (i0 i : nat)
    (f : field) :
  find_by p fs i0 = Some (i, f) ->
  (i0 <= i)%nat /\ fs !! (i - i0)%nat = Some f.
Proof.
  revert i0. induction fs as [|g fs IH]; intros i0; [done|]. simpl.
  destruct (p g).
  - intros [= <- <-]. split; [lia|]. by rewrite Nat.sub_diag.
  - intros H. apply IH in H as [Hle Hl]. split; [lia|].
    replace (i - i0)%nat with (S (i - S i0)) by lia. done.
Qed.

Lemma find_field_lookup (key : string) (fs : list field) (i : nat) (f : field) :
  find_field key fs = Some (i, f) -> fs !! i = Some f.
Proof.
  unfold find_field.
  destruct (find_by _ fs 0) as [[i' f']|] eqn:E.
  - intros [= -> ->]. apply find_by_lookup in E as [_ E].
    by rewrite Nat.sub_0_r in E.
  - intros H. apply find_by_lookup in H as [_ H].
    by rewrite Nat.sub_0_r in H.
Qed.

(** [indirect] reaches a value of the base type, and puts a value of the
    base type back as a value of the type. *)
Lemma indirect_spec (t : gotype) (v : goval) :
  has_type t v = true ->
  exists v0 k,
    indirect t v = (base_type t, v0, k)
    /\ has_type (base_type t) v0 = true
    /\ (forall x, has_type (base_type t) x = true -> has_type t (k x) = true).
Proof.
  revert v. induction t as [name| | |name fs _|t IH] using gotype_ind';
    intros v Hv; try (by exists v, (fun x => x)).
  cbn [indirect base_type].
  set (cur := match v with VPtr x => x | _ => zero t end).
  assert (Hcur : has_type t cur = true).
  { subst cur. destruct v; try done. apply has_type_zero. }
  destruct (IH cur Hcur) as (v0 & k & -> & H0 & Hk).
  exists v0, (fun x => VPtr (k x)). split; [done|]. split; [done|].
  intros x Hx. simpl. by apply Hk.
Qed.

Lemma base_type_not_ptr (t : gotype) : is_ptr (base_type t) = false.
Proof. induction t using gotype_ind'; done. Qed.

Lemma UnmarshalJSON_receiver (data : string) (tm : time.Time) :
  match time.UnmarshalJSON data tm with inl _ => true | inr _ => false end
  = match time.UnmarshalJSON data time.zero with inl _ => true | inr _ => false end.
Proof.
  unfold time.UnmarshalJSON. destruct (String.eqb data "null"); [done|].
  repeat case_match; done.
Qed.

Lemma matches_Object name fs m :
  matches (Object m) (TStruct name fs) = forallb (member_matches fs) m.
Proof. reflexivity. Qed.

Lemma merge_good (st st1 : dstatus) :
  (forall e, st1 <> DAbort e) ->
  merge st st1 = DGood <-> st = DGood /\ st1 = DGood.
Proof.
  intros Hna. destruct st, st1; simpl; split; try done;
    try (by intros [? ?]); by intros [=].
Qed.

Lemma decode_members_matches (n : nat) (fs : list field)
    (IHv : forall (x : value) (t : gotype) (v : goval),
        (weight x < n)%nat ->
        has_type t v = true ->
        has_type t (fst (decode x t v)) = true
        /\ (snd (decode x t v) = DGood <-> matches x t = true)) :
  forall (m : list (string * value)) (vs : list goval) (st : dstatus),
    (mweight m < n)%nat ->
    has_types fs vs = true ->
    has_types fs (fst (decode_members fs m vs st)) = true
    /\ (snd (decode_members fs m vs st) = DGood
        <-> st = DGood /\ forallb (member_matches fs) m = true).
Proof.
  induction m as [|[klit x] m IH]; intros vs st Hw Hvs.
  { simpl. split; [done|]. split; [by intros ->|by intros [-> _]]. }
  cbn [mweight fold_right snd] in Hw. rewrite fold_mweight in Hw.
  assert (Hwm : (mweight m < n)%nat) by lia.
  specialize (fun vs st => IH vs st Hwm).
  cbn [decode_members forallb]. unfold member_matches at 1. cbn [fst snd].
  destruct (unquote klit) as [key|]; [|simpl; split; [done|]; split; [done|by intros [_ ?]]].
  destruct (find_field key fs) as [[i f]|] eqn:Ef; [|by apply IH].
  pose proof (find_field_lookup _ _ _ _ Ef) as Hi.
  destruct (has_types_lookup fs vs i f Hvs Hi) as (cur & -> & Hcur).
  destruct (IHv x (ftype f) cur ltac:(lia) Hcur) as [Hty Hiff].
  destruct (decode x (ftype f) cur) as [y st1]. simpl in Hty, Hiff.
  pose proof (has_types_insert fs vs i f y Hvs Hi Hty) as Hvs'.
  destruct st1 as [|e|e].
  - destruct (IH (<[i := y]> vs) (merge st DGood) Hvs') as [H1 H2].
    split; [done|]. rewrite H2. simpl.
    assert (matches x (ftype f) = true) as -> by (by apply Hiff).
    by rewrite andb_true_l.
  - destruct (IH (<[i := y]> vs) (merge st (DSaved e)) Hvs') as [H1 H2].
    split; [done|]. rewrite H2.
    assert (matches x (ftype f) = false) as ->.
    { destruct (matches x (ftype f)); [|done].
      by assert (DSaved e = DGood) by (by apply Hiff). }
    rewrite andb_false_l. split; [|by intros [_ ?]].
    intros [Hm _]. destruct st; simpl in Hm; done.
  - simpl. split; [done|]. split; [done|].
    intros [_ [Hm _]%andb_true_iff].
    by assert (DAbort e = DGood) by (by apply Hiff).
Qed.

Lemma indirect_base (t : gotype) (v : goval) :
  is_ptr t = false -> indirect t v = (t, v, fun x => x).
Proof. by destruct t. Qed.

Lemma base_type_idem (t : gotype) : base_type (base_type t) = base_type t.
Proof. induction t using gotype_ind'; done. Qed.

(** Decoding through pointers is decoding at the base type. *)
Lemma decode_indirect (j : value) (t : gotype) (v v0 : goval)
    (k : goval -> goval) :
  j <> Null ->
  indirect t v = (base_type t, v0, k) ->
  decode j t v
  = (k (fst (decode j (base_type t) v0)), snd (decode j (base_type t) v0)).
Proof.
  intros Hj Hi.
  pose proof (indirect_base (base_type t) v0 (base_type_not_ptr t)) as Hb.
  destruct j as [|b|lit|lit|l|m]; [done| | | | |];
    cbn [decode]; rewrite Hi, Hb;
    match goal with
    | |- (let '(x, st) := ?e in _) = _ => destruct e as [x st]
    end; done.
Qed.

Lemma matches_base (j : value) (t : gotype) :
  matches j (base_type t) = matches j t.
Proof.
  destruct j; cbn [matches]; by rewrite ?base_type_idem.
Qed.

Lemma decode_matches_lt (n : nat) :
  forall (j : value) (t : gotype) (v : goval),
    (weight j < n)%nat ->
    has_type t v = true ->
    has_type t (fst (decode j t v)) = true
    /\ (snd (decode j t v) = DGood <-> matches j t = true).
Proof.
  induction n as [n IH] using lt_wf_ind. intros j t v Hw Hv.
  assert (Hnull : j = Null \/ j <> Null) by (destruct j; auto).
  destruct Hnull as [->|Hj].
  { simpl. split; [by destruct t|done]. }
  destruct (indirect_spec t v Hv) as (v0 & k & Hi & Hv0 & Hk).
  rewrite (decode_indirect j t v v0 k Hj Hi). cbn [fst snd].
  rewrite <- (matches_base j t).
  pose proof (base_type_not_ptr t) as Hnp.
  pose proof (base_type_idem t) as Hidem.
  destruct (base_type t) as [name| | |name fs|t'] eqn:Et; [| | | |done].
  - (* a string type *)
    destruct v0 as [s0| | | | |]; try done.
    destruct j as [|b|lit|lit|l|m]; try done;
      try (split; [by apply Hk|]; split; done).
    cbn [decode indirect matches base_type fst snd].
    destruct (unquote lit); (split; [by apply Hk|]; split; done).
  - (* bool *)
    destruct v0 as [|b0| | | |]; try done.
    destruct j as [|b|lit|lit|l|m]; try done;
      split; try (by apply Hk); split; done.
  - (* time.Time *)
    destruct v0 as [| |tm| | |]; try done.
    assert (Hd : decode j TTime (VTime tm)
                 = match time.UnmarshalJSON (render j) tm with
                   | inl tm' => (VTime tm', DGood)
                   | inr e => (VTime tm, DAbort e)
                   end).
    { destruct j; try done;
        cbn [decode indirect]; by destruct (time.UnmarshalJSON _ tm). }
    assert (Hm : matches j TTime
                 = match time.UnmarshalJSON (render j) time.zero with
                   | inl _ => true
                   | inr _ => false
                   end) by (by destruct j).
    rewrite Hd, Hm, <- (UnmarshalJSON_receiver (render j) tm).
    destruct (time.UnmarshalJSON (render j) tm);
      (split; [by apply Hk|]; split; done).
  - (* a struct *)
    destruct v0 as [| | |vs| |]; try done.
    rewrite has_type_struct in Hv0.
    destruct j as [|b|lit|lit|l|m]; try done.
    1-4: by (split; [apply Hk; cbn [decode indirect fst]; by rewrite has_type_struct|]; split).
    rewrite decode_struct, matches_Object.
    simpl in Hw. rewrite fold_mweight in Hw.
    assert (IHv : forall (x : value) (t : gotype) (v : goval),
               (weight x < n - 1)%nat -> has_type t v = true ->
               has_type t (fst (decode x t v)) = true
               /\ (snd (decode x t v) = DGood <-> matches x t = true)).
    { intros x t1 v1 Hx. apply (IH (n - 1)%nat); lia. }
    destruct (decode_members_matches (n - 1) fs IHv m vs DGood ltac:(lia) Hv0)
      as [H1 H2].
    destruct (decode_members fs m vs DGood) as [vs' st']. simpl in H1, H2.
    cbn [fst snd]. split; [apply Hk; by rewrite has_type_struct|].
    rewrite H2. split; [by intros [_ ?]|done].
Qed.

(** Decoding succeeds exactly on the texts that match the type, and leaves
    a value of the type. *)
Theorem decode_matches (j : value) (t : gotype) (v : goval) :
  has_type t v = true ->
  has_type t (fst (decode j t v)) = true
  /\ (snd (decode j t v) = DGood <-> matches j t = true).
Proof. apply (decode_matches_lt (S (weight j))). lia. Qed.

End jsonMatches.
(** * The transport *)

Module SendFacts.

Lemma outside_2xx_test (status : Z) :
  outside_2xx status -> (status <? 200) || (299 <? status) = true.
Proof.
  intros [H|H]; apply orb_true_iff; [left | right]; by apply Z.ltb_lt.
Qed.

Lemma inside_2xx_test (status : Z) :
  200 <= status <= 299 -> (status <? 200) || (299 <? status) = false.
Proof.
  intros H. apply orb_false_iff. split; apply Z.ltb_ge; lia.
Qed.

Lemma Send_req_after c0 req v :
  req_after (Send c0 req v) = http.set_Header (Send_header c0) req.
Proof. run_send. send_cases. Qed.

(** C4: whatever headers the request carries, after [Send] its header map
    is the two-entry map written by [Send]: the content type (spelled
    [Content-type] in the source, [Content-Type] in canonical form) and the
    basic authorization; every other name is absent. *)
Theorem Send_replaces_header (c0 : Client) (req : http.Request) (v : any) :
  let h := http.Header (req_after (Send c0 req v)) in
  h = {[ "Content-type" := ["application/json"];
         "Authorization" := ["Basic " +:+ BasicAuth (c c0)] ]}
  /\ size h = 2%nat
  /\ h !! "Content-type" = Some ["application/json"]
  /\ http.CanonicalMIMEHeaderKey "Content-type" = "Content-Type"
  /\ h !! "Authorization" = Some ["Basic " +:+ BasicAuth (c c0)]
  /\ (forall k, k <> "Content-type" /\ k <> "Authorization" <-> h !! k = None).
Proof.
  intros h. subst h. rewrite Send_req_after. simpl. unfold Send_header.
  split; [done|]. split.
  { rewrite map_size_insert_None; [by rewrite map_size_singleton|].
    by rewrite lookup_singleton_ne. }
  split; [by rewrite lookup_insert_eq|].
  split; [done|].
  split; [rewrite lookup_insert_ne; [by rewrite lookup_singleton_eq | done]|].
  intros k. rewrite lookup_insert_None, lookup_singleton_None.
  split; intros [? ?]; split; congruence.
Qed.

(** C2: a response outside 200..299 with a body of length zero makes [Send]
    return the sentinel [ErrResponseIsEmpty], and the JSON decoder is not
    called. *)
Theorem Send_empty_failure (c0 : Client) (req : http.Request) (v : any)
    (resp : http.Response) :
  httpClient c0 (http.set_Header (Send_header c0) req) = inl resp ->
  outside_2xx (http.StatusCode resp) ->
  http.ReadAll resp = inl "" ->
  result (Send c0 req v) = Returned (Some ErrResponseIsEmpty)
  /\ filter is_Unmarshal (trace (Send c0 req v)) = [].
Proof.
  intros Hdo Hst Hbody. run_send.
  destruct (Debug (c c0)); simpl; rewrite Hdo; simpl; rewrite Hbody; simpl;
    rewrite (outside_2xx_test _ Hst); simpl; done.
Qed.

Lemma Send_empty_failure_witness :
  outside_2xx 502
  /\ result (Send (sample_client false 502 "") sample_request (new_ PaymentResponse))
     = Returned (Some ErrResponseIsEmpty)
  /\ filter is_Unmarshal
       (trace (Send (sample_client false 502 "") sample_request (new_ PaymentResponse)))
     = [].
Proof.
  split; [right; lia|].
  apply (Send_empty_failure (sample_client false 502 "") sample_request
           (new_ PaymentResponse)
           {| http.StatusCode := 502; http.ReadAll := inl "" |});
    [reflexivity | right; reflexivity | reflexivity].
Defined.

(** C10: a response in 200..299 with a body of length zero and a
    destination that is not nil makes [Send] return the decoder's syntax
    error: neither success nor the sentinel of the failure branch. *)
Theorem Send_empty_success_body (c0 : Client) (req : http.Request) (v : any)
    (resp : http.Response) :
  httpClient c0 (http.set_Header (Send_header c0) req) = inl resp ->
  200 <= http.StatusCode resp <= 299 ->
  http.ReadAll resp = inl "" ->
  v <> AnyNil ->
  exists msg,
    result (Send c0 req v) = Returned (Some (SyntaxError msg))
    /\ result (Send c0 req v) <> Returned None
    /\ result (Send c0 req v) <> Returned (Some ErrResponseIsEmpty)
    /\ filter is_Unmarshal (trace (Send c0 req v)) = [EvUnmarshal ""].
Proof.
  intros Hdo Hst Hbody Hv. exists "json: syntax error". run_send.
  destruct (Debug (c c0)); simpl; rewrite Hdo; simpl; rewrite Hbody; simpl;
    rewrite (inside_2xx_test _ Hst); simpl; destruct v; try done; simpl; done.
Qed.

Lemma Send_empty_success_body_witness :
  200 <= 204 <= 299
  /\ exists msg,
    result (Send (sample_client true 204 "") sample_request (new_ PaymentResponse))
    = Returned (Some (SyntaxError msg))
    /\ result (Send (sample_client true 204 "") sample_request (new_ PaymentResponse))
       <> Returned None
    /\ result (Send (sample_client true 204 "") sample_request (new_ PaymentResponse))
       <> Returned (Some ErrResponseIsEmpty)
    /\ filter is_Unmarshal
         (trace (Send (sample_client true 204 "") sample_request (new_ PaymentResponse)))
       = [EvUnmarshal ""].
Proof.
  split; [lia|].
  apply (Send_empty_success_body (sample_client true 204 "") sample_request
           (new_ PaymentResponse)
           {| http.StatusCode := 204; http.ReadAll := inl "" |});
    [reflexivity | simpl; lia | reflexivity | discriminate].
Defined.

(** C9, as it fails: with the debug flag off, [Send] still writes a log
    line, the error line of a failure response that decodes. *)
Lemma Send_logs_with_debug_off :
  Debug (c (sample_client false 402 declined_body)) = false
  /\ filter is_Printf
       (trace (Send (sample_client false 402 declined_body) sample_request AnyNil))
     = [error_line "t" "transaction_declined" "m" "id1"].
Proof. split; vm_compute; reflexivity. Qed.

(** C9, amended: the debug lines are written only when the flag is set;
    the flag changes nothing else.  What [Send] returns, the request and the
    destination afterwards are the same with the flag on and off, and the
    calls made with the flag off are those made with it on, the debug lines
    left out (the error line is there either way). *)
Theorem Send_debug_flag (c0 : Client) (req : http.Request) (v : any) :
  let on := Send (with_debug c0 true) req v in
  let off := Send (with_debug c0 false) req v in
  result on = result off
  /\ req_after on = req_after off
  /\ v_after on = v_after off
  /\ trace off = filter (fun ev => negb (is_debug_line ev)) (trace on)
  /\ filter is_debug_line (trace off) = [].
Proof.
  intros on off. subst on off. run_send.
  unfold Send_header. simpl.
  destruct (httpClient c0 _) as [resp|err]; simpl; [|done].
  destruct (http.ReadAll resp) as [body|err]; simpl; [|done].
  destruct ((http.StatusCode resp <? 200) || (299 <? http.StatusCode resp));
    simpl.
  - destruct (String.length body =? 0)%nat; simpl; [done|].
    destruct (json.Unmarshal body _) as [a [err|]]; simpl; [done|].
    destruct a as [|t [p|]|]; simpl; try done.
    destruct p; simpl; try done.
    unfold ErrorCode; send_cases.
  - destruct v as [|t o|t x]; simpl; done.
Qed.

(** C1, where it fails: the code [rate_limit_100%] comes back as an error
    whose text is not the code. *)
Theorem Send_error_code_percent :
  exists e,
    result (Send (sample_client false 402 percent_body) sample_request AnyNil)
    = Returned (Some e)
    /\ Error e = "rate_limit_100%!(NOVERB)"
    /\ Error e <> "rate_limit_100%".
Proof.
  eexists. split; [vm_compute; reflexivity|]. split; [reflexivity|discriminate].
Qed.

(** The failure body of the specification gives the error
    [transaction_declined]. *)
Lemma Send_transaction_declined :
  result (Send (sample_client false 402 declined_body) sample_request AnyNil)
  = Returned (Some (fmt.Errorf StatusCodeTransactionDeclined))
  /\ Error (fmt.Errorf StatusCodeTransactionDeclined) = "transaction_declined".
Proof. split; vm_compute; reflexivity. Qed.

End SendFacts.

(** * The configuration *)

Module ConfigFacts.

(** C6: [NewConfig] keeps the base64 text of login, colon, password (what
    [EncodeToString] returns, which is the base64 encoding as RFC 4648
    words it) and the production URL; [NewDevelopmentConfig] does so for
    the sandbox pair and sets the debug flag. *)
Theorem NewConfig_fields (login password : string) :
  BasicAuth (NewConfig login password)
  = base64.EncodeToString (login +:+ ":" +:+ password)
  /\ BasicAuth (NewConfig login password)
     = base64Spec.encoding (login +:+ ":" +:+ password)
  /\ API (NewConfig login password) = "https://api.rozetkapay.com/api/"
  /\ Debug (NewConfig login password) = false
  /\ NewDevelopmentConfig
     = SetDebugMode (NewConfig "a6a29002-dc68-4918-bc5d-51a6094b14a8" "XChz3J8qrr") true
  /\ BasicAuth NewDevelopmentConfig
     = base64Spec.encoding "a6a29002-dc68-4918-bc5d-51a6094b14a8:XChz3J8qrr"
  /\ BasicAuth NewDevelopmentConfig
     = "YTZhMjkwMDItZGM2OC00OTE4LWJjNWQtNTFhNjA5NGIxNGE4OlhDaHozSjhxcnI="
  /\ API NewDevelopmentConfig = "https://api.rozetkapay.com/api/"
  /\ Debug NewDevelopmentConfig = true.
Proof.
  split; [reflexivity|].
  split; [apply base64Facts.EncodeToString_base64|].
  repeat split; reflexivity.
Qed.

End ConfigFacts.

(** * The JSON properties of the client *)

Module ClientJson.
Import Bytes json jsonSpec BytesFacts jsonStrings jsonStrings2 jsonTexts
  jsonTyped jsonMatches SendFacts.

#[local] Open Scope list_scope.

(** Writing a value and reading the text back into a fresh variable gives
    the value. *)
Lemma Unmarshal_Marshal (t : gotype) (v : goval) :
  type_ok t = true -> theight t <= maxNestingDepth ->
  value_ok t v = true ->
  exists text,
    Marshal (AnyVal t v) = inl text
    /\ Marshal (AnyPtr t (Some v)) = inl text
    /\ Unmarshal text (AnyPtr t (Some (zero t))) = (AnyPtr t (Some v), None).
Proof.
  intros Hty Hh Hv.
  destruct (encode_decode t Hty v Hv) as (j & Hj & Hc & Hhj & _ & Hd).
  exists (render j). unfold Marshal, Unmarshal. rewrite Hj.
  rewrite parse_render_canonical; [|done|lia]. by rewrite Hd.
Qed.









(** X21: a failure response whose body decodes as an error response makes
    [Send] return what [fmt.Errorf] makes of its code: the code itself when
    it holds no percent sign. *)
Lemma Send_error_code (c0 : Client) (req : http.Request) (v : any)
    (resp : http.Response) (body : string) (j : value) :
  httpClient c0 (http.set_Header (Send_header c0) req) = inl resp ->
  outside_2xx (http.StatusCode resp) ->
  http.ReadAll resp = inl body ->
  parse body = Some j -> j <> Null ->
  matches j (TPtr ErrorResponse) = true ->
  exists e code,
    fst (decode j (TPtr ErrorResponse) VNil) = VPtr e
    /\ sel_string ErrorResponse "Code" e = Some code
    /\ result (Send c0 req v) = Returned (Some (fmt.Errorf code))
    /\ (contains "%" code = false -> Error (fmt.Errorf code) = code).
Proof.
  intros Hdo Hst Hbody Hj Hnn Hm.
  destruct (decode_matches j (TPtr ErrorResponse) VNil eq_refl) as [Hty Hiff].
  apply Hiff in Hm. rewrite decode_pointer in Hty, Hm by done.
  destruct (decode j ErrorResponse (zero ErrorResponse)) as [x st] eqn:Ed.
  simpl in Hty, Hm. subst st.
  destruct x as [| | |vs| |]; try done.
  destruct vs as [|[code| | | | |] [|[m| | | | |] [|[p| | | | |]
    [|[pid| | | | |] [|[ty| | | | |] [|]]]]]]; try done.
  exists (VStruct [VString code; VString m; VString p; VString pid; VString ty]),
    code.
  split; [by rewrite decode_pointer, Ed|]. split; [reflexivity|]. split.
  - destruct body as [|b0 body']; [by vm_compute in Hj|].
    run_send.
    destruct (Debug (c c0)); simpl; rewrite Hdo; simpl; rewrite Hbody; simpl;
      rewrite (outside_2xx_test _ Hst); simpl;
      unfold Unmarshal; rewrite Hj; rewrite decode_pointer by done;
      rewrite Ed; reflexivity.
  - intros Hc. simpl. by apply fmtFacts.doPrintf_plain.
Qed.

(** C3: [Send] takes the failure branch exactly for the statuses outside
    200..299, and never returns success from it; for a status in 200..299
    it returns success when the destination is nil, and when the body is a
    JSON text that matches the type of the destination it returns success
    and leaves in the destination what the decoder stores from the body;
    when the body is the JSON text of a value of that type, the destination
    holds the value afterwards. *)
Theorem Send_classifies (c0 : Client) (req : http.Request) (v : any)
    (resp : http.Response) (body : string) :
  httpClient c0 (http.set_Header (Send_header c0) req) = inl resp ->
  http.ReadAll resp = inl body ->
  (outside_2xx (http.StatusCode resp) ->
   result (Send c0 req v) <> Returned None)
  /\ (200 <= http.StatusCode resp <= 299 ->
      (v = AnyNil -> result (Send c0 req v) = Returned None)
      /\ forall (t : gotype) (cur : goval) (j : value),
          v = AnyPtr t (Some cur) -> has_type t cur = true ->
          parse body = Some j -> matches j t = true ->
          result (Send c0 req v) = Returned None
          /\ v_after (Send c0 req v) = AnyPtr t (Some (fst (decode j t cur)))
          /\ has_type t (fst (decode j t cur)) = true)
  /\ (200 <= http.StatusCode resp <= 299 ->
      forall (t : gotype) (r : goval),
        type_ok t = true -> theight t <= maxNestingDepth ->
        value_ok t r = true ->
        Marshal (AnyVal t r) = inl body -> v = new_ t ->
        result (Send c0 req v) = Returned None
        /\ v_after (Send c0 req v) = AnyPtr t (Some r)).
Proof.
  intros Hdo Hbody. split; [|apply and_comm; split].
  - intros Hst. run_send.
    destruct (Debug (c c0)); simpl; rewrite Hdo; simpl; rewrite Hbody; simpl;
      rewrite (outside_2xx_test _ Hst); simpl;
      unfold ErrorCode; send_cases.
  - intros Hst t r Hty Hh Hr HM ->.
    destruct (Unmarshal_Marshal t r Hty Hh Hr) as (text & HM' & _ & HU).
    rewrite HM in HM'. injection HM' as <-. unfold new_ in *.
    split; run_send;
      destruct (Debug (c c0)); simpl; rewrite Hdo; simpl; rewrite Hbody;
        simpl; rewrite (inside_2xx_test _ Hst); simpl; by rewrite HU.
  - intros Hst. split.
    + intros ->. run_send.
      destruct (Debug (c c0)); simpl; rewrite Hdo; simpl; rewrite Hbody; simpl;
        rewrite (inside_2xx_test _ Hst); done.
    + intros t cur j -> Hcur Hj Hm.
      destruct (decode_matches j t cur Hcur) as [Hty Hiff].
      apply Hiff in Hm. split; [|split; [|done]].
      * run_send.
        destruct (Debug (c c0)); simpl; rewrite Hdo; simpl; rewrite Hbody;
          simpl; rewrite (inside_2xx_test _ Hst); simpl;
          unfold Unmarshal; rewrite Hj;
          destruct (decode j t cur) as [x st]; simpl in *; by subst st.
      * run_send.
        destruct (Debug (c c0)); simpl; rewrite Hdo; simpl; rewrite Hbody;
          simpl; rewrite (inside_2xx_test _ Hst); simpl;
          unfold Unmarshal; rewrite Hj;
          destruct (decode j t cur) as [x st]; simpl in *; by subst st.
Qed.

Lemma Send_classifies_witness :
  let cl := sample_client false 200 success_body in
  let v := new_ PaymentResponse in
  (outside_2xx (http.StatusCode {| http.StatusCode := 200; http.ReadAll := inl success_body |}) ->
   result (Send cl sample_request v) <> Returned None)
  /\ (200 <= http.StatusCode {| http.StatusCode := 200; http.ReadAll := inl success_body |} <= 299 ->
      (v = AnyNil -> result (Send cl sample_request v) = Returned None)
      /\ forall (t : gotype) (cur : goval) (j : value),
          v = AnyPtr t (Some cur) -> has_type t cur = true ->
          parse success_body = Some j -> matches j t = true ->
          result (Send cl sample_request v) = Returned None
          /\ v_after (Send cl sample_request v)
             = AnyPtr t (Some (fst (decode j t cur)))
          /\ has_type t (fst (decode j t cur)) = true)
  /\ (200 <= http.StatusCode {| http.StatusCode := 200; http.ReadAll := inl success_body |} <= 299 ->
      forall (t : gotype) (r : goval),
        type_ok t = true -> theight t <= maxNestingDepth ->
        value_ok t r = true ->
        Marshal (AnyVal t r) = inl success_body -> v = new_ t ->
        result (Send cl sample_request v) = Returned None
        /\ v_after (Send cl sample_request v) = AnyPtr t (Some r)).
Proof.
  apply (Send_classifies (sample_client false 200 success_body) sample_request
           (new_ PaymentResponse)
           {| http.StatusCode := 200; http.ReadAll := inl success_body |}
           success_body); reflexivity.
Defined.

(** The success body of the samples fills the destination. *)
Lemma Send_success_body :
  let r := Send (sample_client false 200 success_body) sample_request
                (new_ PaymentResponse) in
  result r = Returned None
  /\ v_after r
     = AnyPtr PaymentResponse
         (Some (set_field PaymentResponse "ID" (VString "pay_1")
                  (set_field PaymentResponse "IsSuccess" (VBool true)
                     (set_field PaymentResponse "Details" sample_details
                        (zero PaymentResponse))))).
Proof. split; vm_compute; reflexivity. Qed.

(** C7, where it fails: the wallet schema with no field set is sent with
    the apple_pay, cc_token, google_pay and wallet members of its payment
    method written out, though each is tagged omitempty and none is set:
    the encoder takes no struct for empty. *)
Theorem NewRequest_writes_unset_structs
    (url_Parse : string -> http.URL + error)
    (url_Query : http.URL -> gmap string (list string))
    (values_Encode : gmap string (list string) -> string)
    (c0 : Client) (url : string) (u : http.URL) (query : gmap string string) :
  url_Parse url = inl u ->
  forallb (tagged_omitempty PaymentMethod)
    ["ApplePay"; "CCToken"; "GooglePay"; "Wallet"] = true
  /\ sel PaymentMethod "ApplePay" (zero PaymentMethod) = Some (zero ApplePay)
  /\ exists req,
      NewRequest url_Parse url_Query values_Encode c0 http.MethodPost url
        (new_ AddWalletCustomerSchema) query = inl req
      /\ http.Body req = Some empty_wallet_body.
Proof.
  intros Hu. split; [reflexivity|]. split; [reflexivity|].
  assert (HM : Marshal (AnyPtr AddWalletCustomerSchema
                          (Some (zero AddWalletCustomerSchema)))
               = inl empty_wallet_body) by (vm_compute; reflexivity).
  unfold NewRequest, new_, http_NewRequest. rewrite HM.
  change (http.validMethod _) with true. cbn iota beta zeta. simpl negb.
  cbn iota. rewrite Hu. eexists. split; [reflexivity|]. reflexivity.
Qed.

Lemma NewRequest_writes_unset_structs_witness :
  forallb (tagged_omitempty PaymentMethod)
    ["ApplePay"; "CCToken"; "GooglePay"; "Wallet"] = true
  /\ sel PaymentMethod "ApplePay" (zero PaymentMethod) = Some (zero ApplePay)
  /\ exists req,
      NewRequest parse_any no_query encode_none (sample_client false 200 "")
        http.MethodPost "https://api.rozetkapay.com/api/customers/v1/wallet"
        (new_ AddWalletCustomerSchema) ∅ = inl req
      /\ http.Body req = Some empty_wallet_body.
Proof.
  apply (NewRequest_writes_unset_structs parse_any no_query encode_none
           (sample_client false 200 "")
           "https://api.rozetkapay.com/api/customers/v1/wallet"
           {| http.Location := "https://api.rozetkapay.com/api/customers/v1/wallet";
              http.RawQuery := "" |} ∅).
  reflexivity.
Defined.


(** The customer block of a payment is written the same way. *)
Lemma Marshal_empty_customer :
  tagged_omitempty CustomerData "PaymentMethod" = true
  /\ Marshal (new_ CustomerData) = inl empty_customer_body.
Proof. split; vm_compute; reflexivity. Qed.

End ClientJson.
(** * More about the transport *)

Module SendMore.
Import Bytes json jsonSpec jsonMatches SendFacts.

#[local] Open Scope list_scope.

(** X1: when the HTTP client fails, [Send] returns its error as it is;
    the only call made besides logging is that one [Do], and the
    destination is left alone. *)
Theorem Send_transport_error (c0 : Client) (req : http.Request) (v : any)
    (err : error) :
  httpClient c0 (http.set_Header (Send_header c0) req) = inr err ->
  result (Send c0 req v) = Returned (Some err)
  /\ v_after (Send c0 req v) = v
  /\ filter (fun ev => negb (is_Printf ev)) (trace (Send c0 req v))
     = [EvDo (http.set_Header (Send_header c0) req)].
Proof.
  intros Hdo. run_send.
  destruct (Debug (c c0)); simpl; rewrite Hdo; done.
Qed.

Lemma Send_transport_error_witness :
  result (Send {| c := NewDevelopmentConfig;
                  httpClient := failing connection_refused |}
            sample_request (new_ PaymentResponse))
  = Returned (Some connection_refused)
  /\ v_after (Send {| c := NewDevelopmentConfig;
                      httpClient := failing connection_refused |}
                sample_request (new_ PaymentResponse))
     = new_ PaymentResponse
  /\ filter (fun ev => negb (is_Printf ev))
       (trace (Send {| c := NewDevelopmentConfig;
                       httpClient := failing connection_refused |}
                 sample_request (new_ PaymentResponse)))
     = [EvDo (http.set_Header
                (Send_header {| c := NewDevelopmentConfig;
                                httpClient := failing connection_refused |})
                sample_request)].
Proof.
  apply (Send_transport_error
           {| c := NewDevelopmentConfig;
              httpClient := failing connection_refused |}
           sample_request (new_ PaymentResponse) connection_refused).
  reflexivity.
Defined.

(** X2: once the HTTP client has answered, the body of the response is
    closed exactly once, and that is the last thing [Send] does, whether it
    returns an error, returns none, or panics. *)
Theorem Send_closes_body (c0 : Client) (req : http.Request) (v : any)
    (resp : http.Response) :
  httpClient c0 (http.set_Header (Send_header c0) req) = inl resp ->
  last (trace (Send c0 req v)) = Some EvClose
  /\ filter is_Close (trace (Send c0 req v)) = [EvClose]
  /\ filter is_ReadAll (trace (Send c0 req v)) = [EvReadAll].
Proof.
  intros Hdo. run_send.
  destruct (Debug (c c0)); simpl; rewrite Hdo; simpl;
    (destruct (http.ReadAll resp) as [body|err]; simpl; [|done]);
    (destruct ((http.StatusCode resp <? 200) || (299 <? http.StatusCode resp));
     simpl;
     [ destruct (String.length body =? 0)%nat; simpl; [done|];
       destruct (json.Unmarshal body _) as [a [e|]]; simpl; [done|];
       destruct a as [|t [p|]|]; simpl; try done;
       destruct p; simpl; try done;
       unfold ErrorCode; send_cases
     | destruct v as [|t o|t x]; simpl; done ]).
Qed.

Lemma Send_closes_body_witness :
  last (trace (Send (sample_client false 500 "null") sample_request AnyNil))
  = Some EvClose
  /\ filter is_Close
       (trace (Send (sample_client false 500 "null") sample_request AnyNil))
     = [EvClose]
  /\ filter is_ReadAll
       (trace (Send (sample_client false 500 "null") sample_request AnyNil))
     = [EvReadAll].
Proof.
  apply (Send_closes_body (sample_client false 500 "null") sample_request
           AnyNil {| http.StatusCode := 500; http.ReadAll := inl "null" |}).
  reflexivity.
Defined.

(** X3: a failure response whose body is the JSON text [null] makes [Send]
    panic: the decoder leaves the pointer to the error response nil, and
    the log line reads through it.  The body is still closed, and no line
    is logged for the error. *)
Theorem Send_null_failure_panics (c0 : Client) (req : http.Request) (v : any)
    (resp : http.Response) (body : string) :
  httpClient c0 (http.set_Header (Send_header c0) req) = inl resp ->
  outside_2xx (http.StatusCode resp) ->
  http.ReadAll resp = inl body ->
  parse body = Some Null ->
  result (Send c0 req v) = Panicked nil_dereference
  /\ last (trace (Send c0 req v)) = Some EvClose
  /\ filter (fun ev => is_Printf ev && negb (is_debug_line ev))
       (trace (Send c0 req v)) = [].
Proof.
  intros Hdo Hst Hbody Hj.
  destruct body as [|b0 body']; [by vm_compute in Hj|].
  run_send.
  destruct (Debug (c c0)); simpl; rewrite Hdo; simpl; rewrite Hbody; simpl;
    rewrite (outside_2xx_test _ Hst); simpl;
    unfold Unmarshal; rewrite Hj; done.
Qed.

Lemma Send_null_failure_panics_witness :
  outside_2xx 500
  /\ parse " null " = Some Null
  /\ result (Send (sample_client true 500 " null ") sample_request
               (new_ PaymentResponse))
     = Panicked nil_dereference
  /\ last (trace (Send (sample_client true 500 " null ") sample_request
                    (new_ PaymentResponse)))
     = Some EvClose
  /\ filter (fun ev => is_Printf ev && negb (is_debug_line ev))
       (trace (Send (sample_client true 500 " null ") sample_request
                 (new_ PaymentResponse))) = [].
Proof.
  split; [right; lia|]. split; [reflexivity|].
  apply (Send_null_failure_panics (sample_client true 500 " null ")
           sample_request (new_ PaymentResponse)
           {| http.StatusCode := 500; http.ReadAll := inl " null " |}
           " null ");
    [reflexivity | right; reflexivity | reflexivity | reflexivity].
Defined.

(** X4: [Send] writes the destination only by decoding the body of a
    response in 200..299; in every other run the destination is what it
    was. *)
Theorem Send_destination (c0 : Client) (req : http.Request) (v : any) :
  v_after (Send c0 req v) = v
  \/ exists resp body,
      httpClient c0 (http.set_Header (Send_header c0) req) = inl resp
      /\ 200 <= http.StatusCode resp <= 299
      /\ http.ReadAll resp = inl body
      /\ v_after (Send c0 req v) = fst (json.Unmarshal body v)
      /\ result (Send c0 req v) = Returned (snd (json.Unmarshal body v)).
Proof.
  run_send.
  destruct (httpClient c0 (http.set_Header (Send_header c0) req))
    as [resp|err] eqn:Hdo;
    [|left; by destruct (Debug (c c0))].
  destruct (http.ReadAll resp) as [body|err] eqn:Hbody;
    [|left; by destruct (Debug (c c0))].
  destruct ((http.StatusCode resp <? 200) || (299 <? http.StatusCode resp))
    eqn:Hst.
  - left.
    destruct (Debug (c c0)); simpl;
      (destruct (String.length body =? 0)%nat; simpl; [done|]);
      (destruct (json.Unmarshal body _) as [a [e|]]; simpl; [done|]);
      (destruct a as [|t [p|]|]; simpl; try done);
      (destruct p; simpl; try done);
      unfold ErrorCode; send_cases.
  - apply orb_false_iff in Hst as [H1 H2].
    apply Z.ltb_ge in H1, H2.
    destruct v as [|t o|t x].
    + left. by destruct (Debug (c c0)).
    + right. exists resp, body. split; [done|]. split; [lia|]. split; [done|].
      by destruct (Debug (c c0)).
    + right. exists resp, body. split; [done|]. split; [lia|]. split; [done|].
      by destruct (Debug (c c0)).
Qed.



(** X6: [Send] hands the HTTP client one request and one only, the
    caller's request under the new header: same method, same URL, same
    body.  Nothing is sent twice. *)
Theorem Send_calls_Do_once (c0 : Client) (req : http.Request) (v : any) :
  exists sent,
    filter is_Do (trace (Send c0 req v)) = [EvDo sent]
    /\ sent = http.set_Header (Send_header c0) req
    /\ http.Method sent = http.Method req
    /\ http.Url sent = http.Url req
    /\ http.Body sent = http.Body req
    /\ (length (filter is_Unmarshal (trace (Send c0 req v))) <= 1)%nat.
Proof.
  exists (http.set_Header (Send_header c0) req).
  split; [|split; [done|split; [done|split; [done|split; [done|]]]]];
    run_send;
    (destruct (httpClient c0 (http.set_Header (Send_header c0) req))
       as [resp|err];
     [|destruct (Debug (c c0)); simpl; done || lia]);
    (destruct (http.ReadAll resp) as [body|err];
     [|destruct (Debug (c c0)); simpl; done || lia]);
    (destruct ((http.StatusCode resp <? 200) || (299 <? http.StatusCode resp));
     [ destruct (Debug (c c0)); simpl;
         (destruct (String.length body =? 0)%nat; simpl; [done || lia|]);
         (destruct (json.Unmarshal body _) as [a [e|]]; simpl; [done || lia|]);
         (destruct a as [|t [p|]|]; simpl; try (done || lia));
         (destruct p; simpl; try (done || lia));
         unfold ErrorCode; send_cases; lia
     | destruct v as [|t o|t x];
         destruct (Debug (c c0)); simpl; done || lia ]).
Qed.

End SendMore.
(** * The operations *)

Module SendCases.
Import Bytes json jsonSpec jsonMatches SendFacts.

#[local] Open Scope list_scope.

(** [Send] by the answer of the HTTP client. *)
Lemma Send_Do_error c0 req v err :
  httpClient c0 (http.set_Header (Send_header c0) req) = inr err ->
  result (Send c0 req v) = Returned (Some err) /\ v_after (Send c0 req v) = v.
Proof.
  intros Hdo. run_send. destruct (Debug (c c0)); simpl; rewrite Hdo; done.
Qed.

Lemma Send_read_error c0 req v resp err :
  httpClient c0 (http.set_Header (Send_header c0) req) = inl resp ->
  http.ReadAll resp = inr err ->
  result (Send c0 req v) = Returned (Some err) /\ v_after (Send c0 req v) = v.
Proof.
  intros Hdo Hbody. run_send.
  destruct (Debug (c c0)); simpl; rewrite Hdo; simpl; rewrite Hbody; done.
Qed.

Lemma Send_outside c0 req v resp body :
  httpClient c0 (http.set_Header (Send_header c0) req) = inl resp ->
  http.ReadAll resp = inl body ->
  outside_2xx (http.StatusCode resp) ->
  result (Send c0 req v) <> Returned None
  /\ v_after (Send c0 req v) = v
  /\ (forall msg, result (Send c0 req v) = Panicked msg ->
      msg = nil_dereference).
Proof.
  intros Hdo Hbody Hst. run_send.
  destruct (Debug (c c0)); simpl; rewrite Hdo; simpl; rewrite Hbody; simpl;
    rewrite (outside_2xx_test _ Hst); simpl;
    (destruct (String.length body =? 0)%nat; simpl; [done|]);
    (destruct (json.Unmarshal body _) as [a [e|]]; simpl; [done|]);
    (destruct a as [|t [p|]|]; simpl;
     try (split; [done|split; [done|by intros msg [= <-]]]));
    (destruct p; simpl;
     try (split; [done|split; [done|by intros msg [= <-]]]));
    unfold ErrorCode; send_cases;
    split; try done; split; try done; by intros msg [= <-].
Qed.

Lemma Send_inside c0 req v resp body :
  httpClient c0 (http.set_Header (Send_header c0) req) = inl resp ->
  http.ReadAll resp = inl body ->
  200 <= http.StatusCode resp <= 299 ->
  result (Send c0 req v)
  = match v with
    | AnyNil => Returned None
    | _ => Returned (snd (json.Unmarshal body v))
    end
  /\ v_after (Send c0 req v)
     = match v with
       | AnyNil => v
       | _ => fst (json.Unmarshal body v)
       end.
Proof.
  intros Hdo Hbody Hst. run_send.
  destruct (Debug (c c0)); simpl; rewrite Hdo; simpl; rewrite Hbody; simpl;
    rewrite (inside_2xx_test _ Hst); simpl; by destruct v.
Qed.

Lemma Send_Do_calls c0 req v :
  filter is_Do (trace (Send c0 req v))
  = [EvDo (http.set_Header (Send_header c0) req)].
Proof.
  run_send.
  destruct (httpClient c0 (http.set_Header (Send_header c0) req))
    as [resp|err]; [|by destruct (Debug (c c0))].
  destruct (http.ReadAll resp) as [body|err]; [|by destruct (Debug (c c0))].
  destruct ((http.StatusCode resp <? 200) || (299 <? http.StatusCode resp)).
  - destruct (Debug (c c0)); simpl;
      (destruct (String.length body =? 0)%nat; simpl; [done|]);
      (destruct (json.Unmarshal body _) as [a [e|]]; simpl; [done|]);
      (destruct a as [|t [p|]|]; simpl; try done);
      (destruct p; simpl; try done);
      unfold ErrorCode; send_cases.
  - destruct v as [|t o|t x]; by destruct (Debug (c c0)).
Qed.

(** The status of a response is in 200..299 or outside. *)
Lemma status_cases (status : Z) :
  200 <= status <= 299 \/ outside_2xx status.
Proof. unfold outside_2xx. lia. Qed.

(** What [Unmarshal] leaves in a destination of type [t] is of type
    [t]. *)
Lemma Unmarshal_typed (body : string) (t : gotype) (cur : goval) :
  has_type t cur = true ->
  exists x,
    fst (Unmarshal body (AnyPtr t (Some cur))) = AnyPtr t (Some x)
    /\ has_type t x = true.
Proof.
  intros Hcur. unfold Unmarshal. destruct (parse body) as [j|].
  - destruct (decode_matches j t cur Hcur) as [Hty _].
    destruct (decode j t cur) as [x st]. by exists x.
  - by exists cur.
Qed.

Lemma Send_None_inv c0 req v :
  result (Send c0 req v) = Returned None ->
  exists resp body,
    httpClient c0 (http.set_Header (Send_header c0) req) = inl resp
    /\ http.ReadAll resp = inl body
    /\ 200 <= http.StatusCode resp <= 299.
Proof.
  intros Hres.
  destruct (httpClient c0 (http.set_Header (Send_header c0) req))
    as [resp|err] eqn:Hdo.
  - destruct (http.ReadAll resp) as [body|err] eqn:Hbody.
    + destruct (status_cases (http.StatusCode resp)) as [Hst|Hst].
      * by exists resp, body.
      * by destruct (Send_outside c0 req v resp body Hdo Hbody Hst) as [H _].
    + destruct (Send_read_error c0 req v resp err Hdo Hbody) as [H _].
      congruence.
  - destruct (Send_Do_error c0 req v err Hdo) as [H _]. congruence.
Qed.

Lemma Send_panic_inv c0 req v msg :
  result (Send c0 req v) = Panicked msg -> msg = nil_dereference.
Proof.
  intros Hres.
  destruct (httpClient c0 (http.set_Header (Send_header c0) req))
    as [resp|err] eqn:Hdo.
  - destruct (http.ReadAll resp) as [body|err] eqn:Hbody.
    + destruct (status_cases (http.StatusCode resp)) as [Hst|Hst].
      * destruct (Send_inside c0 req v resp body Hdo Hbody Hst) as [H _].
        rewrite H in Hres. by destruct v.
      * destruct (Send_outside c0 req v resp body Hdo Hbody Hst)
          as (_ & _ & H).
        by apply H.
    + destruct (Send_read_error c0 req v resp err Hdo Hbody) as [H _].
      congruence.
  - destruct (Send_Do_error c0 req v err Hdo) as [H _]. congruence.
Qed.

Lemma Send_nil_quiet c0 req resp body :
  httpClient c0 (http.set_Header (Send_header c0) req) = inl resp ->
  http.ReadAll resp = inl body ->
  200 <= http.StatusCode resp <= 299 ->
  filter is_Unmarshal (trace (Send c0 req AnyNil)) = [].
Proof.
  intros Hdo Hbody Hst. run_send.
  destruct (Debug (c c0)); simpl; rewrite Hdo; simpl; rewrite Hbody; simpl;
    rewrite (inside_2xx_test _ Hst); done.
Qed.

End SendCases.

Module OperationFacts.
Import Bytes json jsonSpec jsonMatches SendFacts SendCases.
Import ClientJson.

#[local] Open Scope list_scope.

Lemma values_Add_comm (k1 k2 v1 v2 : string) (q : gmap string (list string)) :
  k1 <> k2 ->
  values_Add k1 v1 (values_Add k2 v2 q) = values_Add k2 v2 (values_Add k1 v1 q).
Proof.
  intros Hk. unfold values_Add.
  rewrite !lookup_insert_ne by done. by apply insert_insert_ne.
Qed.

Lemma fold_values_Add (q0 : gmap string (list string))
    (query : gmap string string) (k : string) :
  map_fold values_Add q0 query !! k
  = match query !! k with
    | Some value => Some (default [] (q0 !! k) ++ [value])
    | None => q0 !! k
    end.
Proof.
  revert k.
  apply (map_fold_weak_ind
           (fun r m => forall k,
                r !! k = match m !! k with
                         | Some value => Some (default [] (q0 !! k) ++ [value])
                         | None => q0 !! k
                         end)).
  - intros k. by rewrite lookup_empty.
  - intros i x m r Hi IH k. unfold values_Add.
    destruct (decide (k = i)) as [->|Hk].
    + rewrite !lookup_insert_eq. by rewrite IH, Hi.
    + rewrite !lookup_insert_ne by done. apply IH.
Qed.

(** X7: the query [NewRequest] writes is the query of the URL with each
    value of the map added at the end of the values of its key, and it
    does not depend on the order in which the [range] loop visits the
    map. *)
Theorem NewRequest_query
    (url_Parse : string -> http.URL + error)
    (url_Query : http.URL -> gmap string (list string))
    (values_Encode : gmap string (list string) -> string)
    (c0 : Client) (method url : string) (payload : any)
    (query : gmap string string) (req : http.Request) :
  NewRequest url_Parse url_Query values_Encode c0 method url payload query
  = inl req ->
  exists u q,
    url_Parse url = inl u
    /\ http.Url req
       = {| http.Location := http.Location u;
            http.RawQuery := values_Encode q |}
    /\ (forall k,
         q !! k = match query !! k with
                  | Some value => Some (default [] (url_Query u !! k) ++ [value])
                  | None => url_Query u !! k
                  end)
    /\ (forall l,
         l ≡ₚ map_to_list query ->
         foldr (uncurry values_Add) (url_Query u) l = q).
Proof.
  unfold NewRequest, http_NewRequest.
  destruct (match payload with AnyNil => _ | _ => _ end) as [buf|e]; [|done].
  destruct (negb _); [done|].
  destruct (url_Parse url) as [u|e]; [|done]. intros [= <-].
  exists u, (map_fold values_Add (url_Query u) query).
  split; [done|]. split; [done|]. split; [apply fold_values_Add|].
  intros l Hl. rewrite map_fold_foldr.
  apply (foldr_permutation (=) (uncurry values_Add) (url_Query u) l
           (map_to_list query)); [|exact Hl].
  intros j1 [k1 v1] j2 [k2 v2] b Hj H1 H2. simpl.
  apply values_Add_comm. intros ->. apply Hj.
  assert (Hnd : NoDup (l.*1)).
  { rewrite Hl. apply NoDup_fst_map_to_list. }
  eapply NoDup_lookup; [exact Hnd| |];
    rewrite list_lookup_fmap; [by rewrite H1 | by rewrite H2].
Qed.

Lemma NewRequest_query_witness :
  exists u q,
    parse_any "https://api.rozetkapay.com/api/payments/v1/info" = inl u
    /\ http.Url
         {| http.Method := "GET";
            http.Url :=
              {| http.Location := "https://api.rozetkapay.com/api/payments/v1/info";
                 http.RawQuery := "external_id=order-1" |};
            http.Header := ∅; http.Body := None |}
       = {| http.Location := http.Location u;
            http.RawQuery := encode_external_id q |}
    /\ (forall k,
         q !! k
         = match ({[ "external_id" := "order-1" ]} : gmap string string) !! k with
           | Some value => Some (default [] (no_query u !! k) ++ [value])
           | None => no_query u !! k
           end)
    /\ (forall l,
         l ≡ₚ map_to_list ({[ "external_id" := "order-1" ]} : gmap string string) ->
         foldr (uncurry values_Add) (no_query u) l = q).
Proof.
  apply (NewRequest_query parse_any no_query encode_external_id
           (sample_client false 200 "") http.MethodGet
           "https://api.rozetkapay.com/api/payments/v1/info" AnyNil
           {[ "external_id" := "order-1" ]}).
  reflexivity.
Defined.

(** X8: [ResendPaymentCallback] answers true exactly when the request
    could be built, the HTTP client answered, the body could be read and
    the status is in 200..299; the body is then not decoded.  It never
    answers true together with an error, nor false without one. *)
Theorem ResendPaymentCallback_outcome
    (url_Parse : string -> http.URL + error)
    (url_Query : http.URL -> gmap string (list string))
    (values_Encode : gmap string (list string) -> string)
    (c0 : Client) (schema : option goval) :
  let out :=
    ResendPaymentCallback url_Parse url_Query values_Encode c0 schema in
  (returned out = Returned (true, None)
   <-> exists req resp body,
         NewRequest url_Parse url_Query values_Encode c0 http.MethodPost
           (API (c c0) +:+ "payments/v1/callback/resend")
           (AnyPtr PaymentCallbackResendSchema schema) ∅ = inl req
         /\ httpClient c0 (http.set_Header (Send_header c0) req) = inl resp
         /\ http.ReadAll resp = inl body
         /\ 200 <= http.StatusCode resp <= 299)
  /\ (forall b e, returned out = Returned (b, Some e) -> b = false)
  /\ (forall b, returned out = Returned (b, None) -> b = true)
  /\ (returned out = Returned (true, None) ->
      filter is_Unmarshal (calls out) = []).
Proof.
  intros out. subst out. unfold ResendPaymentCallback.
  destruct (NewRequest _ _ _ _ _ _ _ _) as [req|e0] eqn:Hreq;
    cbn [returned calls].
  - assert (Hinv : result (Send c0 req AnyNil) = Returned None ->
                   exists resp body,
                     httpClient c0 (http.set_Header (Send_header c0) req)
                     = inl resp
                     /\ http.ReadAll resp = inl body
                     /\ 200 <= http.StatusCode resp <= 299)
      by apply Send_None_inv.
    destruct (result (Send c0 req AnyNil)) as [[e|]|msg] eqn:Hres.
    + split; [split; [done|]|by repeat split; intros; simplify_eq].
      intros (req' & resp & body & [= <-] & Hdo & Hbody & Hst).
      destruct (Send_inside c0 req AnyNil resp body Hdo Hbody Hst) as [H _].
      congruence.
    + destruct (Hinv eq_refl) as (resp & body & Hdo & Hbody & Hst).
      split; [split; [intros _; by exists req, resp, body | done]|].
      split; [by intros|]. split; [by intros b [= <-]|].
      intros _. by apply (Send_nil_quiet c0 req resp body).
    + split; [split; [done|]|by repeat split; intros; simplify_eq].
      intros (req' & resp & body & [= <-] & Hdo & Hbody & Hst).
      destruct (Send_inside c0 req AnyNil resp body Hdo Hbody Hst) as [H _].
      congruence.
  - split; [split; [done|by intros (? & ? & ? & ? & _)]|].
    by repeat split; intros; simplify_eq.
Qed.

(** X9: [AddWalletCustomerPayment] returns a response or an error, never
    both and never neither: with an error the response is nil, without
    one it points to an [AddWalletCustomerResponse].  It panics only by
    the nil dereference of [Send], and calls the HTTP client at most
    once. *)
Theorem AddWalletCustomerPayment_outcome
    (url_Parse : string -> http.URL + error)
    (url_Query : http.URL -> gmap string (list string))
    (values_Encode : gmap string (list string) -> string)
    (c0 : Client) (customerID : string) (schema : option goval) :
  let out :=
    AddWalletCustomerPayment url_Parse url_Query values_Encode c0 customerID
      schema in
  (forall r e, returned out = Returned (r, Some e) -> r = VNil)
  /\ (forall r, returned out = Returned (r, None) ->
      exists x, r = VPtr x /\ has_type AddWalletCustomerResponse x = true)
  /\ (forall msg, returned out = Panicked msg -> msg = nil_dereference)
  /\ (length (filter is_Do (calls out)) <= 1)%nat.
Proof.
  intros out. subst out. unfold AddWalletCustomerPayment.
  destruct (NewRequest _ _ _ _ _ _ _ _) as [req|e0] eqn:Hreq;
    cbn [returned calls];
    [|repeat split; intros; simplify_eq; done || (simpl; lia)].
  set (v := AnyPtr AddWalletCustomerResponse
              (Some (zero AddWalletCustomerResponse))).
  rewrite Send_Do_calls.
  pose proof (Send_panic_inv c0 req v) as Hpanic.
  pose proof (Send_None_inv c0 req v) as Hnone.
  destruct (result (Send c0 req v)) as [[e|]|msg] eqn:Hres.
  - repeat split; intros; simplify_eq; done || (simpl; lia).
  - destruct (Hnone eq_refl) as (resp & body & Hdo & Hbody & Hst).
    destruct (Send_inside c0 req v resp body Hdo Hbody Hst) as [_ Hv].
    destruct (Unmarshal_typed body AddWalletCustomerResponse
                (zero AddWalletCustomerResponse) eq_refl) as (x & Hx & Hty).
    rewrite Hv. subst v. cbv iota beta. rewrite Hx.
    split; [by intros|]. split; [intros r [= <-]; by exists x|].
    split; [by intros|]. simpl. lia.
  - split; [by intros|]. split; [by intros|].
    split; [intros m [= <-]; by apply Hpanic|]. simpl. lia.
Qed.

(** X10: when the gateway answers the request of
    [DeleteWalletCustomerPayment] with a status in 200..299 and the JSON
    text of a [DeleteWalletCustomerResponse], the operation returns a
    pointer to that response, and no error. *)
Theorem DeleteWalletCustomerPayment_reads_response
    (url_Parse : string -> http.URL + error)
    (url_Query : http.URL -> gmap string (list string))
    (values_Encode : gmap string (list string) -> string)
    (c0 : Client) (customerID : string) (schema : option goval)
    (req : http.Request) (resp : http.Response) (body : string) (r : goval) :
  NewRequest url_Parse url_Query values_Encode c0 http.MethodDelete
    (API (c c0) +:+ "customers/v1/wallet")
    (AnyPtr DeleteWalletCustomerSchema schema)
    {[ "external_id" := customerID ]} = inl req ->
  httpClient c0 (http.set_Header (Send_header c0) req) = inl resp ->
  200 <= http.StatusCode resp <= 299 ->
  http.ReadAll resp = inl body ->
  value_ok DeleteWalletCustomerResponse r = true ->
  Marshal (AnyVal DeleteWalletCustomerResponse r) = inl body ->
  returned (DeleteWalletCustomerPayment url_Parse url_Query values_Encode c0
              customerID schema)
  = Returned (VPtr r, None).
Proof.
  intros Hreq Hdo Hst Hbody Hr HM.
  unfold DeleteWalletCustomerPayment. rewrite Hreq. cbn [returned].
  destruct (Unmarshal_Marshal DeleteWalletCustomerResponse r)
    as (text & HM' & _ & HU); [done|by vm_compute|done|].
  rewrite HM in HM'. injection HM' as <-.
  destruct (Send_inside c0 req
              (AnyPtr DeleteWalletCustomerResponse
                 (Some (zero DeleteWalletCustomerResponse)))
              resp body Hdo Hbody Hst) as [Hres Hv].
  rewrite Hres, Hv. cbv iota beta. by rewrite HU.
Qed.

Lemma DeleteWalletCustomerPayment_reads_response_witness :
  200 <= 200 <= 299
  /\ value_ok DeleteWalletCustomerResponse sample_deleted = true
  /\ returned (DeleteWalletCustomerPayment parse_any no_query
                 encode_external_id
                 (sample_client false 200 sample_deleted_body) "customer-1"
                 (Some sample_delete))
     = Returned (VPtr sample_deleted, None).
Proof.
  split; [lia|]. split; [reflexivity|].
  eapply (DeleteWalletCustomerPayment_reads_response parse_any no_query
            encode_external_id (sample_client false 200 sample_deleted_body)
            "customer-1" (Some sample_delete) _
            {| http.StatusCode := 200;
               http.ReadAll := inl sample_deleted_body |}
            sample_deleted_body sample_deleted);
    [vm_compute; reflexivity | reflexivity | simpl; lia | reflexivity
    | reflexivity | vm_compute; reflexivity].
Defined.

(** X11: the request [DeleteWalletCustomerPayment] hands the HTTP client:
    the method is DELETE, the body is the JSON text of the schema, the
    header is the one [Send] writes, and the query is that of the URL with
    the customer added as the last value of [external_id]. *)
Theorem DeleteWalletCustomerPayment_request
    (url_Parse : string -> http.URL + error)
    (url_Query : http.URL -> gmap string (list string))
    (values_Encode : gmap string (list string) -> string)
    (c0 : Client) (customerID : string) (schema : option goval)
    (u : http.URL) (text : string) :
  url_Parse (API (c c0) +:+ "customers/v1/wallet") = inl u ->
  Marshal (AnyPtr DeleteWalletCustomerSchema schema) = inl text ->
  filter is_Do
    (calls (DeleteWalletCustomerPayment url_Parse url_Query values_Encode c0
              customerID schema))
  = [EvDo {| http.Method := "DELETE";
             http.Url :=
               {| http.Location := http.Location u;
                  http.RawQuery :=
                    values_Encode
                      (<["external_id" :=
                           default [] (url_Query u !! "external_id")
                           ++ [customerID]]> (url_Query u)) |};
             http.Header :=
               {[ "Content-type" := ["application/json"];
                  "Authorization" := ["Basic " +:+ BasicAuth (c c0)] ]};
             http.Body := Some text |}].
Proof.
  intros Hu HM. unfold DeleteWalletCustomerPayment, NewRequest, http_NewRequest.
  rewrite HM. change (http.validMethod _) with true. cbn [negb].
  cbv iota. rewrite Hu. cbv iota beta. cbn [calls].
  rewrite Send_Do_calls. rewrite map_fold_singleton. reflexivity.
Qed.

Lemma DeleteWalletCustomerPayment_request_witness :
  filter is_Do
    (calls (DeleteWalletCustomerPayment parse_any no_query encode_external_id
              (sample_client false 200 sample_deleted_body) "customer-1"
              (Some sample_delete)))
  = [EvDo {| http.Method := "DELETE";
             http.Url :=
               {| http.Location :=
                    http.Location
                      {| http.Location :=
                           "https://api.rozetkapay.com/api/customers/v1/wallet";
                         http.RawQuery := "" |};
                  http.RawQuery :=
                    encode_external_id
                      (<["external_id" :=
                           default []
                             (no_query
                                {| http.Location :=
                                     "https://api.rozetkapay.com/api/customers/v1/wallet";
                                   http.RawQuery := "" |} !! "external_id")
                           ++ ["customer-1"]]>
                         (no_query
                            {| http.Location :=
                                 "https://api.rozetkapay.com/api/customers/v1/wallet";
                               http.RawQuery := "" |})) |};
             http.Header :=
               {[ "Content-type" := ["application/json"];
                  "Authorization" :=
                    ["Basic "
                     +:+ BasicAuth
                           (c (sample_client false 200 sample_deleted_body))] ]};
             http.Body := Some (Bytes.q "{'option_id':'opt_7','type':'wallet'}") |}].
Proof.
  apply (DeleteWalletCustomerPayment_request parse_any no_query
           encode_external_id (sample_client false 200 sample_deleted_body)
           "customer-1" (Some sample_delete)
           {| http.Location :=
                "https://api.rozetkapay.com/api/customers/v1/wallet";
              http.RawQuery := "" |}
           (Bytes.q "{'option_id':'opt_7','type':'wallet'}"));
    [reflexivity | vm_compute; reflexivity].
Defined.

(** X12: a schema pointer that is nil is not the nil payload: [NewRequest]
    sends the body [null] for it, and no body only when the payload itself
    is nil. *)
Theorem NewRequest_nil_schema
    (url_Parse : string -> http.URL + error)
    (url_Query : http.URL -> gmap string (list string))
    (values_Encode : gmap string (list string) -> string)
    (c0 : Client) (method url : string) (u : http.URL)
    (query : gmap string string) (t : gotype) :
  http.validMethod method = true ->
  url_Parse url = inl u ->
  (exists req,
      NewRequest url_Parse url_Query values_Encode c0 method url
        (AnyPtr t None) query = inl req
      /\ http.Body req = Some "null")
  /\ (exists req,
         NewRequest url_Parse url_Query values_Encode c0 method url
           AnyNil query = inl req
         /\ http.Body req = None).
Proof.
  intros Hm Hu. unfold NewRequest, http_NewRequest. cbn [Marshal].
  assert ((String.length method =? 0)%nat = false) as ->
    by (by destruct method).
  rewrite Hm, Hu. cbn [negb]. split; eexists; split; reflexivity.
Qed.

Lemma NewRequest_nil_schema_witness :
  (exists req,
      NewRequest parse_any no_query encode_external_id
        (sample_client false 200 "") "POST"
        "https://api.rozetkapay.com/api/payments/v1/callback/resend"
        (AnyPtr PaymentCallbackResendSchema None) ∅ = inl req
      /\ http.Body req = Some "null")
  /\ (exists req,
         NewRequest parse_any no_query encode_external_id
           (sample_client false 200 "") "POST"
           "https://api.rozetkapay.com/api/payments/v1/callback/resend"
           AnyNil ∅ = inl req
         /\ http.Body req = None).
Proof.
  apply (NewRequest_nil_schema parse_any no_query encode_external_id
           (sample_client false 200 "") "POST"
           "https://api.rozetkapay.com/api/payments/v1/callback/resend"
           {| http.Location :=
                "https://api.rozetkapay.com/api/payments/v1/callback/resend";
              http.RawQuery := "" |} ∅ PaymentCallbackResendSchema);
    reflexivity.
Defined.

(** X13: [NewRequest] fails exactly when the payload has no JSON text,
    when the method is no token, or when the URL does not parse, in this
    order; the error of the encoder and that of the URL parser are returned
    as they are.  When it succeeds the request carries no header. *)
Theorem NewRequest_fails_iff
    (url_Parse : string -> http.URL + error)
    (url_Query : http.URL -> gmap string (list string))
    (values_Encode : gmap string (list string) -> string)
    (c0 : Client) (method url : string) (payload : any)
    (query : gmap string string) :
  let answer :=
    NewRequest url_Parse url_Query values_Encode c0 method url payload query in
  let marshals := payload = AnyNil \/ exists b, Marshal payload = inl b in
  let token :=
    http.validMethod (if (String.length method =? 0)%nat then "GET" else method) in
  ((exists e, answer = inr e)
   <-> (~ marshals \/ token = false \/ exists e, url_Parse url = inr e))
  /\ (forall e, payload <> AnyNil -> Marshal payload = inr e -> answer = inr e)
  /\ (forall e, marshals -> token = true -> url_Parse url = inr e ->
      answer = inr e)
  /\ (forall req, answer = inl req -> http.Header req = ∅).
Proof.
  intros answer marshals token. subst answer marshals token.
  unfold NewRequest, http_NewRequest.
  destruct payload as [|t o|t x]; cbn [Marshal].
  - destruct (http.validMethod _) eqn:Hm; cbn [negb];
      destruct (url_Parse url) as [u|e'] eqn:Hu; simpl.
    + split; [split; [by intros [? ?]|]|].
      { intros [H|[H|[e H]]]; [exfalso; apply H; by left|done|done]. }
      split; [done|]. split; [by intros|]. by intros req [= <-].
    + split; [split; [intros _; right; right; by exists e'|by eexists]|].
      split; [done|]. split; [by intros e _ _ [= <-]|done].
    + split; [split; [intros _; right; by left|by eexists]|].
      split; [done|]. split; [done|done].
    + split; [split; [intros _; right; by left|by eexists]|].
      split; [done|]. split; [done|done].
  - destruct o as [x|].
    + destruct (encode t x) as [j|e0] eqn:He.
      * destruct (http.validMethod _) eqn:Hm; cbn [negb];
          destruct (url_Parse url) as [u|e'] eqn:Hu; simpl.
        -- split; [split; [by intros [? ?]|]|].
           { intros [H|[H|[e H]]]; [|done|done].
             exfalso. apply H. right. by eexists. }
           split; [done|]. split; [by intros|]. by intros req [= <-].
        -- split; [split; [intros _; right; right; by exists e'|by eexists]|].
           split; [done|]. split; [by intros e _ _ [= <-]|done].
        -- split; [split; [intros _; right; by left|by eexists]|].
           split; [done|]. split; [done|done].
        -- split; [split; [intros _; right; by left|by eexists]|].
           split; [done|]. split; [done|done].
      * split; [split; [|by eexists]|].
        { intros _. left. intros [H|[b H]]; done. }
        split; [by intros e _ [= <-]|].
        split; [|done]. intros e [H|[b H]]; done.
    + destruct (http.validMethod _) eqn:Hm; cbn [negb];
        destruct (url_Parse url) as [u|e'] eqn:Hu; simpl.
      * split; [split; [by intros [? ?]|]|].
        { intros [H|[H|[e H]]]; [|done|done].
          exfalso. apply H. right. by eexists. }
        split; [done|]. split; [by intros|]. by intros req [= <-].
      * split; [split; [intros _; right; right; by exists e'|by eexists]|].
        split; [done|]. split; [by intros e _ _ [= <-]|done].
      * split; [split; [intros _; right; by left|by eexists]|].
        split; [done|]. split; [done|done].
      * split; [split; [intros _; right; by left|by eexists]|].
        split; [done|]. split; [done|done].
  - destruct (encode t x) as [j|e0] eqn:He.
    + destruct (http.validMethod _) eqn:Hm; cbn [negb];
        destruct (url_Parse url) as [u|e'] eqn:Hu; simpl.
      * split; [split; [by intros [? ?]|]|].
        { intros [H|[H|[e H]]]; [|done|done].
          exfalso. apply H. right. by eexists. }
        split; [done|]. split; [by intros|]. by intros req [= <-].
      * split; [split; [intros _; right; right; by exists e'|by eexists]|].
        split; [done|]. split; [by intros e _ _ [= <-]|done].
      * split; [split; [intros _; right; by left|by eexists]|].
        split; [done|]. split; [done|done].
      * split; [split; [intros _; right; by left|by eexists]|].
        split; [done|]. split; [done|done].
    + split; [split; [|by eexists]|].
      { intros _. left. intros [H|[b H]]; done. }
      split; [by intros e _ [= <-]|].
      split; [|done]. intros e [H|[b H]]; done.
Qed.

End OperationFacts.
(** * The configuration, the client and the texts they write *)

Module base64More.
Import Bytes base64 base64Spec base64Reading base64Facts BytesFacts.

#[local] Open Scope list_scope.

Lemma number_of_encode (i : Z) :
  0 <= i < 64 ->
  number_of (encode i) = Some i /\ Ascii.eqb (encode i) "=" = false.
Proof.
  intros Hi. rewrite <- (Z2Nat.id i) by lia.
  assert (Hn : (Z.to_nat i < 64)%nat) by lia.
  generalize dependent (Z.to_nat i). clear Hi. intros n Hn.
  do 64 (destruct n as [|n]; [by vm_compute|]). lia.
Qed.

Lemma encode_is_base64 (i : Z) : is_base64 (encode i) = true.
Proof.
  unfold encode. generalize (Z.to_nat i). intros n.
  do 64 (destruct n as [|n]; [reflexivity|]). reflexivity.
Qed.

(** The numbers of a block are below 64 and give the bytes back. *)
Lemma block_back (x0 x1 x2 : Z) :
  0 <= x0 < 256 -> 0 <= x1 < 256 -> 0 <= x2 < 256 ->
  let s0 := x0 / 4 in
  let s1 := x0 mod 4 * 16 + x1 / 16 in
  let s2 := x1 mod 16 * 4 + x2 / 64 in
  let s3 := x2 mod 64 in
  (0 <= s0 < 64 /\ 0 <= s1 < 64 /\ 0 <= s2 < 64 /\ 0 <= s3 < 64)
  /\ s0 * 4 + s1 / 16 = x0
  /\ s1 mod 16 * 16 + s2 / 4 = x1
  /\ s2 mod 4 * 64 + s3 = x2.
Proof.
  intros H0 H1 H2. cbv zeta. repeat split; Z.div_mod_to_equations; lia.
Qed.

(** Reading the text [EncodeToString] writes gives the input back. *)
Lemma decoding_EncodeToString (src : string) :
  decoding (EncodeToString src) = Some src.
Proof.
  induction src as [|s0|s0 s1|s0 s1 s2 r IH] using string_ind3.
  - reflexivity.
  - pose proof (block_sextets (val s0) 0 0 (val_range s0)
                  ltac:(lia) ltac:(lia)) as (E0 & E1 & _).
    cbv zeta in E0, E1.
    change (Z.shiftl 0 8) with 0 in E0, E1. rewrite !Z.lor_0_r in E0, E1.
    pose proof (block_back (val s0) 0 0 (val_range s0) ltac:(lia) ltac:(lia))
      as ((R0 & R1 & _) & B0 & _).
    cbv zeta in R0, R1, B0.
    cbn [EncodeToString]. cbv zeta. rewrite E0, E1.
    cbn [decoding].
    destruct (number_of_encode _ R0) as [-> _].
    destruct (number_of_encode _ R1) as [-> _].
    cbv zeta. unfold StdPadding. rewrite B0, of_val_val. reflexivity.
  - pose proof (block_sextets (val s0) (val s1) 0 (val_range s0)
                  (val_range s1) ltac:(lia)) as (E0 & E1 & E2 & _).
    cbv zeta in E0, E1, E2. rewrite !Z.lor_0_r in E0, E1, E2.
    pose proof (block_back (val s0) (val s1) 0 (val_range s0) (val_range s1)
                  ltac:(lia)) as ((R0 & R1 & R2 & _) & B0 & B1 & _).
    cbv zeta in R0, R1, R2, B0, B1.
    cbn [EncodeToString]. cbv zeta. rewrite E0, E1, E2.
    cbn [decoding].
    destruct (number_of_encode _ R0) as [-> _].
    destruct (number_of_encode _ R1) as [-> _].
    destruct (number_of_encode _ R2) as [-> ->].
    cbv zeta. unfold StdPadding. rewrite B0, B1, !of_val_val. reflexivity.
  - pose proof (block_sextets (val s0) (val s1) (val s2) (val_range s0)
                  (val_range s1) (val_range s2)) as (E0 & E1 & E2 & E3).
    cbv zeta in E0, E1, E2, E3.
    pose proof (block_back (val s0) (val s1) (val s2) (val_range s0)
                  (val_range s1) (val_range s2))
      as ((R0 & R1 & R2 & R3) & B0 & B1 & B2).
    cbv zeta in R0, R1, R2, R3, B0, B1, B2.
    cbn [EncodeToString]. cbv zeta. rewrite E0, E1, E2, E3.
    cbn [decoding].
    destruct (number_of_encode _ R0) as [-> _].
    destruct (number_of_encode _ R1) as [-> _].
    destruct (number_of_encode _ R2) as [-> ->].
    destruct (number_of_encode _ R3) as [-> ->].
    cbv zeta. rewrite IH, B0, B1, B2, !of_val_val. reflexivity.
Qed.

Lemma EncodeToString_alphabet (src : string) :
  all is_base64 (EncodeToString src) = true.
Proof.
  induction src as [|s0|s0 s1|s0 s1 s2 r IH] using string_ind3;
    cbn [EncodeToString all]; cbv zeta;
    rewrite ?encode_is_base64, ?IH; reflexivity.
Qed.

Lemma EncodeToString_length (src : string) :
  String.length (EncodeToString src)
  = (4 * ((String.length src + 2) / 3))%nat.
Proof.
  induction src as [|s0|s0 s1|s0 s1 s2 r IH] using string_ind3;
    try reflexivity.
  cbn [EncodeToString String.length]. cbv zeta. cbn [String.length].
  rewrite IH.
  replace (S (S (S (String.length r))) + 2)%nat
    with (1 * 3 + (String.length r + 2))%nat by lia.
  rewrite Nat.div_add_l by lia. lia.
Qed.

(** X14: the token [NewConfig] keeps reads back as login, colon, password;
    so two pairs of credentials get the same token exactly when these
    texts agree, which pairs that differ can do when a login holds a
    colon. *)
Theorem NewConfig_credentials (login password login' password' : string) :
  decoding (BasicAuth (NewConfig login password))
  = Some (login +:+ ":" +:+ password)
  /\ (BasicAuth (NewConfig login password)
      = BasicAuth (NewConfig login' password')
      <-> login +:+ ":" +:+ password = login' +:+ ":" +:+ password')
  /\ BasicAuth (NewConfig "a:b" "c") = BasicAuth (NewConfig "a" "b:c").
Proof.
  cbn [NewConfig BasicAuth]. split; [apply decoding_EncodeToString|].
  split; [|reflexivity]. split; [|by intros ->].
  intros H.
  assert (H' : decoding (EncodeToString (login +:+ ":" +:+ password))
               = decoding (EncodeToString (login' +:+ ":" +:+ password')))
    by (by rewrite H).
  rewrite !decoding_EncodeToString in H'. by injection H'.
Qed.

(** X15: the token of [NewConfig] is made of letters, digits, plus, slash
    and the equal sign only, whatever the credentials hold, and it is four
    characters long for every three bytes of login, colon, password,
    rounded up. *)
Theorem BasicAuth_shape (login password : string) :
  all is_base64 (BasicAuth (NewConfig login password)) = true
  /\ String.length (BasicAuth (NewConfig login password))
     = (4 * ((String.length login + 1 + String.length password + 2) / 3))%nat
  /\ all is_base64 (BasicAuth NewDevelopmentConfig) = true.
Proof.
  cbn [NewConfig BasicAuth]. split; [apply EncodeToString_alphabet|].
  split; [|reflexivity].
  rewrite EncodeToString_length, !slength_app. cbn [String.length].
  do 3 f_equal. lia.
Qed.

End base64More.

Module ClientMore.
Import Bytes json jsonSpec jsonTyped jsonMatches.

#[local] Open Scope list_scope.

Lemma last_cons {A} (l : list A) (a d d' : A) :
  List.last (a :: l) d = List.last (a :: l) d'.
Proof.
  revert a. induction l as [|b l IH]; intros a; [done|].
  change (List.last (b :: l) d = List.last (b :: l) d'). apply IH.
Qed.

Lemma fold_options (hs : list (http.Request -> http.Response + error))
    (m : Client) :
  fold_left (fun m opt => opt m) (map WithCustomHTTPClient hs) m
  = {| c := c m; httpClient := List.last hs (httpClient m) |}.
Proof.
  revert m. induction hs as [|h hs IH]; intros m; [by destruct m|].
  cbn [map fold_left]. rewrite IH. unfold WithCustomHTTPClient. simpl c.
  f_equal. simpl httpClient. destruct hs as [|a l]; [done|].
  change (List.last (a :: l) h = List.last (a :: l) (httpClient m)).
  apply last_cons.
Qed.

(** X16: [NewClient] keeps the configuration it is given; of several
    [WithCustomHTTPClient] options the last one decides the HTTP client,
    and with none it is the default client. *)
Theorem NewClient_options (config : Config)
    (DefaultClient : http.Request -> http.Response + error)
    (hs : list (http.Request -> http.Response + error)) :
  NewClient config DefaultClient (map WithCustomHTTPClient hs)
  = {| c := config; httpClient := List.last hs DefaultClient |}
  /\ NewClient config DefaultClient [] = {| c := config; httpClient := DefaultClient |}
  /\ forall h,
      httpClient (NewClient config DefaultClient
                    (map WithCustomHTTPClient (hs ++ [h]))) = h.
Proof.
  unfold NewClient. split; [by rewrite fold_options|]. split; [done|].
  intros h. rewrite fold_options. simpl. apply List.last_last.
Qed.

(** X17: [GetPaymentCallbackFromBytes] returns neither a response nor an
    error exactly for the bodies that are the JSON text [null]; for every
    other body it returns a response that is not nil, or an error. *)
Theorem callback_nil_iff (c0 : Client) (body : string) :
  GetPaymentCallbackFromBytes c0 body = (VNil, None)
  <-> parse body = Some Null.
Proof.
  unfold GetPaymentCallbackFromBytes, Unmarshal.
  destruct (parse body) as [j|]; [|split; done].
  assert (Hj : j = Null \/ j <> Null) by (destruct j; auto).
  destruct Hj as [->|Hj]; [done|].
  rewrite decode_pointer by done.
  destruct (decode j PaymentResponse (zero PaymentResponse)) as [x st].
  destruct st; simpl; split; intros H; by simplify_eq.
Qed.

End ClientMore.
(** * The texts the encoder writes *)

Module MarshalFacts.
Import Bytes json time jsonSpec BytesFacts jsonStrings jsonStrings2 jsonTexts
  timeFacts jsonTyped jsonMatches.

#[local] Open Scope list_scope.

Lemma appendInt_plain (x : Z) (w : nat) : all plain (appendInt x w) = true.
Proof.
  unfold appendInt. cbv zeta. rewrite !all_app.
  rewrite (digits_plain (time.zeros _) (all_zeros _)).
  rewrite (digits_plain _ (digits_all _ _ (Z.abs_nonneg x))).
  by destruct (x <? 0).
Qed.

Lemma appendNano_plain (ns : Z) : all plain (appendNano ns) = true.
Proof.
  unfold appendNano. destruct (ns =? 0); [done|].
  change (all plain ("." +:+ trim_zeros (appendInt ns 9)))
    with (plain "." && all plain (trim_zeros (appendInt ns 9))).
  pose proof (appendInt_plain ns 9) as H.
  destruct (trim_zeros_split (appendInt ns 9)) as [m Hm].
  rewrite Hm, all_app in H. by apply andb_true_iff in H as [-> _].
Qed.

(** Every RFC 3339 text [time.Time] writes is made of bytes that stand
    for themselves in a JSON string. *)
Lemma appendFormatRFC3339_plain (tm : Time) :
  all plain (appendFormatRFC3339 tm) = true.
Proof.
  unfold appendFormatRFC3339.
  rewrite !all_app, !appendInt_plain, appendNano_plain.
  destruct (offset tm =? 0); [done|]. cbv zeta.
  rewrite !all_app, !appendInt_plain. by destruct (_ <? 0).
Qed.

Lemma MarshalJSON_compact (tm : Time) (text : string) :
  MarshalJSON tm = inl text ->
  exists b, compact text = inl (Str b) /\ valid_literal b = true.
Proof.
  unfold MarshalJSON, appendStrictRFC3339. cbv zeta.
  pose proof (appendFormatRFC3339_plain tm) as Hp.
  set (b := appendFormatRFC3339 tm) in *.
  destruct (negb _); [done|]. destruct (_ && _); [done|].
  intros [= <-]. exists b.
  assert (Hv : valid_literal b = true).
  { unfold valid_literal. by rewrite (plain_literal _ Hp). }
  split; [|done]. unfold compact.
  change (String dquote (b +:+ String dquote "")) with (render (Str b)).
  by rewrite parse_render_canonical.
Qed.

Lemma encode_members_canonical (fs : list field) :
  Forall (fun f => forall v j, encode (ftype f) v = inl j ->
                    canonical j = true /\ height j <= theight (ftype f)) fs ->
  forall vs m, encode_members fs vs = inl m ->
    mcanonical m = true /\ mheight m <= fheight fs.
Proof.
  induction 1 as [|f fs Hf _ IH]; intros vs m.
  - destruct vs; [|done]. by intros [= <-].
  - destruct vs as [|x vs]; [done|]. cbn [encode_members].
    pose proof (theight_nonneg (ftype f)) as Hnn.
    destruct (fomit f && isEmptyValue x).
    + intros H. apply IH in H as [Hc Hh]. split; [done|].
      unfold fheight in *. simpl. lia.
    + destruct (encode (ftype f) x) as [j|] eqn:Ej; [|done].
      destruct (encode_members fs vs) as [m'|] eqn:Em; [|done].
      intros [= <-]. destruct (Hf _ _ Ej) as [Hcj Hhj].
      destruct (IH _ _ Em) as [Hc Hh]. split.
      * unfold mcanonical in *. simpl.
        by rewrite appendString_valid_literal, Hcj, Hc.
      * unfold mheight, fheight in *. simpl. lia.
Qed.

(** Whatever the encoder writes for a value is a tree that reads back
    from its text. *)
Lemma encode_canonical (t : gotype) :
  forall v j, encode t v = inl j ->
    canonical j = true /\ height j <= theight t.
Proof.
  induction t as [name| | |name fs IH|t IH] using gotype_ind'; intros v j.
  - destruct v; try done. intros [= <-]. simpl.
    by rewrite appendString_valid_literal.
  - destruct v; try done. by intros [= <-].
  - destruct v as [| |tm| | |]; try done. cbn [encode].
    destruct (MarshalJSON tm) as [text|] eqn:Et; [|done].
    destruct (MarshalJSON_compact tm text Et) as (b & -> & Hb).
    intros [= <-]. by simpl.
  - destruct v as [| | |vs| |]; try done. rewrite encode_struct.
    destruct (encode_members fs vs) as [m|] eqn:Em; [|done].
    intros [= <-]. destruct (encode_members_canonical fs IH vs m Em) as [Hc Hh].
    split; [exact Hc|]. simpl. fold (mheight m). fold (fheight fs). lia.
  - destruct v as [| | | | |x]; try done; cbn [encode].
    + intros [= <-]. split; [done|]. simpl. apply theight_nonneg.
    + intros H. apply IH in H. by simpl.
Qed.

Lemma encode_members_timeless (fs : list field) :
  Forall (fun f => timeless (ftype f) = true ->
                   forall v, has_type (ftype f) v = true ->
                             exists j, encode (ftype f) v = inl j) fs ->
  forallb (fun f => timeless (ftype f)) fs = true ->
  forall vs, has_types fs vs = true -> exists m, encode_members fs vs = inl m.
Proof.
  induction 1 as [|f fs Hf _ IH]; intros Ht vs Hvs.
  - destruct vs; [|done]. by exists [].
  - destruct vs as [|x vs]; [done|]. simpl in Ht, Hvs.
    apply andb_true_iff in Ht as [Htf Ht].
    apply andb_true_iff in Hvs as [Hx Hvs].
    destruct (IH Ht vs Hvs) as [m Hm]. destruct (Hf Htf x Hx) as [j Hj].
    cbn [encode_members]. rewrite Hj, Hm.
    destruct (fomit f && isEmptyValue x); by eexists.
Qed.

(** A value of a type that holds no timestamp always has a JSON text. *)
Lemma encode_timeless (t : gotype) :
  timeless t = true ->
  forall v, has_type t v = true -> exists j, encode t v = inl j.
Proof.
  induction t as [name| | |name fs IH|t IH] using gotype_ind';
    intros Ht v Hv.
  - destruct v; try done. by eexists.
  - destruct v; try done. by eexists.
  - done.
  - destruct v as [| | |vs| |]; try done. rewrite encode_struct.
    rewrite has_type_struct in Hv. simpl in Ht.
    destruct (encode_members_timeless fs IH Ht vs Hv) as [m ->]. by eexists.
  - destruct v as [| | | | |x]; try done; cbn [encode]; [by eexists|].
    by apply IH.
Qed.

(** X18: the body [NewRequest] gives a request is a JSON text, whatever
    the payload holds: strings that are not UTF-8 and timestamps included,
    it never writes a text its own parser refuses. *)
Theorem NewRequest_body_is_JSON
    (url_Parse : string -> http.URL + error)
    (url_Query : http.URL -> gmap string (list string))
    (values_Encode : gmap string (list string) -> string)
    (c0 : Client) (method url : string) (t : gotype) (target : option goval)
    (query : gmap string string) (req : http.Request) :
  theight t <= maxNestingDepth ->
  NewRequest url_Parse url_Query values_Encode c0 method url
    (AnyPtr t target) query = inl req ->
  exists text j,
    http.Body req = Some text /\ parse text = Some j /\ render j = text.
Proof.
  intros Hh. unfold NewRequest, http_NewRequest. cbn [Marshal].
  destruct target as [x|].
  - destruct (encode t x) as [j|] eqn:Ej; [|done].
    destruct (encode_canonical t x j Ej) as [Hc Hhj].
    destruct (negb _); [done|]. destruct (url_Parse url); [|done].
    intros [= <-]. exists (render j), j. split; [done|]. split; [|done].
    apply parse_render_canonical; [done|lia].
  - destruct (negb _); [done|]. destruct (url_Parse url); [|done].
    intros [= <-]. by exists "null", Null.
Qed.

Lemma NewRequest_body_is_JSON_witness :
  exists text j,
    http.Body
      {| http.Method := "POST";
         http.Url := {| http.Location := "u"; http.RawQuery := "" |};
         http.Header := ∅;
         http.Body :=
           Some (Bytes.q "{'code':'\ufffd','message':'','param':'','payment_id':'','type':''}") |}
    = Some text
    /\ parse text = Some j /\ render j = text.
Proof.
  apply (NewRequest_body_is_JSON parse_any no_query encode_none
           (sample_client false 200 "") "POST" "u" ErrorResponse
           (Some (error_with_code (String (Bytes.of_val 255) ""))) ∅).
  - vm_compute. discriminate.
  - vm_compute. reflexivity.
Defined.

(** X19: a request schema that holds no timestamp always has a JSON text;
    so [NewRequest] fails for the schemas of [ResendPaymentCallback],
    [AddWalletCustomerPayment] and [DeleteWalletCustomerPayment] only when
    the URL does not parse. *)
Theorem NewRequest_encodes_timeless
    (url_Parse : string -> http.URL + error)
    (url_Query : http.URL -> gmap string (list string))
    (values_Encode : gmap string (list string) -> string)
    (c0 : Client) (method url : string) (u : http.URL) (t : gotype)
    (schema : option goval) (query : gmap string string) :
  timeless t = true ->
  (forall x, schema = Some x -> has_type t x = true) ->
  http.validMethod method = true ->
  url_Parse url = inl u ->
  (exists req,
      NewRequest url_Parse url_Query values_Encode c0 method url
        (AnyPtr t schema) query = inl req)
  /\ forallb timeless
       [PaymentCallbackResendSchema; AddWalletCustomerSchema;
        DeleteWalletCustomerSchema] = true.
Proof.
  intros Ht Hx Hm Hu. split; [|reflexivity].
  unfold NewRequest, http_NewRequest. cbn [Marshal].
  assert ((String.length method =? 0)%nat = false) as ->
    by (by destruct method).
  destruct schema as [x|].
  - destruct (encode_timeless t Ht x (Hx x eq_refl)) as [j ->].
    rewrite Hm, Hu. by eexists.
  - rewrite Hm, Hu. by eexists.
Qed.

Lemma NewRequest_encodes_timeless_witness :
  (exists req,
      NewRequest parse_any no_query encode_external_id
        (sample_client false 200 "") "DELETE"
        "https://api.rozetkapay.com/api/customers/v1/wallet"
        (AnyPtr DeleteWalletCustomerSchema (Some sample_delete))
        {[ "external_id" := "customer-1" ]} = inl req)
  /\ forallb timeless
       [PaymentCallbackResendSchema; AddWalletCustomerSchema;
        DeleteWalletCustomerSchema] = true.
Proof.
  apply (NewRequest_encodes_timeless parse_any no_query encode_external_id
           (sample_client false 200 "") "DELETE"
           "https://api.rozetkapay.com/api/customers/v1/wallet"
           {| http.Location :=
                "https://api.rozetkapay.com/api/customers/v1/wallet";
              http.RawQuery := "" |}
           DeleteWalletCustomerSchema (Some sample_delete)
           {[ "external_id" := "customer-1" ]});
    [reflexivity | by intros x [= <-] | reflexivity | reflexivity].
Defined.

(** X20: none of the 107 status codes the sources name holds a percent
    sign, so for each of them the error [ErrorCode] makes reads as the code
    itself; and the codes are pairwise different, so the text tells them
    apart. *)
Theorem known_codes_plain :
  Forall (fun code => contains "%" code = false
                      /\ Error (fmt.Errorf code) = code) knownStatusCodes
  /\ NoDup knownStatusCodes
  /\ length knownStatusCodes = 107%nat.
Proof.
  split; [|split; [|reflexivity]].
  - apply Forall_forall. intros code Hin.
    assert (Hc : contains "%" code = false).
    { assert (H : forallb (fun code => negb (contains "%" code))
                    knownStatusCodes = true) by (vm_compute; reflexivity).
      rewrite forallb_forall in H. apply negb_true_iff, H.
      by apply list_elem_of_In. }
    split; [exact Hc|]. simpl. by apply fmtFacts.doPrintf_plain.
  - apply (bool_decide_unpack (NoDup knownStatusCodes)).
    vm_compute. exact I.
Qed.

End MarshalFacts.
(** * More about the callback parser and the errors of the gateway *)

Module CallbackMore.
Import Bytes json jsonSpec BytesFacts jsonStrings jsonStrings2 jsonTexts
  jsonTyped jsonMatches SendFacts.

#[local] Open Scope list_scope.

(** X24: the callback parser takes the name of a member without regard to
    the case of its letters: a member whose key folds to [ID] is stored as
    the ID of the response, however it is spelled. *)
Theorem callback_key_case (c0 : Client) (key s : string) :
  foldName key = "ID" ->
  utf8.ValidString key = true ->
  utf8.ValidString s = true ->
  GetPaymentCallbackFromBytes c0
    (render (Object [(appendString key, Str (appendString s))]))
  = (VPtr (set_field PaymentResponse "ID" (VString s) (zero PaymentResponse)),
     None).
Proof.
  intros Hfold Hkey Hs.
  unfold GetPaymentCallbackFromBytes, Unmarshal.
  rewrite parse_render_canonical;
    [|simpl; by rewrite !appendString_valid_literal|by vm_compute].
  rewrite decode_pointer by done.
  unfold PaymentResponse at 1 2. cbn [zero]. rewrite decode_struct.
  assert (Hfind : find_field key
                    [fld "ID" string_ "id";
                     fld "Action" PaymentUserAction "action";
                     fld "ActionRequired" bool_ "action_required";
                     fld "Details" PaymentResponseDetails "details";
                     fld "ExternalID" string_ "external_id";
                     fld "IsSuccess" bool_ "is_success";
                     fld "ReceiptURL" string_ "receipt_url";
                     fld "PaymentMethod" PaymentMethod "payment_method";
                     fld "Customer" PaymentResponseCustomer "customer"]
                  = Some (0%nat, fld "ID" string_ "id")).
  { unfold find_field. cbn [find_by fld fkey].
    destruct (String.eqb_spec "id" key) as [_|_]; [done|].
    destruct (String.eqb_spec "action" key) as [<-|_]; [by vm_compute in Hfold|].
    destruct (String.eqb_spec "action_required" key) as [<-|_];
      [by vm_compute in Hfold|].
    destruct (String.eqb_spec "details" key) as [<-|_]; [by vm_compute in Hfold|].
    destruct (String.eqb_spec "external_id" key) as [<-|_];
      [by vm_compute in Hfold|].
    destruct (String.eqb_spec "is_success" key) as [<-|_];
      [by vm_compute in Hfold|].
    destruct (String.eqb_spec "receipt_url" key) as [<-|_];
      [by vm_compute in Hfold|].
    destruct (String.eqb_spec "payment_method" key) as [<-|_];
      [by vm_compute in Hfold|].
    destruct (String.eqb_spec "customer" key) as [<-|_];
      [by vm_compute in Hfold|].
    rewrite Hfold. reflexivity. }
  rewrite (decode_members_cons _ (appendString key) (Str (appendString s)) []
             _ DGood key 0%nat (fld "ID" string_ "id") (VString "")
             (VString s));
    [reflexivity | by apply unquote_appendString | exact Hfind | reflexivity |].
  cbn [decode indirect fld ftype string_]. fold (unquote (appendString s)).
  by rewrite (unquote_appendString s Hs).
Qed.

Lemma callback_key_case_witness :
  GetPaymentCallbackFromBytes (sample_client false 200 "")
    (render (Object [(appendString "Id", Str (appendString "pay_1"))]))
  = (VPtr (set_field PaymentResponse "ID" (VString "pay_1")
             (zero PaymentResponse)),
     None).
Proof.
  apply (callback_key_case (sample_client false 200 "") "Id" "pay_1");
    reflexivity.
Defined.

End CallbackMore.

Module ClientJsonMore.
Import Bytes json jsonSpec.

#[local] Open Scope list_scope.

Lemma Send_error_code_witness :
  outside_2xx 402
  /\ exists e code,
      fst (decode declined_tree (TPtr ErrorResponse) VNil) = VPtr e
      /\ sel_string ErrorResponse "Code" e = Some code
      /\ result (Send (sample_client false 402 declined_body) sample_request
                   AnyNil)
         = Returned (Some (fmt.Errorf code))
      /\ (contains "%" code = false -> Error (fmt.Errorf code) = code).
Proof.
  split; [right; lia|].
  apply (ClientJson.Send_error_code (sample_client false 402 declined_body)
           sample_request AnyNil
           {| http.StatusCode := 402; http.ReadAll := inl declined_body |}
           declined_body declined_tree);
    [reflexivity | right; reflexivity | reflexivity | vm_compute; reflexivity
    | intros H; vm_compute in H; discriminate | vm_compute; reflexivity].
Defined.


End ClientJsonMore.
